(** * Device monitoring agent: status classifier, aggregator, probes, API client

    A shallow embedding of [device-monitoring-agent/agent.py] and the
    properties of its core engine.

    Conventions of the embedding
    - Python [float] and [int] metric values are rationals ([Q]); [>=] on
      them is [Qle_bool] with the arguments swapped. Arithmetic on them is
      exact: the rounding of binary64 is not modelled, so a statement on a
      computed value (a mean, a share) holds up to that rounding. NaN and
      the infinities are outside the model: [read_float] tells the texts
      that [float] reads as one of them.
    - Python [int] counters and configuration numbers are [Z].
    - A [dict] with string keys is a [gmap string _]; the agent never
      observes the iteration order of a dict in its results.
    - [Optional[str]] is [option string]; Python truthiness of such a value
      is [truthy].
    - [str] is [string] (code points below 256).
    - An exception is a value of type [exn]; only subclasses of Python's
      [Exception] are modelled (cancellation and keyboard interrupts are
      [BaseException]s and are not outcomes of a network operation).
    - [datetime.now()] and [time.time()] readings are inputs; an instant
      is a number of seconds from [datetime.min]. *)

From Stdlib Require Import ZArith QArith Qabs Qround Lqa String Ascii List.
From stdpp Require Import base option gmap strings list fin_maps pretty.

Open Scope Z_scope.

(** ** Python values *)

(** Truthiness of an [Optional[str]]: [None] and the empty string are false. *)
Definition truthy (e : option string) : bool :=
  match e with
  | None => false
  | Some "" => false
  | Some _ => true
  end.

(** [a >= b] on numbers. *)
Definition Qge_bool (a b : Q) : bool := Qle_bool b a.

(** [a < b] on numbers. *)
Definition Qlt_bool (a b : Q) : bool := negb (Qle_bool b a).

(** [d.get(k, dflt)] *)
Definition dict_get {A} (d : gmap string A) (k : string) (dflt : A) : A :=
  default dflt (d !! k).

(** [d.update(other)]: the keys of [other] overwrite those of [d]. *)
Definition dict_update {A} (d other : gmap string A) : gmap string A :=
  other ∪ d.

(** ** Data model *)

Module DeviceConfig.
Record t := mk {
  id : string;
  name : string;
  type : string;
  ip_address : string;
  location : string;
  monitoring_methods : list string;
  snmp_community : string;
  snmp_port : Z;
  snmp_version : string;
  http_endpoint : option string;
  http_auth : option (gmap string string);
  poll_interval : Z;
  timeout : Z;
  enabled : bool;
  critical_thresholds : gmap string Q;
  warning_thresholds : gmap string Q
}.
End DeviceConfig.

(** The threshold maps [__post_init__] installs when none is given. *)
Definition default_critical_thresholds : gmap string Q :=
  <["cpu_usage" := 90%Q]> (<["memory_usage" := 90%Q]> (<["response_time" := 5000%Q]> ∅)).

Definition default_warning_thresholds : gmap string Q :=
  <["cpu_usage" := 70%Q]> (<["memory_usage" := 75%Q]> (<["response_time" := 2000%Q]> ∅)).

(** The dataclass constructor followed by [__post_init__]: the fields that
    have defaults take them, and an absent threshold map is replaced. *)
Definition DeviceConfig_init (id name type ip_address location : string)
    (monitoring_methods : list string)
    (critical warning : option (gmap string Q)) : DeviceConfig.t :=
  DeviceConfig.mk id name type ip_address location monitoring_methods
    "public" 161 "2c" None None 30 10 true
    (default default_critical_thresholds critical)
    (default default_warning_thresholds warning).

Module DeviceMetrics.
Record t := mk {
  device_id : string;
  timestamp : Z;
  status : string;
  metrics : gmap string Q;
  response_time : Q;
  last_error : option string;
  monitoring_method : string
}.

Definition set_monitoring_method (m : string) (r : t) : t :=
  mk (device_id r) (timestamp r) (status r) (metrics r) (response_time r)
     (last_error r) m.
End DeviceMetrics.

Module APIConfig.
Record t := mk {
  base_url : string;
  username : string;
  password : string;
  timeout : Z;
  retry_attempts : Z;
  retry_delay : Z
}.
End APIConfig.

(** ** DeviceMonitor: the base class and the status classifier *)

Module DeviceMonitor.
Record t := mk {
  config : DeviceConfig.t;
  last_status : string;
  consecutive_failures : Z;
  max_failures : Z;
  last_metrics : gmap string Q
}.

Definition set_consecutive_failures (n : Z) (self : t) : t :=
  mk (config self) (last_status self) n (max_failures self) (last_metrics self).
End DeviceMonitor.

(** [DeviceMonitor.__init__] *)
Definition DeviceMonitor_init (device_config : DeviceConfig.t) : DeviceMonitor.t :=
  DeviceMonitor.mk device_config "unknown" 0 3 ∅.

(** One threshold loop of [determine_status]:
    [for metric, value in metrics.items(): if metric in thresholds: if value
    >= thresholds[metric]: return ...]; [true] when the loop returns. *)
Fixpoint threshold_breach (thresholds : gmap string Q) (items : list (string * Q)) : bool :=
  match items with
  | [] => false
  | (metric, value) :: rest =>
      match thresholds !! metric with
      | Some limit =>
          if Qge_bool value limit then true else threshold_breach thresholds rest
      | None => threshold_breach thresholds rest
      end
  end.

(** [DeviceMonitor.determine_status]; the second component is the monitor
    after the call (its failure counter is mutated). *)
Definition determine_status (self : DeviceMonitor.t) (metrics : gmap string Q)
    (response_time : Q) (error : option string) : string * DeviceMonitor.t :=
  if truthy error then
    let self := DeviceMonitor.set_consecutive_failures
                  (DeviceMonitor.consecutive_failures self + 1) self in
    if DeviceMonitor.consecutive_failures self >=? DeviceMonitor.max_failures self
    then ("offline", self)
    else ("warning", self)
  else
    let self := DeviceMonitor.set_consecutive_failures 0 self in
    let cfg := DeviceMonitor.config self in
    if threshold_breach (DeviceConfig.critical_thresholds cfg) (map_to_list metrics)
    then ("critical", self)
    else if threshold_breach (DeviceConfig.warning_thresholds cfg) (map_to_list metrics)
    then ("warning", self)
    else if Qge_bool response_time
              (dict_get (DeviceConfig.critical_thresholds cfg) "response_time" 5000%Q)
    then ("critical", self)
    else if Qge_bool response_time
              (dict_get (DeviceConfig.warning_thresholds cfg) "response_time" 2000%Q)
    then ("warning", self)
    else ("online", self).

(** ** DeviceAgent.combine_monitoring_results *)

(** The literal [status_priority] of [combine_monitoring_results]. *)
Definition status_priority : gmap string Z :=
  <["offline" := 0]> (<["critical" := 1]> (<["warning" := 2]> (<["online" := 3]> ∅))).

(** Python's [min(iterable, key=...)] after the first element was taken as
    the candidate: a later element replaces it only when its key is
    strictly smaller. *)
Fixpoint min_from {A} (key : A → Z) (best : A) (rest : list A) : A :=
  match rest with
  | [] => best
  | x :: rest' => if key x <? key best then min_from key x rest' else min_from key best rest'
  end.

(** [min(results, key=...)]; [None] stands for the [ValueError] on an
    empty sequence. *)
Definition py_min {A} (key : A → Z) (l : list A) : option A :=
  match l with
  | [] => None
  | x :: rest => Some (min_from key x rest)
  end.

(** [sep.join(parts)] *)
Fixpoint py_join (sep : string) (parts : list string) : string :=
  match parts with
  | [] => ""
  | [p] => p
  | p :: rest => p +:+ sep +:+ py_join sep rest
  end.

(** [all_metrics = {}; for result in results: all_metrics.update(result.metrics)] *)
Definition merge_metrics (results : list DeviceMetrics.t) : gmap string Q :=
  foldl (λ all_metrics result, dict_update all_metrics (DeviceMetrics.metrics result))
        ∅ results.

(** The key of the [min] call: [status_priority.get(r.status, 3)]. *)
Definition priority_of (r : DeviceMetrics.t) : Z :=
  dict_get status_priority (DeviceMetrics.status r) 3.

(** The local variable [worst_status] (a sample, not a status). *)
Definition worst_status (results : list DeviceMetrics.t) : option DeviceMetrics.t :=
  py_min priority_of results.

(** [sum(r.response_time for r in results) / len(results)], computed
    exactly (see the conventions). *)
Definition avg_response_time (results : list DeviceMetrics.t) : Q :=
  (foldl (λ acc r, acc + DeviceMetrics.response_time r) 0 results
   / inject_Z (Z.of_nat (length results)))%Q.

(** [[r.last_error for r in results if r.last_error]] *)
Definition collect_errors (results : list DeviceMetrics.t) : list string :=
  omap (λ r, if truthy (DeviceMetrics.last_error r) then DeviceMetrics.last_error r else None)
       results.

(** [DeviceAgent.combine_monitoring_results]; [now] is the reading of
    [datetime.now()]. *)
Definition combine_monitoring_results (now : Z) (results : list DeviceMetrics.t)
    : option DeviceMetrics.t :=
  match results with
  | [] => None
  | combined :: _ =>
      let all_metrics := merge_metrics results in
      match worst_status results with
      | None => None
      | Some worst =>
          let errors := collect_errors results in
          let combined_error :=
            match errors with [] => None | _ => Some (py_join "; " errors) end in
          Some (DeviceMetrics.mk (DeviceMetrics.device_id combined) now
                  (DeviceMetrics.status worst) all_metrics
                  (avg_response_time results) combined_error "combined")
      end
  end.

(** ** Python text operations used by the probes *)

Definition newline : string := String "010"%char "".

(** [str.isspace] on one code point below 256. *)
Definition is_space (c : ascii) : bool :=
  let n := nat_of_ascii c in
  ((9 <=? n)%nat && (n <=? 13)%nat) || ((28 <=? n)%nat && (n <=? 32)%nat)
  || (n =? 133)%nat || (n =? 160)%nat.

(** [str.lower] on one code point below 256: the ASCII capitals and the
    Latin-1 capitals (192..222 without the multiplication sign). *)
Definition lower_char (c : ascii) : ascii :=
  let n := nat_of_ascii c in
  if ((65 <=? n)%nat && (n <=? 90)%nat)
     || ((192 <=? n)%nat && (n <=? 222)%nat && negb (n =? 215)%nat)
  then ascii_of_nat (n + 32) else c.

Fixpoint py_lower (s : string) : string :=
  match s with
  | EmptyString => EmptyString
  | String c s' => String (lower_char c) (py_lower s')
  end.

(** [sub in s] *)
Fixpoint py_contains (sub s : string) : bool :=
  String.prefix sub s ||
  match s with
  | EmptyString => false
  | String _ s' => py_contains sub s'
  end.

(** Prepend a character to the first piece of a split under construction. *)
Definition cons_head (c : ascii) (pieces : list string) : list string :=
  match pieces with
  | [] => [String c EmptyString]
  | p :: rest => String c p :: rest
  end.

(** [s.split(sep)] for a non-empty [sep], scanning left to right; [skip]
    counts the characters of a separator still to be passed over. *)
Fixpoint split_from (sep s : string) (skip : nat) : list string :=
  match s with
  | EmptyString => [EmptyString]
  | String c s' =>
      match skip with
      | S k => split_from sep s' k
      | O =>
          if String.prefix sep s
          then EmptyString :: split_from sep s' (String.length sep - 1)
          else cons_head c (split_from sep s' 0)
      end
  end.

Definition py_split (sep s : string) : list string := split_from sep s 0.

(** [s.split()]: the maximal runs of non-space characters. *)
Fixpoint py_split_ws (s : string) : list string :=
  match s with
  | EmptyString => []
  | String c s' =>
      if is_space c then py_split_ws s'
      else
        match s' with
        | EmptyString => [String c EmptyString]
        | String c' _ =>
            if is_space c' then String c EmptyString :: py_split_ws s'
            else cons_head c (py_split_ws s')
        end
  end.

(** [s.replace(old, new)] for a non-empty [old]. *)
Fixpoint replace_from (old new s : string) (skip : nat) : string :=
  match s with
  | EmptyString => EmptyString
  | String c s' =>
      match skip with
      | S k => replace_from old new s' k
      | O =>
          if String.prefix old s
          then new +:+ replace_from old new s' (String.length old - 1)
          else String c (replace_from old new s' 0)
      end
  end.

Definition py_replace (old new s : string) : string := replace_from old new s 0.

Fixpoint lstrip (s : string) : string :=
  match s with
  | EmptyString => EmptyString
  | String c s' => if is_space c then lstrip s' else s
  end.

Fixpoint rstrip (s : string) : string :=
  match s with
  | EmptyString => EmptyString
  | String c s' =>
      match rstrip s' with
      | EmptyString => if is_space c then EmptyString else String c EmptyString
      | r => String c r
      end
  end.

(** [s.strip()] *)
Definition py_strip (s : string) : string := rstrip (lstrip s).

Definition digit_of (c : ascii) : option Z :=
  let n := nat_of_ascii c in
  if (48 <=? n)%nat && (n <=? 57)%nat then Some (Z.of_nat n - 48) else None.

(** Reads a run of decimal digits: the number read so far, how many
    digits were read, and what follows them. *)
Fixpoint read_digits (s : string) (acc : Z) (count : nat) : Z * nat * string :=
  match s with
  | EmptyString => (acc, count, s)
  | String c s' =>
      match digit_of c with
      | Some d => read_digits s' (10 * acc + d) (S count)
      | None => (acc, count, s)
      end
  end.

Fixpoint pow10 (n : nat) : positive :=
  match n with
  | O => 1%positive
  | S k => (10 * pow10 k)%positive
  end.

(** The digits of a literal before its exponent: digits, optionally a
    point and more digits, at least one digit in all. The value is the
    integer made of all the digits over the power of ten given by the
    number of decimals; with it comes what follows the digits. *)
Definition read_mantissa (s : string) : option (Q * string) :=
  let '(whole, nw, rest) := read_digits s 0 0 in
  match rest with
  | String "." rest' =>
      let '(all, nf, rest'') := read_digits rest' whole 0 in
      if (0 <? nw + nf)%nat then Some (Qmake all (pow10 nf), rest'') else None
  | _ => if (0 <? nw)%nat then Some (inject_Z whole, rest) else None
  end.

(** An optional sign: whether it is a minus, and what follows it. *)
Definition read_sign (s : string) : bool * string :=
  match s with
  | String "-" s' => (true, s')
  | String "+" s' => (false, s')
  | _ => (false, s)
  end.

(** The exponent of a literal, up to the end of the text: nothing, or [e]
    or [E], an optional sign and at least one digit. *)
Definition read_exponent (s : string) : option Z :=
  match s with
  | EmptyString => Some 0
  | String c s' =>
      if Ascii.eqb c "e" || Ascii.eqb c "E" then
        let '(negative, digits) := read_sign s' in
        match read_digits digits 0 0 with
        | (n, count, EmptyString) =>
            if (0 <? count)%nat then Some (if negative : bool then - n else n) else None
        | _ => None
        end
      else None
  end.

(** [q * 10 ** e] *)
Definition scale10 (q : Q) (e : Z) : Q :=
  match e with
  | 0 => q
  | Zpos _ => Qmake (Qnum q * 10 ^ e) (Qden q)
  | Zneg p => Qmake (Qnum q) (Qden q * 10 ^ p)
  end.

(** The least magnitude that binary64 rounds to an infinity. *)
Definition double_limit : Z := 2 ^ 1024 - 2 ^ 970.

(** The numbers that no [float] holds. *)
Definition beyond_double (q : Q) : bool := Qle_bool (inject_Z double_limit) (Qabs q).

(** The numbers that binary64 rounds to zero: up to [2 ** -1075] in
    magnitude. *)
Definition below_double (q : Q) : bool := Qle_bool (Qabs q) (1 # 2 ^ 1075).

(** White space for [float]: the ASCII blanks and, in a text that has a
    code point above 127, the Unicode spaces, which are U+0085 and U+00A0
    below 256. The separators U+001C to U+001F, white space for
    [str.strip], are not. *)
Definition is_float_space (c : ascii) : bool :=
  let n := nat_of_ascii c in
  ((9 <=? n)%nat && (n <=? 13)%nat) || (n =? 32)%nat || (n =? 133)%nat || (n =? 160)%nat.

Fixpoint lstrip_of (space : ascii → bool) (s : string) : string :=
  match s with
  | EmptyString => EmptyString
  | String c s' => if space c then lstrip_of space s' else s
  end.

Fixpoint rstrip_of (space : ascii → bool) (s : string) : string :=
  match s with
  | EmptyString => EmptyString
  | String c s' =>
      match rstrip_of space s' with
      | EmptyString => if space c then EmptyString else String c EmptyString
      | r => String c r
      end
  end.

Definition is_digit (c : ascii) : bool :=
  match digit_of c with Some _ => true | None => false end.

(** The underscores of a numeric literal: each stands between two digits
    and is dropped; [None] when one does not. [prev] is the character
    before [s]. *)
Fixpoint drop_underscores (prev : ascii) (s : string) : option string :=
  match s with
  | EmptyString => if Ascii.eqb prev "_" then None else Some EmptyString
  | String c s' =>
      if Ascii.eqb c "_" then
        if is_digit prev then drop_underscores c s' else None
      else if Ascii.eqb prev "_" && negb (is_digit c) then None
      else String c <$> drop_underscores c s'
  end.

(** What [float(s)] does with a text: it returns a number, it returns
    [nan] or an infinity, or it raises [ValueError]. *)
Inductive float_text :=
| FloatValue (q : Q)
| FloatNotFinite
| FloatRefused.

(** [float(s)] on text: surrounding white space, an optional sign, then
    [inf], [infinity] or [nan] in any letter case, or digits with an
    optional point and an optional exponent; a literal too large for a
    double reads as an infinity, one too small as zero. The value of any
    other literal is its exact decimal value (see the conventions). *)
Definition read_float (s : string) : float_text :=
  match drop_underscores "000" s with
  | None => FloatRefused
  | Some s =>
      let '(negative, body) :=
        read_sign (rstrip_of is_float_space (lstrip_of is_float_space s)) in
      if existsb (String.eqb (py_lower body)) ["inf"; "infinity"; "nan"] then FloatNotFinite
      else
        match read_mantissa body with
        | None => FloatRefused
        | Some (digits, rest) =>
            match read_exponent rest with
            | None => FloatRefused
            | Some e =>
                let q := scale10 digits e in
                if beyond_double q then FloatNotFinite
                else if below_double q then FloatValue 0
                else FloatValue (if negative : bool then Qopp q else q)
            end
        end
  end.

(** [float(s)] for the numbers of the model; [None] stands for
    [ValueError]. A text that [float] reads as [nan] or an infinity has no
    value here and gives [None] too: a statement that needs a text to be
    refused says so with [read_float]. *)
Definition py_float (s : string) : option Q :=
  match read_float s with
  | FloatValue q => Some q
  | FloatNotFinite | FloatRefused => None
  end.

(** [l[i]] on a list, [None] standing for [IndexError]. *)
Definition py_index {A} (l : list A) (i : nat) : option A := l !! i.

(** [l[i:j]] for [0 <= i <= j]. *)
Definition py_slice {A} (l : list A) (i j : nat) : list A := take (j - i) (drop i l).

(** [x in l] on a list of strings. *)
Definition py_in_list (x : string) (l : list string) : bool :=
  existsb (String.eqb x) l.

(** ** Exceptions *)

Inductive exn_class :=
| TimeoutError | ValueError | JSONDecodeError | IndexError | KeyError
| TypeError | AttributeError | OverflowError | OtherException.

Record exn := mk_exn { exn_cls : exn_class; exn_str : string }.

(** [isinstance(e, c)] among the modelled classes: [JSONDecodeError]
    derives from [ValueError]. *)
Definition isinstance (e : exn) (c : exn_class) : bool :=
  match exn_cls e, c with
  | TimeoutError, TimeoutError | ValueError, ValueError
  | JSONDecodeError, JSONDecodeError | JSONDecodeError, ValueError
  | IndexError, IndexError | KeyError, KeyError | TypeError, TypeError
  | AttributeError, AttributeError | OverflowError, OverflowError
  | OtherException, OtherException => true
  | _, _ => false
  end.

(** A computation that returns or raises. *)
Inductive result (A : Type) :=
| Ok (a : A)
| Raise (e : exn).
Arguments Ok {A} a.
Arguments Raise {A} e.

#[export] Instance result_ret : MRet result := λ A a, Ok a.
#[export] Instance result_bind : MBind result := λ A B f m,
  match m with
  | Ok a => f a
  | Raise e => Raise e
  end.

Definition raise_of {A} (c : exn_class) (msg : string) (o : option A) : result A :=
  match o with
  | Some a => Ok a
  | None => Raise (mk_exn c msg)
  end.

(** [l[i]], raising [IndexError]. *)
Definition getitem {A} (l : list A) (i : nat) : result A :=
  raise_of IndexError "list index out of range" (py_index l i).

(** [float(s)], raising [ValueError]. *)
Definition float_of_str (s : string) : result Q :=
  raise_of ValueError "could not convert string to float" (py_float s).

(** ** PingMonitor *)

(** First loop of [_parse_ping_output]: the first line with a [time=]
    token decides; [Ok None] when no line has one. *)
Fixpoint find_time (lines : list string) : result (option Q) :=
  match lines with
  | [] => Ok None
  | line :: rest =>
      if py_contains "time=" (py_lower line) then
        after ← getitem (py_split "time=" line) 1;
        time_part ← getitem (py_split_ws after) 0;
        response_time ← float_of_str (py_replace "ms" "" time_part);
        Ok (Some response_time)
      else find_time rest
  end.

(** [for i, part in enumerate(parts)] of the second loop; [rest] is
    [parts[i:]]. *)
Fixpoint find_loss_part (parts : list string) (i : nat) (rest : list string)
    : result (option Q) :=
  match rest with
  | [] => Ok None
  | part :: rest' =>
      if py_contains "%" part
         && (py_in_list "packet" (py_slice parts (i + 1) (i + 3))
             || py_in_list "loss" (py_slice parts (i + 1) (i + 3)))
      then
        packet_loss ← float_of_str (py_replace "%" "" part);
        Ok (Some packet_loss)
      else find_loss_part parts (S i) rest'
  end.

(** Second loop of [_parse_ping_output]. *)
Fixpoint find_loss (lines : list string) : result (option Q) :=
  match lines with
  | [] => Ok None
  | line :: rest =>
      if py_contains "% packet loss" line || py_contains "% loss" line then
        let parts := py_split_ws line in
        find_loss_part parts 0 parts
      else find_loss rest
  end.

(** [except (ValueError, IndexError)] *)
Definition value_or_index_error (e : exn) : bool :=
  isinstance e ValueError || isinstance e IndexError.

(** [PingMonitor._parse_ping_output]: an exception in the first loop
    leaves both initial values, one in the second loop keeps the time
    already read. *)
Definition _parse_ping_output (output : string) : result (Q * Q) :=
  let response_time := 0%Q in
  let packet_loss := 100%Q in
  let lines := py_split newline output in
  match find_time lines with
  | Raise e =>
      if value_or_index_error e then Ok (response_time, packet_loss) else Raise e
  | Ok found =>
      let response_time := default response_time found in
      match find_loss lines with
      | Raise e =>
          if value_or_index_error e then Ok (response_time, packet_loss) else Raise e
      | Ok found => Ok (response_time, default packet_loss found)
      end
  end.

(** What the ping subprocess did: [create_subprocess_exec] or [wait_for]
    raised (a [TimeoutError] for the latter's timeout), or the process
    exited; [stdout] and [stderr] are the results of [.decode()] and
    [elapsed_ms] is [(time.time() - start_time) * 1000]. The command line
    (count and timeout flags by platform, the address) only decides which
    outcome occurs. *)
Inductive ping_outcome :=
| PingRaised (e : exn)
| PingExited (returncode : Z) (stdout stderr : result string) (elapsed_ms : Q).

Definition failed_ping_metrics : gmap string Q :=
  <["latency" := 0%Q]> (<["packet_loss" := 100%Q]> (<["uptime" := 0%Q]> ∅)).

(** The [try] block of [PingMonitor.check_device]: the values of [error],
    [response_time] and [metrics] it leaves. *)
Definition ping_try (run : ping_outcome) : result (option string * Q * gmap string Q) :=
  match run with
  | PingRaised e => Raise e
  | PingExited returncode stdout stderr elapsed_ms =>
      let response_time := elapsed_ms in
      if returncode =? 0 then
        output ← stdout;
        '(parsed_time, packet_loss) ← _parse_ping_output output;
        let response_time :=
          if Qlt_bool 0 parsed_time then parsed_time else response_time in
        Ok (None, response_time,
            <["latency" := response_time]>
              (<["packet_loss" := packet_loss]>
                 (<["uptime" := if Qlt_bool packet_loss 100 then 100%Q else 0%Q]> ∅)))
      else
        err ← stderr;
        Ok (Some ("Ping failed: " +:+ py_strip err), response_time, failed_ping_metrics)
  end.

(** [PingMonitor.check_device] *)
Definition PingMonitor_check_device (self : DeviceMonitor.t) (now : Z)
    (run : ping_outcome) : result (DeviceMetrics.t * DeviceMonitor.t) :=
  let cfg := DeviceMonitor.config self in
  let '(error, response_time, metrics) :=
    match ping_try run with
    | Ok locals => locals
    | Raise e =>
        if isinstance e TimeoutError then
          (Some ("Ping timeout after " +:+ pretty (DeviceConfig.timeout cfg) +:+ " seconds"),
           inject_Z (DeviceConfig.timeout cfg * 1000), failed_ping_metrics)
        else
          (Some ("Ping error: " +:+ exn_str e),
           inject_Z (DeviceConfig.timeout cfg * 1000), failed_ping_metrics)
    end in
  let '(status, self) := determine_status self metrics response_time error in
  Ok (DeviceMetrics.mk (DeviceConfig.id cfg) now status metrics response_time error "ping",
      self).

(** ** SNMPMonitor *)

(** The class attribute [OIDS]. *)
Definition OIDS : gmap string string :=
  list_to_map
    [ ("system_uptime", "1.3.6.1.2.1.1.3.0");
      ("system_description", "1.3.6.1.2.1.1.1.0");
      ("system_name", "1.3.6.1.2.1.1.5.0");
      ("cisco_cpu_5min", "1.3.6.1.4.1.9.9.109.1.1.1.1.7.1");
      ("cisco_memory_used", "1.3.6.1.4.1.9.9.48.1.1.1.5.1");
      ("cisco_memory_free", "1.3.6.1.4.1.9.9.48.1.1.1.6.1");
      ("if_number", "1.3.6.1.2.1.2.1.0");
      ("if_descr", "1.3.6.1.2.1.2.2.1.2");
      ("if_type", "1.3.6.1.2.1.2.2.1.3");
      ("if_speed", "1.3.6.1.2.1.2.2.1.5");
      ("if_admin_status", "1.3.6.1.2.1.2.2.1.7");
      ("if_oper_status", "1.3.6.1.2.1.2.2.1.8");
      ("if_in_octets", "1.3.6.1.2.1.2.2.1.10");
      ("if_out_octets", "1.3.6.1.2.1.2.2.1.16");
      ("if_in_errors", "1.3.6.1.2.1.2.2.1.14");
      ("if_out_errors", "1.3.6.1.2.1.2.2.1.20");
      ("hr_cpu_load", "1.3.6.1.2.1.25.3.3.1.2");
      ("hr_memory_size", "1.3.6.1.2.1.25.2.2.0");
      ("hr_storage_used", "1.3.6.1.2.1.25.2.3.1.6");
      ("hr_storage_size", "1.3.6.1.2.1.25.2.3.1.5") ].

(** What one SNMP GET did: it raised, it reported an error indication or
    an error status, or it returned variable bindings (their values as
    [str(varBind[1])]). *)
Inductive snmp_reply :=
| SnmpRaised (e : exn)
| SnmpErrorIndication (what : string)
| SnmpErrorStatus (what : string)
| SnmpVarBinds (values : list string).

(** The device as the SNMP probe sees it: the reply to a GET of each OID. *)
Definition snmp_agent := string → snmp_reply.

(** [SNMPMonitor._snmp_get]: every failure becomes [None]. *)
Definition _snmp_get (net : snmp_agent) (oid : string) : option string :=
  match net oid with
  | SnmpRaised _ => None
  | SnmpErrorIndication _ => None
  | SnmpErrorStatus _ => None
  | SnmpVarBinds [] => None
  | SnmpVarBinds (value :: _) => Some value
  end.

(** [float(x)] of a value known to be a non-empty string. *)
Definition float_of_opt (x : option string) : result Q :=
  match x with
  | Some s => float_of_str s
  | None => Raise (mk_exn TypeError "float() argument must be a string or a real number")
  end.

(** [SNMPMonitor._get_system_metrics]: the [except Exception] of the
    function returns the metrics gathered before the exception. *)
Definition _get_system_metrics (net : snmp_agent) : gmap string Q :=
  let metrics : gmap string Q := ∅ in
  let uptime := _snmp_get net (OIDS !!! "system_uptime") in
  match (if truthy uptime
         then v ← float_of_opt uptime; Ok (<["uptime" := (v / 100)%Q]> metrics)
         else Ok metrics) with
  | Raise _ => metrics
  | Ok metrics =>
      let cpu_usage := _snmp_get net (OIDS !!! "cisco_cpu_5min") in
      let cpu_usage :=
        if negb (truthy cpu_usage) then _snmp_get net (OIDS !!! "hr_cpu_load")
        else cpu_usage in
      match (if truthy cpu_usage
             then v ← float_of_opt cpu_usage; Ok (<["cpu_usage" := v]> metrics)
             else Ok metrics) with
      | Raise _ => metrics
      | Ok metrics =>
          let memory_used := _snmp_get net (OIDS !!! "cisco_memory_used") in
          let memory_free := _snmp_get net (OIDS !!! "cisco_memory_free") in
          match (if truthy memory_used && truthy memory_free then
                   used ← float_of_opt memory_used;
                   free ← float_of_opt memory_free;
                   let total_memory := (used + free)%Q in
                   if Qlt_bool 0 total_memory
                   then Ok (<["memory_usage" := (used / total_memory * 100)%Q]> metrics)
                   else Ok metrics
                 else Ok metrics) with
          | Raise _ => metrics
          | Ok metrics => metrics
          end
      end
  end.

Definition _get_router_metrics : gmap string Q :=
  list_to_map [("routing_table_changes", 5%Q); ("packet_loss", 0.1%Q); ("latency", 15%Q)].

Definition _get_switch_metrics : gmap string Q :=
  list_to_map [("port_status", 95%Q); ("broadcast_storms", 2%Q); ("mac_table_size", 70%Q)].

Definition _get_firewall_metrics : gmap string Q :=
  list_to_map [("active_sessions", 150%Q); ("blocked_traffic", 25%Q);
               ("vpn_tunnels", 8%Q); ("threat_detection", 12%Q)].

(** [SNMPMonitor._get_interface_metrics] *)
Definition _get_interface_metrics (net : snmp_agent) : gmap string Q :=
  if truthy (_snmp_get net (OIDS !!! "if_number")) then
    list_to_map [("interface_bandwidth", 80%Q); ("error_packets", 10%Q);
                 ("traffic_per_port", 60%Q)]
  else ∅.

(** The table [device_defaults] of [_add_default_metrics]. *)
Definition device_defaults : gmap string (gmap string Q) :=
  list_to_map
    [ ("router",
       list_to_map [("cpu_usage", 25%Q); ("interface_bandwidth", 80%Q);
                    ("routing_table_changes", 5%Q); ("packet_loss", 0.1%Q);
                    ("latency", 15%Q); ("uptime", 99.5%Q)]);
      ("switch",
       list_to_map [("port_status", 95%Q); ("traffic_per_port", 60%Q);
                    ("broadcast_storms", 2%Q); ("mac_table_size", 70%Q);
                    ("error_packets", 10%Q); ("uptime", 99.8%Q)]);
      ("firewall",
       list_to_map [("active_sessions", 150%Q); ("blocked_traffic", 25%Q);
                    ("vpn_tunnels", 8%Q); ("cpu_usage", 30%Q);
                    ("memory_usage", 40%Q); ("threat_detection", 12%Q);
                    ("uptime", 99.9%Q)]) ].

(** [SNMPMonitor._add_default_metrics]: a default is added only for a key
    the metrics do not have. *)
Definition _add_default_metrics (self : DeviceMonitor.t) (metrics : gmap string Q)
    : gmap string Q :=
  let defaults :=
    dict_get device_defaults (DeviceConfig.type (DeviceMonitor.config self)) ∅ in
  metrics ∪ defaults.

(** [SNMPMonitor._fallback_to_ping]: a new [PingMonitor] on the same
    configuration runs the check; it is dropped afterwards and the SNMP
    monitor itself is untouched. *)
Definition _fallback_to_ping (self : DeviceMonitor.t) (now : Z) (run : ping_outcome)
    : result (DeviceMetrics.t * DeviceMonitor.t) :=
  let ping_monitor := DeviceMonitor_init (DeviceMonitor.config self) in
  '(result, _) ← PingMonitor_check_device ping_monitor now run;
  Ok (DeviceMetrics.set_monitoring_method "snmp_fallback_ping" result, self).

(** The [try] block of [SNMPMonitor.check_device]; every helper catches
    its own exceptions. *)
Definition snmp_try (self : DeviceMonitor.t) (net : snmp_agent) (elapsed_ms : Q)
    : result (gmap string Q * Q) :=
  let metrics : gmap string Q := ∅ in
  let metrics := dict_update metrics (_get_system_metrics net) in
  let type := DeviceConfig.type (DeviceMonitor.config self) in
  let metrics :=
    if String.eqb type "router" then dict_update metrics _get_router_metrics
    else if String.eqb type "switch" then dict_update metrics _get_switch_metrics
    else if String.eqb type "firewall" then dict_update metrics _get_firewall_metrics
    else metrics in
  let metrics := dict_update metrics (_get_interface_metrics net) in
  Ok (metrics, elapsed_ms).

(** [SNMPMonitor.check_device]; [SNMP_AVAILABLE] is the module flag set by
    the import of pysnmp, [run] is what a ping would do and [net] what
    the SNMP agent of the device answers. *)
Definition SNMPMonitor_check_device (SNMP_AVAILABLE : bool) (self : DeviceMonitor.t)
    (now : Z) (run : ping_outcome) (net : snmp_agent) (elapsed_ms : Q)
    : result (DeviceMetrics.t * DeviceMonitor.t) :=
  if negb SNMP_AVAILABLE then _fallback_to_ping self now run
  else
    let cfg := DeviceMonitor.config self in
    let '(metrics, response_time, error) :=
      match snmp_try self net elapsed_ms with
      | Ok (metrics, response_time) => (metrics, response_time, None)
      | Raise e =>
          (∅, inject_Z (DeviceConfig.timeout cfg * 1000),
           Some ("SNMP monitoring failed: " +:+ exn_str e))
      end in
    let metrics := _add_default_metrics self metrics in
    let '(status, self) := determine_status self metrics response_time error in
    Ok (DeviceMetrics.mk (DeviceConfig.id cfg) now status metrics response_time error "snmp",
        self).

(** Successive calls of [check_device] on one SNMP monitor, as the loop of
    [DeviceAgent.monitor_device] makes them on the monitor object it
    holds; an input gives the instant, what a ping would do, what the SNMP
    agent answers and the time the reads take. *)
Fixpoint SNMPMonitor_checks (SNMP_AVAILABLE : bool) (self : DeviceMonitor.t)
    (inputs : list (Z * ping_outcome * snmp_agent * Q))
    : result (list DeviceMetrics.t * DeviceMonitor.t) :=
  match inputs with
  | [] => Ok ([], self)
  | (now, run, net, elapsed_ms) :: rest =>
      '(sample, self) ← SNMPMonitor_check_device SNMP_AVAILABLE self now run net elapsed_ms;
      '(samples, self) ← SNMPMonitor_checks SNMP_AVAILABLE self rest;
      Ok (sample :: samples, self)
  end.

(** ** HTTPMonitor *)

(** A decoded JSON document; [JNum q] is a number, an [int] or a
    [float], of value [q]. *)
#[warnings="-register-all"]
Inductive json :=
| JNull
| JBool (b : bool)
| JNum (q : Q)
| JStr (s : string)
| JArr (items : list json)
| JObj (fields : gmap string json).

(** [key in data]: membership for a dict, element equality for a list,
    substring for a string, [TypeError] otherwise. *)
Definition json_contains (key : string) (data : json) : result bool :=
  match data with
  | JObj fields => Ok (bool_decide (is_Some (fields !! key)))
  | JArr items =>
      Ok (existsb (λ x, match x with JStr s => String.eqb s key | _ => false end) items)
  | JStr s => Ok (py_contains key s)
  | _ => Raise (mk_exn TypeError "argument is not iterable")
  end.

(** [data[key]] for a string key. *)
Definition json_getitem (data : json) (key : string) : result json :=
  match data with
  | JObj fields => raise_of KeyError key (fields !! key)
  | JArr _ => Raise (mk_exn TypeError "list indices must be integers or slices, not str")
  | JStr _ => Raise (mk_exn TypeError "string indices must be integers, not 'str'")
  | _ => Raise (mk_exn TypeError "object is not subscriptable")
  end.

(** [float(v)]; a number that no double holds is an [int], which
    [float] refuses with [OverflowError]. *)
Definition json_float (v : json) : result Q :=
  match v with
  | JNum q =>
      if beyond_double q
      then Raise (mk_exn OverflowError "int too large to convert to float")
      else Ok q
  | JBool b => Ok (if b then 1%Q else 0%Q)
  | JStr s => float_of_str s
  | _ => Raise (mk_exn TypeError "float() argument must be a string or a real number")
  end.

(** [isinstance(v, dict)] *)
Definition is_dict (v : json) : bool :=
  match v with JObj _ => true | _ => false end.

(** The literal [field_mappings] of [_parse_http_response], in the order
    it is written (the loop runs in that order). *)
Definition field_mappings : list (string * string) :=
  [ ("cpu", "cpu_usage"); ("cpu_usage", "cpu_usage"); ("cpu_percent", "cpu_usage");
    ("memory", "memory_usage"); ("memory_usage", "memory_usage");
    ("memory_percent", "memory_usage"); ("uptime", "uptime");
    ("temperature", "temperature"); ("temp", "temperature");
    ("load", "cpu_load"); ("load_avg", "cpu_load") ].

(** [for api_field, metric_name in field_mappings.items()] with its inner
    [except (ValueError, TypeError): pass]. *)
Fixpoint map_fields (data : json) (mappings : list (string * string))
    (metrics : gmap string Q) : result (gmap string Q) :=
  match mappings with
  | [] => Ok metrics
  | (api_field, metric_name) :: rest =>
      present ← json_contains api_field data;
      if present : bool then
        match (v ← json_getitem data api_field; json_float v) with
        | Ok x => map_fields data rest (<[metric_name := x]> metrics)
        | Raise e =>
            if isinstance e ValueError || isinstance e TypeError
            then map_fields data rest metrics
            else Raise e
        end
      else map_fields data rest metrics
  end.

(** [if key in data: metrics[metric_name] = float(data[key])], unguarded. *)
Definition copy_field (data : json) (key metric_name : string)
    (metrics : gmap string Q) : result (gmap string Q) :=
  present ← json_contains key data;
  if present : bool then
    v ← json_getitem data key;
    x ← json_float v;
    Ok (<[metric_name := x]> metrics)
  else Ok metrics.

(** [if outer in data: sub = data[outer]; if isinstance(sub, dict) and inner
    in sub: metrics[metric_name] = float(sub[inner])] *)
Definition copy_nested (data : json) (outer inner metric_name : string)
    (metrics : gmap string Q) : result (gmap string Q) :=
  present ← json_contains outer data;
  if present : bool then
    sub ← json_getitem data outer;
    if is_dict sub then copy_field sub inner metric_name metrics else Ok metrics
  else Ok metrics.

(** [HTTPMonitor._parse_http_response] *)
Definition _parse_http_response (self : DeviceMonitor.t) (data : json)
    : result (gmap string Q) :=
  metrics ← map_fields data field_mappings ∅;
  let type := DeviceConfig.type (DeviceMonitor.config self) in
  if String.eqb type "router" then
    metrics ← copy_nested data "interfaces" "utilization" "interface_bandwidth" metrics;
    copy_nested data "routing" "changes" "routing_table_changes" metrics
  else if String.eqb type "firewall" then
    metrics ← copy_field data "sessions" "active_sessions" metrics;
    metrics ← copy_field data "blocked" "blocked_traffic" metrics;
    copy_field data "vpn" "vpn_tunnels" metrics
  else Ok metrics.

(** [float(line.split(':')[1].strip().replace('%', ''))] *)
Definition text_value (line : string) : result Q :=
  field ← getitem (py_split ":" line) 1;
  float_of_str (py_replace "%" "" (py_strip field)).

(** The loop of [_parse_text_response] over the lines. *)
Fixpoint scan_text (lines : list string) (metrics : gmap string Q) : result (gmap string Q) :=
  match lines with
  | [] => Ok metrics
  | line :: rest =>
      let line := py_lower (py_strip line) in
      if py_contains "cpu:" line || py_contains "cpu usage:" line then
        match text_value line with
        | Ok value => scan_text rest (<["cpu_usage" := value]> metrics)
        | Raise e =>
            if value_or_index_error e then scan_text rest metrics else Raise e
        end
      else if py_contains "memory:" line || py_contains "memory usage:" line then
        match text_value line with
        | Ok value => scan_text rest (<["memory_usage" := value]> metrics)
        | Raise e =>
            if value_or_index_error e then scan_text rest metrics else Raise e
        end
      else scan_text rest metrics
  end.

(** [HTTPMonitor._parse_text_response] *)
Definition _parse_text_response (text : string) : result (gmap string Q) :=
  scan_text (py_split newline text) ∅.

(** What the GET did: something raised before a status was read (a
    [TimeoutError] for the client timeout), or a response arrived;
    [json_body] and [text_body] are what [response.json()] and
    [response.text()] do when called. *)
Inductive http_outcome :=
| HttpRaised (e : exn)
| HttpResponse (status : Z) (reason : string) (elapsed_ms : Q)
    (json_body : result json) (text_body : result string).

(** The device as the HTTP probe sees it: the outcome of a GET of a URL
    with optional basic-auth credentials. *)
Definition http_server := string → option (string * string) → http_outcome.

(** [aiohttp.BasicAuth(http_auth['username'], http_auth['password'])] when
    [http_auth] is a non-empty dict. *)
Definition basic_auth (http_auth : option (gmap string string))
    : result (option (string * string)) :=
  match http_auth with
  | None => Ok None
  | Some d =>
      if bool_decide (d = ∅) then Ok None
      else
        username ← raise_of KeyError "'username'" (d !! "username");
        password ← raise_of KeyError "'password'" (d !! "password");
        Ok (Some (username, password))
  end.

(** [self.config.http_endpoint or f"http://{self.config.ip_address}/api/status"] *)
Definition http_url (cfg : DeviceConfig.t) : string :=
  if truthy (DeviceConfig.http_endpoint cfg)
  then default "" (DeviceConfig.http_endpoint cfg)
  else "http://" +:+ DeviceConfig.ip_address cfg +:+ "/api/status".

(** The [try] block of [HTTPMonitor.check_device]: the values of
    [metrics], [response_time] and [error] it leaves. *)
Definition http_try (self : DeviceMonitor.t) (net : http_server)
    : result (gmap string Q * Q * option string) :=
  let cfg := DeviceMonitor.config self in
  auth ← basic_auth (DeviceConfig.http_auth cfg);
  let url := http_url cfg in
  match net url auth with
  | HttpRaised e => Raise e
  | HttpResponse status reason elapsed_ms json_body text_body =>
      let response_time := elapsed_ms in
      if status =? 200 then
        match (data ← json_body; _parse_http_response self data) with
        | Ok metrics => Ok (metrics, response_time, None)
        | Raise e =>
            if isinstance e JSONDecodeError then
              text_data ← text_body;
              metrics ← _parse_text_response text_data;
              Ok (metrics, response_time, None)
            else Raise e
        end
      else
        Ok (∅, response_time, Some ("HTTP " +:+ pretty status +:+ ": " +:+ reason))
  end.

(** [HTTPMonitor.check_device]; [metrics] still has its initial value, the
    empty dict, when a handler runs. *)
Definition HTTPMonitor_check_device (self : DeviceMonitor.t) (now : Z)
    (net : http_server) : result (DeviceMetrics.t * DeviceMonitor.t) :=
  let cfg := DeviceMonitor.config self in
  let '(metrics, response_time, error) :=
    match http_try self net with
    | Ok locals => locals
    | Raise e =>
        if isinstance e TimeoutError then
          (∅, inject_Z (DeviceConfig.timeout cfg * 1000),
           Some ("HTTP request timeout after " +:+ pretty (DeviceConfig.timeout cfg)
                 +:+ " seconds"))
        else
          (∅, inject_Z (DeviceConfig.timeout cfg * 1000),
           Some ("HTTP monitoring failed: " +:+ exn_str e))
    end in
  let '(status, self) := determine_status self metrics response_time error in
  Ok (DeviceMetrics.mk (DeviceConfig.id cfg) now status metrics response_time error "http",
      self).

(** ** APIClient *)

(** Truthiness of a JSON value as a Python object. *)
Definition json_truthy (v : json) : bool :=
  match v with
  | JNull => false
  | JBool b => b
  | JNum q => negb (Qeq_bool q 0)
  | JStr s => negb (String.eqb s "")
  | JArr items => match items with [] => false | _ => true end
  | JObj fields => negb (bool_decide (fields = ∅))
  end.

Module APIClient.
(** [token] is [JNull] while the attribute is [None]; [token_expires] is
    an instant in seconds. The aiohttp session is the [backend] below. *)
Record t := mk {
  config : APIConfig.t;
  token : json;
  token_expires : option Q
}.

Definition set_token (v : json) (self : t) : t :=
  mk (config self) v (token_expires self).
Definition set_token_expires (v : option Q) (self : t) : t :=
  mk (config self) (token self) v.
End APIClient.

(** [APIClient.__init__] *)
Definition APIClient_init (config : APIConfig.t) : APIClient.t :=
  APIClient.mk config JNull None.

(** What the backend did with one request: the request raised, or a
    response arrived with a status and a body ([body] is what
    [response.json()] does when called). *)
Inductive reply :=
| ReplyRaised (e : exn)
| Reply (status : Z) (body : result json).

(** What the client did, as the backend and the clock see it; a request
    carries the token of its [Authorization] header ([JNull] when the
    header is absent). *)
Inductive event :=
| EvLogin (username password : string)
| EvGet (token : json)
| EvPost (device_data : json) (token : json)
| EvPut (device_id : string) (update_data : json) (token : json)
| EvSleep (seconds : Z).

(** The backend and the clock: the replies to the requests still to come
    (a request after the last one finds the backend unreachable), the
    reading of [datetime.now()] in seconds from [datetime.min], and the
    events so far, oldest first. *)
Record backend := mk_backend {
  replies : list reply;
  now : Q;
  trace : list event
}.

(** Computations of the client: they read and write the client object and
    the backend. *)
Definition api (A : Type) : Type := APIClient.t * backend → A * (APIClient.t * backend).

#[export] Instance api_ret : MRet api := λ A a s, (a, s).
#[export] Instance api_bind : MBind api := λ A B f m s,
  let '(a, s') := m s in f a s'.

Definition get_self : api APIClient.t := λ s, (s.1, s).
Definition set_self (self : APIClient.t) : api unit := λ s, (tt, (self, s.2)).
Definition get_now : api Q := λ s, (now s.2, s).

(** One request: it is recorded and the next reply is consumed. *)
Definition request (ev : event) : api reply := λ s,
  let w := s.2 in
  match replies w with
  | [] => (ReplyRaised (mk_exn OtherException "Cannot connect to host"),
           (s.1, mk_backend [] (now w) (trace w ++ [ev])))
  | r :: rest => (r, (s.1, mk_backend rest (now w) (trace w ++ [ev])))
  end.

(** [await asyncio.sleep(seconds)] *)
Definition sleep (seconds : Z) : api unit := λ s,
  let w := s.2 in
  (tt, (s.1, mk_backend (replies w) (now w + inject_Z seconds)%Q (trace w ++ [EvSleep seconds]))).

(** The integer nearest to [q], a half going to the even neighbour. *)
Definition round_half_even (q : Q) : Z :=
  let n := Qfloor q in
  match (q - inject_Z n ?= 1 # 2)%Q with
  | Lt => n
  | Gt => n + 1
  | Eq => if Z.even n then n else n + 1
  end.

(** [timedelta(seconds=x)], as a number of seconds: [x] to the nearest
    microsecond, [OverflowError] beyond 999999999 days either way. *)
Definition timedelta (seconds : Q) : result Q :=
  let microseconds := round_half_even (seconds * 1000000) in
  let days := microseconds / 86400000000 in
  if (-999999999 <=? days) && (days <=? 999999999)
  then Ok (Qred (microseconds # 1000000))
  else Raise (mk_exn OverflowError "days must have magnitude <= 999999999").

(** The end of the instants a [datetime] holds (the years 1 to 9999), in
    seconds from [datetime.min]. *)
Definition datetime_end : Q := 315537897600.

(** [t + delta] for a [datetime] and a [timedelta]. *)
Definition datetime_add (t delta : Q) : result Q :=
  let sum := (t + delta)%Q in
  if Qle_bool 0 sum && Qlt_bool sum datetime_end then Ok sum
  else Raise (mk_exn OverflowError "date value out of range").

(** [timedelta(seconds=expires_in - 300)] for the value of the
    [expires_in] field. A lifetime that is a whole number of seconds is
    treated as Python does; for another one Python subtracts and scales in
    binary64, where the model rounds the exact value (see the
    conventions). *)
Definition seconds_of (expires_in : json) : result Q :=
  match expires_in with
  | JNum q => timedelta (q - 300)
  | JBool b => timedelta ((if b then 1 else 0) - 300)
  | _ => Raise (mk_exn TypeError "unsupported operand type(s) for -")
  end.

(** [data.get(key, dflt)] on a decoded body. *)
Definition json_get (data : json) (key : string) (dflt : json) : result json :=
  match data with
  | JObj fields => Ok (default dflt (fields !! key))
  | _ => Raise (mk_exn AttributeError "object has no attribute 'get'")
  end.

(** [APIClient.authenticate]: the token is stored as soon as it is read,
    before the expiry is computed; every exception gives [False], also
    one of the computation of the expiry. *)
Definition authenticate : api bool :=
  self ← get_self;
  let cfg := APIClient.config self in
  r ← request (EvLogin (APIConfig.username cfg) (APIConfig.password cfg));
  match r with
  | ReplyRaised _ => mret false
  | Reply status body =>
      if status =? 200 then
        match (data ← body; tok ← json_getitem data "token"; Ok (data, tok)) with
        | Raise _ => mret false
        | Ok (data, tok) =>
            set_self (APIClient.set_token tok self);;
            match (expires_in ← json_get data "expires_in" (JNum (24 * 3600)%Q);
                   seconds_of expires_in) with
            | Raise _ => mret false
            | Ok seconds =>
                t ← get_now;
                match datetime_add t seconds with
                | Raise _ => mret false
                | Ok expires =>
                    set_self (APIClient.set_token_expires (Some expires)
                                (APIClient.set_token tok self));;
                    mret true
                end
            end
        end
      else mret false
  end.

(** The test of [_ensure_authenticated]:
    [not self.token or (self.token_expires and datetime.now() >= self.token_expires)] *)
Definition token_stale (self : APIClient.t) (t : Q) : bool :=
  negb (json_truthy (APIClient.token self))
  || match APIClient.token_expires self with
     | Some expires => Qge_bool t expires
     | None => false
     end.

(** [APIClient._ensure_authenticated] *)
Definition _ensure_authenticated : api unit :=
  self ← get_self;
  t ← get_now;
  if token_stale self t then authenticate;; mret tt else mret tt.

(** [APIClient.get_devices]: one request, an empty list on any failure. *)
Definition get_devices : api json :=
  _ensure_authenticated;;
  self ← get_self;
  r ← request (EvGet (APIClient.token self));
  match r with
  | ReplyRaised _ => mret (JArr [])
  | Reply status body =>
      if status =? 200 then
        match body with
        | Ok devices => mret devices
        | Raise _ => mret (JArr [])
        end
      else mret (JArr [])
  end.

(** The [except Exception] arm of the retry loops:
    [if attempt < retry_attempts - 1: await asyncio.sleep(retry_delay)]. *)
Definition pause_before_retry (attempt : nat) : api unit :=
  self ← get_self;
  let cfg := APIClient.config self in
  if Z.of_nat attempt <? APIConfig.retry_attempts cfg - 1
  then sleep (APIConfig.retry_delay cfg)
  else mret tt.

(** The loop of [create_device] over the attempts still to make. *)
Fixpoint create_attempts (device_data : json) (attempts : list nat) : api bool :=
  match attempts with
  | [] => mret false
  | attempt :: rest =>
      self ← get_self;
      r ← request (EvPost device_data (APIClient.token self));
      let outcome : result bool :=
        match r with
        | ReplyRaised e => Raise e
        | Reply status body =>
            if status =? 200 then
              _ ← body; _ ← json_getitem device_data "name"; Ok true
            else
              error_data ← body;
              _ ← json_get error_data "error" (JStr "Unknown error");
              Ok false
        end in
      match outcome with
      | Ok b => mret b
      | Raise _ => pause_before_retry attempt;; create_attempts device_data rest
      end
  end.

(** [range(n)] *)
Definition py_range (n : Z) : list nat := seq 0 (Z.to_nat n).

(** [APIClient.create_device] *)
Definition create_device (device_data : json) : api bool :=
  _ensure_authenticated;;
  self ← get_self;
  create_attempts device_data (py_range (APIConfig.retry_attempts (APIClient.config self))).

(** The loop of [update_device] over the attempts still to make; a 401
    re-authenticates and goes on to the next attempt. *)
Fixpoint update_attempts (device_id : string) (update_data : json)
    (attempts : list nat) : api bool :=
  match attempts with
  | [] => mret false
  | attempt :: rest =>
      self ← get_self;
      r ← request (EvPut device_id update_data (APIClient.token self));
      match r with
      | ReplyRaised _ =>
          pause_before_retry attempt;; update_attempts device_id update_data rest
      | Reply status body =>
          if status =? 200 then mret true
          else if status =? 401 then
            authenticate;; update_attempts device_id update_data rest
          else
            match (error_data ← body;
                   json_get error_data "error" (JStr "Unknown error")) with
            | Ok _ => mret false
            | Raise _ =>
                pause_before_retry attempt;; update_attempts device_id update_data rest
            end
      end
  end.

(** [APIClient.update_device] *)
Definition update_device (device_id : string) (update_data : json) : api bool :=
  _ensure_authenticated;;
  self ← get_self;
  update_attempts device_id update_data
    (py_range (APIConfig.retry_attempts (APIClient.config self))).

(** ** DeviceAgent

    The configuration file is an input in its parsed form; the asyncio
    tasks of [start] and [stop] and the signal handlers are not modelled. *)

(** A monitor object: its class and its state. *)
Inductive monitor :=
| PingMonitor (self : DeviceMonitor.t)
| SNMPMonitor (self : DeviceMonitor.t)
| HTTPMonitor (self : DeviceMonitor.t).

Module DeviceAgent.
(** The asyncio tasks, the signal handlers and the [running] flag they
    clear are not part of the record: how often the flag is found set is an
    input of [monitor_device]. *)
Record t := mk {
  devices : gmap string DeviceConfig.t;
  monitors : gmap string (list monitor);
  api_config : option APIConfig.t
}.
End DeviceAgent.

(** What a lookup in the parsed configuration file finds: nothing (the
    section or the option is missing, which a [fallback] replaces), a
    value, or an exception (a value that does not convert, an
    interpolation error). *)
Inductive found (A : Type) :=
| Missing
| Found (a : A)
| Failed (e : exn).
Arguments Missing {A}.
Arguments Found {A} a.
Arguments Failed {A} e.

(** The [ConfigParser] after [config.read]: its sections in file order and
    what its accessors answer without a [fallback]. *)
Module ConfigParser.
Record t := mk {
  sections : list string;
  has_section : string → bool;
  get : string → string → found string;
  getint : string → string → found Z;
  getboolean : string → string → found bool
}.
End ConfigParser.

(** An accessor called without [fallback]. *)
Definition required {A} (x : found A) : result A :=
  match x with
  | Missing => Raise (mk_exn OtherException "No option in section")
  | Found a => Ok a
  | Failed e => Raise e
  end.

(** An accessor called with [fallback=dflt]. *)
Definition with_fallback {A} (x : found A) (dflt : A) : result A :=
  match x with
  | Missing => Ok dflt
  | Found a => Ok a
  | Failed e => Raise e
  end.

(** [config.get(section, option, fallback=None)] *)
Definition optional {A} (x : found A) : result (option A) :=
  match x with
  | Missing => Ok None
  | Found a => Ok (Some a)
  | Failed e => Raise e
  end.

(** The [APIConfig(...)] call of [load_configuration]. *)
Definition load_api_config (config : ConfigParser.t) : result APIConfig.t :=
  base_url ← with_fallback (ConfigParser.get config "api" "base_url") "http://localhost:5000/api";
  username ← with_fallback (ConfigParser.get config "api" "username") "Admin";
  password ← with_fallback (ConfigParser.get config "api" "password") "Admin123";
  timeout ← with_fallback (ConfigParser.getint config "api" "timeout") 30;
  retry_attempts ← with_fallback (ConfigParser.getint config "api" "retry_attempts") 3;
  retry_delay ← with_fallback (ConfigParser.getint config "api" "retry_delay") 5;
  Ok (APIConfig.mk base_url username password timeout retry_attempts retry_delay).

(** The [DeviceConfig(...)] call of [load_configuration], with
    [__post_init__]: no threshold map and no [http_auth] is passed. *)
Definition load_device (config : ConfigParser.t) (section : string) : result DeviceConfig.t :=
  name ← required (ConfigParser.get config section "name");
  type ← required (ConfigParser.get config section "type");
  ip_address ← required (ConfigParser.get config section "ip_address");
  location ← required (ConfigParser.get config section "location");
  methods ← required (ConfigParser.get config section "monitoring_methods");
  let monitoring_methods := py_strip <$> py_split "," methods in
  snmp_community ← with_fallback (ConfigParser.get config section "snmp_community") "public";
  snmp_port ← with_fallback (ConfigParser.getint config section "snmp_port") 161;
  snmp_version ← with_fallback (ConfigParser.get config section "snmp_version") "2c";
  http_endpoint ← optional (ConfigParser.get config section "http_endpoint");
  poll_interval ← with_fallback (ConfigParser.getint config section "poll_interval") 30;
  timeout ← with_fallback (ConfigParser.getint config section "timeout") 10;
  enabled ← with_fallback (ConfigParser.getboolean config section "enabled") true;
  Ok (DeviceConfig.mk section name type ip_address location monitoring_methods
        snmp_community snmp_port snmp_version http_endpoint None poll_interval timeout
        enabled default_critical_thresholds default_warning_thresholds).

(** The monitor [setup_monitors] builds for one method name, if any. *)
Definition monitor_of_method (device_config : DeviceConfig.t) (method : string)
    : option monitor :=
  let method := py_lower (py_strip method) in
  if String.eqb method "ping" then Some (PingMonitor (DeviceMonitor_init device_config))
  else if String.eqb method "snmp" then Some (SNMPMonitor (DeviceMonitor_init device_config))
  else if String.eqb method "http" then Some (HTTPMonitor (DeviceMonitor_init device_config))
  else None.

(** The loop of [setup_monitors]: [monitors.append(...)] for each method
    that is known. *)
Definition build_monitors (device_config : DeviceConfig.t) : list monitor :=
  foldl (λ monitors method,
           match monitor_of_method device_config method with
           | Some monitor => monitors ++ [monitor]
           | None => monitors
           end)
        [] (DeviceConfig.monitoring_methods device_config).

(** [DeviceAgent.setup_monitors] *)
Definition setup_monitors (self : DeviceAgent.t) (device_config : DeviceConfig.t)
    : DeviceAgent.t :=
  match build_monitors device_config with
  | [] => self
  | monitors =>
      DeviceAgent.mk (DeviceAgent.devices self)
        (<[DeviceConfig.id device_config := monitors]> (DeviceAgent.monitors self))
        (DeviceAgent.api_config self)
  end.

(** The loop of [load_configuration] over the sections; an exception while
    a device is read skips that device. *)
Fixpoint load_devices (config : ConfigParser.t) (todo : list string) (self : DeviceAgent.t)
    : DeviceAgent.t :=
  match todo with
  | [] => self
  | section :: rest =>
      if String.prefix "device_" section then
        match load_device config section with
        | Ok device_config =>
            if DeviceConfig.enabled device_config then
              let self :=
                DeviceAgent.mk (<[section := device_config]> (DeviceAgent.devices self))
                  (DeviceAgent.monitors self) (DeviceAgent.api_config self) in
              load_devices config rest (setup_monitors self device_config)
            else load_devices config rest self
        | Raise _ => load_devices config rest self
        end
      else load_devices config rest self
  end.

(** [DeviceAgent.load_configuration] on the parsed file (written with the
    defaults first when it did not exist). *)
Definition load_configuration (config : ConfigParser.t) (self : DeviceAgent.t)
    : result DeviceAgent.t :=
  self ← (if ConfigParser.has_section config "api" then
            api_config ← load_api_config config;
            Ok (DeviceAgent.mk (DeviceAgent.devices self) (DeviceAgent.monitors self)
                  (Some api_config))
          else Ok self);
  Ok (load_devices config (ConfigParser.sections config) self).

(** [DeviceAgent.__init__] *)
Definition DeviceAgent_init (config : ConfigParser.t) : result DeviceAgent.t :=
  load_configuration config (DeviceAgent.mk ∅ ∅ None).

(** Iterating over a decoded body: the items of a list, the keys of a
    dict, the characters of a string; [TypeError] otherwise. *)
Definition json_iter (data : json) : result (list json) :=
  match data with
  | JArr items => Ok items
  | JObj fields => Ok ((λ kv, JStr kv.1) <$> map_to_list fields)
  | JStr s => Ok ((λ c, JStr (String c "")) <$> list_ascii_of_string s)
  | _ => Raise (mk_exn TypeError "object is not iterable")
  end.

(** [any(d.get('id') == id for d in devices)]: it stops at the first match
    and raises at an item that has no [get]. *)
Fixpoint any_has_id (id : string) (devices : list json) : result bool :=
  match devices with
  | [] => Ok false
  | d :: rest =>
      v ← json_get d "id" JNull;
      if match v with JStr s => String.eqb s id | _ => false end
      then Ok true
      else any_has_id id rest
  end.

(** The literal [create_data] of [ensure_device_exists]. *)
Definition create_data (device_config : DeviceConfig.t) : json :=
  JObj (list_to_map
          [ ("name", JStr (DeviceConfig.name device_config));
            ("type", JStr (DeviceConfig.type device_config));
            ("location", JStr (DeviceConfig.location device_config));
            ("status", JStr "online");
            ("metrics", JObj ∅) ]).

(** [DeviceAgent.ensure_device_exists]: an exception is logged and
    nothing is created. *)
Definition ensure_device_exists (device_config : DeviceConfig.t) : api unit :=
  devices ← get_devices;
  match (items ← json_iter devices; any_has_id (DeviceConfig.id device_config) items) with
  | Raise _ => mret tt
  | Ok true => mret tt
  | Ok false => create_device (create_data device_config);; mret tt
  end.

(** What the device does while one monitor checks it: the instant, the
    outcome of a ping, the answers of the SNMP agent and the time the reads
    take, the answers of the HTTP server. *)
Record probe_input := mk_probe_input {
  at_time : Z;
  ping_run : ping_outcome;
  snmp_net : snmp_agent;
  snmp_elapsed_ms : Q;
  http_net : http_server
}.

(** [monitor.check_device()]: the method of the monitor's class. *)
Definition check_device (SNMP_AVAILABLE : bool) (m : monitor) (input : probe_input)
    : result (DeviceMetrics.t * monitor) :=
  match m with
  | PingMonitor self =>
      '(result, self) ← PingMonitor_check_device self (at_time input) (ping_run input);
      Ok (result, PingMonitor self)
  | SNMPMonitor self =>
      '(result, self) ← SNMPMonitor_check_device SNMP_AVAILABLE self (at_time input)
                          (ping_run input) (snmp_net input) (snmp_elapsed_ms input);
      Ok (result, SNMPMonitor self)
  | HTTPMonitor self =>
      '(result, self) ← HTTPMonitor_check_device self (at_time input) (http_net input);
      Ok (result, HTTPMonitor self)
  end.

(** [for monitor in monitors: results.append(await monitor.check_device())];
    [world i] is what the device does during the check of the monitor at
    index [i]. The monitors are returned as the checks left them; one whose
    check raised is returned as it was. *)
Fixpoint run_monitors (SNMP_AVAILABLE : bool) (monitors : list monitor) (i : nat)
    (world : nat → probe_input) : list monitor * result (list DeviceMetrics.t) :=
  match monitors with
  | [] => ([], Ok [])
  | m :: rest =>
      match check_device SNMP_AVAILABLE m (world i) with
      | Raise e => (m :: rest, Raise e)
      | Ok (result, m) =>
          let '(rest, results) := run_monitors SNMP_AVAILABLE rest (S i) world in
          (m :: rest, results ← results; Ok (result :: results))
      end
  end.

(** The JSON form of the update: [{'status': ..., 'metrics': ...}]. *)
Definition update_data (combined : DeviceMetrics.t) : json :=
  JObj (list_to_map
          [ ("status", JStr (DeviceMetrics.status combined));
            ("metrics", JObj (JNum <$> DeviceMetrics.metrics combined)) ]).

(** What happens around one pass of the loop of [monitor_device]: what the
    device does during the checks, and the instant of the aggregation. *)
Record cycle_input := mk_cycle_input {
  probes : nat → probe_input;
  combined_at : Z
}.

(** One pass of the [while self.running] loop of [monitor_device]. *)
Definition monitor_cycle (SNMP_AVAILABLE : bool) (device_id : string)
    (device_config : DeviceConfig.t) (monitors : list monitor) (last_status : string)
    (input : cycle_input) : api (list monitor * string) :=
  let '(monitors, results) := run_monitors SNMP_AVAILABLE monitors 0 (probes input) in
  match results with
  | Raise _ => sleep 60;; mret (monitors, last_status)
  | Ok results =>
      match combine_monitoring_results (combined_at input) results with
      | Some combined_metrics =>
          success ← update_device device_id (update_data combined_metrics);
          let last_status :=
            if negb (String.eqb (DeviceMetrics.status combined_metrics) last_status)
            then DeviceMetrics.status combined_metrics
            else last_status in
          sleep (DeviceConfig.poll_interval device_config);;
          mret (monitors, last_status)
      | None =>
          sleep (DeviceConfig.poll_interval device_config);;
          mret (monitors, last_status)
      end
  end.

(** The loop of [monitor_device]; [cycles] has an entry for each time the
    [running] flag is found set. *)
Fixpoint monitor_loop (SNMP_AVAILABLE : bool) (device_id : string)
    (device_config : DeviceConfig.t) (monitors : list monitor) (last_status : string)
    (cycles : list cycle_input) : api (list monitor * string) :=
  match cycles with
  | [] => mret (monitors, last_status)
  | input :: rest =>
      '(monitors, last_status) ←
        monitor_cycle SNMP_AVAILABLE device_id device_config monitors last_status input;
      monitor_loop SNMP_AVAILABLE device_id device_config monitors last_status rest
  end.

(** [APIClient.__aenter__]: the session is opened and a login is tried. *)
Definition APIClient_aenter : api unit := authenticate;; mret tt.

(** [DeviceAgent.monitor_device]: the agent with the monitors as the
    checks left them, and the backend after the session; [KeyError] for a
    device that is not registered. *)
Definition monitor_device (SNMP_AVAILABLE : bool) (self : DeviceAgent.t)
    (device_id : string) (cycles : list cycle_input) (w : backend)
    : result (DeviceAgent.t * backend) :=
  device_config ← raise_of KeyError device_id (DeviceAgent.devices self !! device_id);
  match dict_get (DeviceAgent.monitors self) device_id [] with
  | [] => Ok (self, w)
  | monitors =>
      match DeviceAgent.api_config self with
      | None => Ok (self, w)
      | Some api_config =>
          let session :=
            APIClient_aenter;;
            ensure_device_exists device_config;;
            monitor_loop SNMP_AVAILABLE device_id device_config monitors "unknown" cycles in
          let '((monitors, _), (_, w)) := session (APIClient_init api_config, w) in
          Ok (DeviceAgent.mk (DeviceAgent.devices self)
                (<[device_id := monitors]> (DeviceAgent.monitors self))
                (DeviceAgent.api_config self), w)
      end
  end.

(** * Vocabulary of the statements *)

(** ** Sample data *)

Definition sample_config : DeviceConfig.t :=
  DeviceConfig_init "device_router_01" "Main Router" "router" "192.168.1.1"
    "Server Room A" ["ping"; "snmp"] None None.

Definition sample_of (status : string) (metrics : gmap string Q) (method : string)
    : DeviceMetrics.t :=
  DeviceMetrics.mk "device_router_01" 0 status metrics 10%Q None method.

Definition sample_api_config : APIConfig.t :=
  APIConfig.mk "http://localhost:5000/api" "Admin" "Admin123" 30 3 5.

Definition sample_client : APIClient.t :=
  APIClient.mk sample_api_config (JStr "token-1") None.

Definition sample_update : json :=
  JObj (<["status" := JStr "online"]> (<["metrics" := JObj ∅]> ∅)).

Definition connection_reset : exn := mk_exn OtherException "Connection reset by peer".

Definition unavailable_server : http_server :=
  λ _ _, HttpResponse 503 "Service Unavailable" 12%Q
           (Raise (mk_exn JSONDecodeError "Expecting value")) (Ok "").

(** What [ping -c 3] prints on Linux when every reply takes 23.4 ms. *)
Definition sample_ping_lines : list string :=
  [ "PING 192.168.1.1 (192.168.1.1) 56(84) bytes of data.";
    "64 bytes from 192.168.1.1: icmp_seq=1 ttl=64 time=23.4 ms";
    "64 bytes from 192.168.1.1: icmp_seq=2 ttl=64 time=23.4 ms";
    "64 bytes from 192.168.1.1: icmp_seq=3 ttl=64 time=23.4 ms";
    "";
    "--- 192.168.1.1 ping statistics ---";
    "3 packets transmitted, 3 received, 0% packet loss, time 2003ms";
    "rtt min/avg/max/mdev = 23.400/23.400/23.400/0.000 ms";
    "" ].

(** ** Order of the statuses *)

(** The statuses, worst first. *)
Definition severity_order : list string := ["offline"; "critical"; "warning"; "online"].

(** Position of a status in a list of statuses. *)
Fixpoint position_in (s : string) (l : list string) : option nat :=
  match l with
  | [] => None
  | x :: rest => if String.eqb x s then Some O else S <$> position_in s rest
  end.

Definition severity (s : string) : option nat := position_in s severity_order.

(** [a] is strictly worse than [b]. *)
Definition worse (a b : string) : Prop :=
  ∃ i j, severity a = Some i ∧ severity b = Some j ∧ (i < j)%nat.

(** [a] is at least as bad as [b]. *)
Definition worse_or_same (a b : string) : Prop :=
  ∃ i j, severity a = Some i ∧ severity b = Some j ∧ (i ≤ j)%nat.

(** ** Failures of the network operations *)

(** A ping failed when something raised, the exit status was not zero, or
    the output could not be decoded. *)
Definition ping_failed (run : ping_outcome) : bool :=
  match run with
  | PingRaised _ => true
  | PingExited returncode stdout stderr _ =>
      negb (returncode =? 0) || match stdout with Raise _ => true | Ok _ => false end
  end.

(** A reply to an SNMP GET that carries no value. *)
Definition snmp_failed (r : snmp_reply) : bool :=
  match r with
  | SnmpVarBinds (_ :: _) => false
  | _ => true
  end.

(** Reading the body of a response raised; a body that is not JSON is read
    again as text, and only an exception there counts. *)
Definition body_unreadable (json_body : result json) (text_body : result string) : bool :=
  match json_body with
  | Ok _ => false
  | Raise e =>
      if isinstance e JSONDecodeError
      then match text_body with Raise _ => true | Ok _ => false end
      else true
  end.

(** A GET failed when something raised, the status was not 200, or the
    body could not be read. *)
Definition http_failed (o : http_outcome) : bool :=
  match o with
  | HttpRaised _ => true
  | HttpResponse status _ _ json_body text_body =>
      negb (status =? 200) || body_unreadable json_body text_body
  end.

(** A transport error (the request raised, or reading the body did), or a
    response whose status is not in 200..299. *)
Definition transport_error_or_not_2xx (o : http_outcome) : Prop :=
  match o with
  | HttpRaised _ => True
  | HttpResponse status _ _ json_body text_body =>
      ¬ (200 ≤ status ≤ 299) ∨ body_unreadable json_body text_body = true
  end.

(** The metric map of the ping scenario. *)
Definition scenario_metrics : gmap string Q :=
  <["latency" := 23.4%Q]> (<["packet_loss" := 0%Q]> (<["uptime" := 100%Q]> ∅)).

(** ** Traces of the API client *)

(** The login request of a client. *)
Definition login_event (self : APIClient.t) : event :=
  EvLogin (APIConfig.username (APIClient.config self))
          (APIConfig.password (APIClient.config self)).

(** How many logins [_ensure_authenticated] makes: one when the token is
    missing or expired, none otherwise. *)
Definition stale_logins (self : APIClient.t) (w : backend) : nat :=
  if token_stale self (now w) then 1%nat else 0%nat.

(** The requests of a retry loop with the pauses between them. *)
Fixpoint with_pauses (delay : Z) (requests : list event) : list event :=
  match requests with
  | [] => []
  | [r] => [r]
  | r :: rest => r :: EvSleep delay :: with_pauses delay rest
  end.

(** The backend after some replies were consumed and the events [evs]
    recorded, the clock untouched. *)
Definition served (w : backend) (rest : list reply) (evs : list event) : backend :=
  mk_backend rest (now w) (trace w ++ evs).

(** The backend after a pause. *)
Definition paused (w : backend) (seconds : Z) : backend :=
  mk_backend (replies w) (now w + inject_Z seconds)%Q (trace w ++ [EvSleep seconds]).

(** The backend after an attempt of [self] that raised: the request is
    recorded and, unless the attempt was the last one configured, a pause
    follows. *)
Definition after_raise (self : APIClient.t) (w : backend) (rest : list reply)
    (req : event) (attempt : nat) : backend :=
  if Z.of_nat attempt <? APIConfig.retry_attempts (APIClient.config self) - 1
  then paused (served w rest [req]) (APIConfig.retry_delay (APIClient.config self))
  else served w rest [req].

(** An error response whose body decodes to a JSON object; [accepted] are
    the statuses that are not errors for the call. *)
Definition error_response (r : reply) (accepted : list Z) : Prop :=
  match r with
  | Reply status (Ok (JObj _)) => status ∉ accepted
  | _ => False
  end.

(** ** Runs of the classifier *)

(** Successive calls of [determine_status] on one monitor, as the checks
    of a probe make them: the answers in order, and the monitor after the
    last call. *)
Fixpoint determine_status_calls (self : DeviceMonitor.t)
    (calls : list (gmap string Q * Q * option string)) : list string * DeviceMonitor.t :=
  match calls with
  | [] => ([], self)
  | (metrics, response_time, error) :: rest =>
      let '(status, self) := determine_status self metrics response_time error in
      let '(statuses, self) := determine_status_calls self rest in
      (status :: statuses, self)
  end.

(** Every metric that has a limit in [thresholds] is below it. *)
Definition below_limits (thresholds metrics : gmap string Q) : Prop :=
  ∀ metric value limit,
    metrics !! metric = Some value → thresholds !! metric = Some limit → (value < limit)%Q.

(** ** Metric maps *)

(** The keys of a metric map are among [names]. *)
Definition keys_within (names : list string) (m : gmap string Q) : Prop :=
  ∀ k, is_Some (m !! k) → k ∈ names.

(** The metrics the HTTP probe can report. *)
Definition http_metric_names : list string :=
  ["cpu_usage"; "memory_usage"; "uptime"; "temperature"; "cpu_load";
   "interface_bandwidth"; "routing_table_changes";
   "active_sessions"; "blocked_traffic"; "vpn_tunnels"].

(** The value of a field of a JSON object as a number, when the field is
    present and [float] returns a number for it. *)
Definition numeric (fields : gmap string json) (key : string) : option Q :=
  match fields !! key with
  | Some v => match json_float v with Ok q => Some q | Raise _ => None end
  | None => None
  end.

(** The first of two optional values that is present. *)
Definition or_else {A} (x y : option A) : option A :=
  match x with Some _ => x | None => y end.

(** One step of the mapping loop of [_parse_http_response] on a JSON
    object: a field that is a number sets its metric, any other field is
    passed over. *)
Definition mapped (fields : gmap string json) (metrics : gmap string Q)
    (mapping : string * string) : gmap string Q :=
  match numeric fields mapping.1 with
  | Some x => <[mapping.2 := x]> metrics
  | None => metrics
  end.

(** No field of the object is a text that [float] reads as [nan] or as
    an infinity: the numbers of the body are numbers of the model. *)
Definition finite_texts (fields : gmap string json) : bool :=
  forallb (λ field, match field.2 with
                    | JStr s => match read_float s with FloatNotFinite => false | _ => true end
                    | _ => true
                    end)
          (map_to_list fields).

(** The values that [float] raises on: null, a list, an object, a text it
    refuses, an integer that no double holds. *)
Definition float_raises (v : json) : bool :=
  match v with
  | JNull | JArr _ | JObj _ => true
  | JBool _ => false
  | JNum q => beyond_double q
  | JStr s => match read_float s with FloatRefused => true | _ => false end
  end.

(** A decoded body the HTTP probe cannot use: null, a boolean or a number
    or, for a firewall, an object with one of the fields [sessions],
    [blocked], [vpn] present with a value that [float] raises on. *)
Definition unusable_body (self : DeviceMonitor.t) (data : json) : Prop :=
  match data with
  | JNull | JBool _ | JNum _ => True
  | JObj fields =>
      DeviceConfig.type (DeviceMonitor.config self) = "firewall" ∧
      ∃ key v, key ∈ ["sessions"; "blocked"; "vpn"] ∧
               fields !! key = Some v ∧ float_raises v = true
  | _ => False
  end.

(** ** Logins and listings *)

(** The computation raised an exception of the class [c]. *)
Definition raises {A} (r : result A) (c : exn_class) : bool :=
  match r with
  | Raise e => isinstance e c
  | Ok _ => false
  end.

(** An instant that a [datetime] holds. *)
Definition is_datetime (t : Q) : Prop := (0 <= t < datetime_end)%Q.

(** A reply to a login that carries no token: the request raised, the
    status is not 200, or the body has no [token] field to read. *)
Definition login_rejected (r : reply) : Prop :=
  match r with
  | ReplyRaised _ => True
  | Reply status body =>
      status ≠ 200 ∨
      match body with
      | Raise _ => True
      | Ok (JObj fields) => fields !! "token" = None
      | Ok _ => True
      end
  end.

(** What [get_devices] hands over for a reply to its request. *)
Definition listed (listing : reply) : json :=
  match listing with
  | Reply 200 (Ok devices) => devices
  | _ => JArr []
  end.

(** An item of a listing that is an object with another id, or with none. *)
Definition other_device (id : string) (d : json) : Prop :=
  ∃ fields, d = JObj fields ∧ fields !! "id" ≠ Some (JStr id).

(** ** Monitors and the agent *)

(** The state of a monitor object and the method its class stands for. *)
Definition monitor_state (m : monitor) : DeviceMonitor.t :=
  match m with PingMonitor self | SNMPMonitor self | HTTPMonitor self => self end.

Definition monitor_method (m : monitor) : string :=
  match m with
  | PingMonitor _ => "ping"
  | SNMPMonitor _ => "snmp"
  | HTTPMonitor _ => "http"
  end.

(** [m'] is [m] after some checks: the same class, configuration and
    failure limit. *)
Definition same_monitor (m m' : monitor) : Prop :=
  monitor_method m' = monitor_method m ∧
  DeviceMonitor.config (monitor_state m') = DeviceMonitor.config (monitor_state m) ∧
  DeviceMonitor.max_failures (monitor_state m') = DeviceMonitor.max_failures (monitor_state m).

(** The devices and monitors an agent holds when the sections [seen] of
    the configuration have been read: the enabled devices whose section
    loads, and for each of them that has one, its list of monitors. *)
Definition registered (config : ConfigParser.t) (seen : list string) (self : DeviceAgent.t)
    : Prop :=
  (∀ id device_config,
     DeviceAgent.devices self !! id = Some device_config ↔
     id ∈ seen ∧ String.prefix "device_" id = true ∧
     load_device config id = Ok device_config ∧
     DeviceConfig.enabled device_config = true) ∧
  (∀ id monitors,
     DeviceAgent.monitors self !! id = Some monitors ↔
     ∃ device_config,
       DeviceAgent.devices self !! id = Some device_config ∧
       monitors = build_monitors device_config ∧ monitors ≠ []).

(** A parsed configuration: a router with a method the agent does not
    know, a disabled switch, a device section without address, and a
    section that is not a device. *)
Definition sample_parsed_config : ConfigParser.t :=
  let options : list (string * string * string) :=
    [ ("api", "base_url", "http://localhost:5000/api");
      ("device_router_01", "name", "Main Router");
      ("device_router_01", "type", "router");
      ("device_router_01", "ip_address", "192.168.1.1");
      ("device_router_01", "location", "Server Room A");
      ("device_router_01", "monitoring_methods", "ping, SNMP,telnet");
      ("device_lab", "name", "Lab Switch");
      ("device_lab", "type", "switch");
      ("device_lab", "ip_address", "192.168.7.2");
      ("device_lab", "location", "Lab");
      ("device_lab", "monitoring_methods", "ping");
      ("device_lab", "enabled", "false");
      ("device_spare", "name", "Spare") ] in
  let get section option :=
    match list_find (λ entry, bool_decide (entry.1 = (section, option))) options with
    | Some (_, entry) => Found entry.2
    | None => Missing
    end in
  ConfigParser.mk ["api"; "device_router_01"; "device_lab"; "device_spare"; "logging"]
    (λ section, bool_decide (section ∈ ["api"; "device_router_01"; "device_lab";
                                         "device_spare"; "logging"]))
    get
    (λ _ _, Missing)
    (λ section option,
       match get section option with
       | Found "false" => Found false
       | Found "true" => Found true
       | Found _ => Failed (mk_exn ValueError "Not a boolean")
       | Missing => Missing
       | Failed e => Failed e
       end).

Definition sample_router : DeviceConfig.t :=
  DeviceConfig.mk "device_router_01" "Main Router" "router" "192.168.1.1" "Server Room A"
    ["ping"; "SNMP"; "telnet"] "public" 161 "2c" None None 30 10 true
    default_critical_thresholds default_warning_thresholds.

(** The agent that [sample_parsed_config] gives. *)
Definition sample_agent : DeviceAgent.t :=
  DeviceAgent.mk (<["device_router_01" := sample_router]> ∅)
    (<["device_router_01" := [PingMonitor (DeviceMonitor_init sample_router);
                              SNMPMonitor (DeviceMonitor_init sample_router)]]> ∅)
    (Some sample_api_config).

(** A pass of the monitoring loop during which the device answers
    nothing: the ping exits with status 1, the SNMP agent and the HTTP
    server report errors. *)
Definition sample_outage : cycle_input :=
  mk_cycle_input
    (λ _, mk_probe_input 0 (PingExited 1 (Ok "") (Ok "") 3012%Q)
            (λ _, SnmpErrorStatus "noSuchName") 0 unavailable_server) 0.

(** * Properties *)

(** ** The Python operations on known values *)

Example py_split_comma : py_split "," "a,b,,c," = ["a"; "b"; ""; "c"; ""].
Proof. reflexivity. Qed.

Example py_split_overlap :
  py_split "ab" "ababxabab" = [""; ""; "x"; ""; ""] ∧ py_split "aa" "aaa" = [""; "a"].
Proof. split; reflexivity. Qed.

Example py_split_ws_line :
  py_split_ws (" 3 received," +:+ String "009" "0% packet loss " +:+ newline)
  = ["3"; "received,"; "0%"; "packet"; "loss"].
Proof. reflexivity. Qed.

Example py_replace_known :
  py_replace "ms" "" "23ms" = "23" ∧ py_replace "aa" "b" "aaaaa" = "bba".
Proof. split; reflexivity. Qed.

Example py_strip_known :
  py_strip ("  a b " +:+ String "009" "") = "a b" ∧ py_strip (" " +:+ newline +:+ " ") = "".
Proof. split; reflexivity. Qed.

Example py_lower_known : py_lower "TIME=AbcZ" = "time=abcz".
Proof. reflexivity. Qed.

Example py_float_known :
  py_float "23.4" = Some 23.4%Q ∧ py_float " -1.50 " = Some (-1.50)%Q ∧
  py_float "1." = Some 1%Q ∧ py_float ".5" = Some 0.5%Q ∧
  py_float "" = None ∧ py_float "." = None ∧ py_float "12a" = None.
Proof. repeat split; reflexivity. Qed.

Example read_float_known :
  read_float "1e5" = FloatValue 100000%Q ∧ read_float "1_000.5E-1" = FloatValue (10005 # 100) ∧
  read_float (String "160" "7") = FloatValue 7%Q ∧
  read_float "-inf" = FloatNotFinite ∧ read_float " NaN " = FloatNotFinite ∧
  read_float "1e400" = FloatNotFinite ∧ read_float "-1e-400" = FloatValue 0%Q ∧
  read_float "1e" = FloatRefused ∧ read_float "1__0" = FloatRefused ∧
  read_float (String "028" "7") = FloatRefused ∧ read_float "0x10" = FloatRefused.
Proof. repeat split; reflexivity. Qed.

Example py_slice_known :
  py_slice ["a"; "b"; "c"; "d"] 1 3 = ["b"; "c"] ∧
  py_slice ["a"; "b"] 1 3 = ["b"] ∧ py_slice ["a"; "b"] 2 4 = [].
Proof. repeat split; reflexivity. Qed.

Example py_join_known :
  py_join "; " ["a"; "b"; "c"] = "a; b; c" ∧ py_join "; " ["a"] = "a" ∧ py_join "; " [] = "".
Proof. repeat split; reflexivity. Qed.

Example py_min_first :
  py_min snd [("w", 2); ("c", 1); ("d", 1)] = Some ("c", 1).
Proof. reflexivity. Qed.

Example seconds_of_known :
  seconds_of (JNum 3600%Q) = Ok 3300%Q ∧ seconds_of (JBool true) = Ok (-299)%Q ∧
  seconds_of (JNum 300.0000004%Q) = Ok 0%Q ∧ seconds_of (JNum 3600.5%Q) = Ok (6601 # 2) ∧
  raises (seconds_of (JNum 86400000000300%Q)) OverflowError = true ∧
  raises (seconds_of (JStr "3600")) TypeError = true ∧
  raises (datetime_add 63900000000 999999999700) OverflowError = true.
Proof. repeat split; reflexivity. Qed.

(** ** The status classifier *)

Lemma Qge_bool_iff (a b : Q) : Qge_bool a b = true ↔ (b <= a)%Q.
Proof. unfold Qge_bool. apply Qle_bool_iff. Qed.

(** A threshold loop returns exactly when some item reaches its limit. *)
Lemma threshold_breach_true (thresholds : gmap string Q) (items : list (string * Q)) :
  threshold_breach thresholds items = true ↔
  ∃ metric value limit,
    (metric, value) ∈ items ∧ thresholds !! metric = Some limit ∧ (limit <= value)%Q.
Proof.
  induction items as [|[m v] items IH]; simpl.
  - split; [discriminate|]. intros (? & ? & ? & Hin & _). by apply elem_of_nil in Hin.
  - destruct (thresholds !! m) as [limit|] eqn:Hm.
    + destruct (Qge_bool v limit) eqn:Hge.
      * split; [intros _|done]. exists m, v, limit.
        split; [left|]. split; [done|]. by apply Qge_bool_iff.
      * rewrite IH. split.
        -- intros (m' & v' & l' & Hin & Hl & Hle). exists m', v', l'.
           split; [by right|done].
        -- intros (m' & v' & l' & Hin & Hl & Hle).
           apply elem_of_cons in Hin as [Heq|Hin].
           ++ injection Heq as -> ->. rewrite Hm in Hl. injection Hl as <-.
              apply Qge_bool_iff in Hle. congruence.
           ++ by exists m', v', l'.
    + rewrite IH. split.
      * intros (m' & v' & l' & Hin & Hl & Hle). exists m', v', l'.
        split; [by right|done].
      * intros (m' & v' & l' & Hin & Hl & Hle).
        apply elem_of_cons in Hin as [Heq|Hin].
        -- injection Heq as -> ->. congruence.
        -- by exists m', v', l'.
Qed.

(** C1. With no error present, a metric that has a critical threshold and
    a value at or above it makes [determine_status] return ["critical"],
    whatever the other metrics, the warning thresholds and the response
    time are. *)
Theorem determine_status_critical
    (self : DeviceMonitor.t) (metrics : gmap string Q) (response_time : Q)
    (error : option string) (metric : string) (value limit : Q) :
  truthy error = false →
  metrics !! metric = Some value →
  DeviceConfig.critical_thresholds (DeviceMonitor.config self) !! metric = Some limit →
  (limit <= value)%Q →
  (determine_status self metrics response_time error).1 = "critical".
Proof.
  intros Herr Hm Hl Hle. unfold determine_status. rewrite Herr. simpl.
  assert (threshold_breach
            (DeviceConfig.critical_thresholds (DeviceMonitor.config self))
            (map_to_list metrics) = true) as ->; [|done].
  apply threshold_breach_true. exists metric, value, limit.
  split; [|done]. by apply elem_of_map_to_list.
Qed.

(** A router at 95% CPU, above the critical limit of 90, and 80% memory,
    above the warning limit of 75 only. *)
Lemma determine_status_critical_witness :
  (determine_status (DeviceMonitor_init sample_config)
     (<["cpu_usage" := 95%Q]> (<["memory_usage" := 80%Q]> ∅)) 10%Q None).1 = "critical".
Proof.
  apply (determine_status_critical _ _ _ _ "cpu_usage" 95%Q 90%Q);
    [reflexivity | reflexivity | reflexivity | by vm_compute].
Defined.

(** An errored call counts one more failure and answers by the count. *)
Lemma determine_status_error (self : DeviceMonitor.t) (metrics : gmap string Q)
    (response_time : Q) (error : option string) :
  truthy error = true →
  determine_status self metrics response_time error =
    let n := DeviceMonitor.consecutive_failures self + 1 in
    (if n >=? DeviceMonitor.max_failures self then "offline" else "warning",
     DeviceMonitor.set_consecutive_failures n self).
Proof.
  intros Herr. unfold determine_status. rewrite Herr. simpl.
  by destruct (_ >=? _).
Qed.

(** A call without error leaves the counter at zero. *)
Lemma determine_status_resets (self : DeviceMonitor.t) (metrics : gmap string Q)
    (response_time : Q) (error : option string) :
  truthy error = false →
  DeviceMonitor.consecutive_failures (determine_status self metrics response_time error).2 = 0.
Proof.
  intros Herr. unfold determine_status. rewrite Herr.
  repeat (match goal with |- context [if ?b then _ else _] => destruct b end); done.
Qed.

(** Without error the answer is never ["offline"]. *)
Lemma determine_status_no_error_not_offline (self : DeviceMonitor.t)
    (metrics : gmap string Q) (response_time : Q) (error : option string) :
  truthy error = false →
  (determine_status self metrics response_time error).1 ≠ "offline".
Proof.
  intros Herr. unfold determine_status. rewrite Herr.
  repeat (match goal with |- context [if ?b then _ else _] => destruct b end); done.
Qed.

(** C2. From a failure counter of zero, three calls in a row with an error
    answer ["warning"], ["warning"], ["offline"]; and any call without an
    error puts the counter back to zero. *)
Theorem three_failures_then_offline
    (self : DeviceMonitor.t)
    (m1 m2 m3 : gmap string Q) (r1 r2 r3 : Q) (e1 e2 e3 : option string) :
  DeviceMonitor.consecutive_failures self = 0 →
  DeviceMonitor.max_failures self = 3 →
  truthy e1 = true → truthy e2 = true → truthy e3 = true →
  let '(s1, self1) := determine_status self m1 r1 e1 in
  let '(s2, self2) := determine_status self1 m2 r2 e2 in
  let '(s3, self3) := determine_status self2 m3 r3 e3 in
  (s1 = "warning" ∧ s2 = "warning" ∧ s3 = "offline") ∧
  ∀ (other : DeviceMonitor.t) (m : gmap string Q) (r : Q) (e : option string),
    truthy e = false →
    DeviceMonitor.consecutive_failures (determine_status other m r e).2 = 0.
Proof.
  intros H0 Hmax He1 He2 He3.
  destruct (determine_status self m1 r1 e1) as [s1 self1] eqn:E1.
  destruct (determine_status self1 m2 r2 e2) as [s2 self2] eqn:E2.
  destruct (determine_status self2 m3 r3 e3) as [s3 self3] eqn:E3.
  rewrite determine_status_error in E1, E2, E3 by done.
  cbn zeta in E1, E2, E3. rewrite H0, Hmax in E1.
  injection E1 as <- <-. simpl in E2. rewrite Hmax in E2.
  injection E2 as <- <-. simpl in E3. rewrite Hmax in E3.
  injection E3 as <- <-.
  split; [done|]. intros. by apply determine_status_resets.
Qed.

(** Three timeouts in a row on a new monitor. *)
Lemma three_failures_then_offline_witness :
  let '(s1, self1) := determine_status (DeviceMonitor_init sample_config) ∅ 0%Q (Some "timeout") in
  let '(s2, self2) := determine_status self1 ∅ 0%Q (Some "timeout") in
  let '(s3, self3) := determine_status self2 ∅ 0%Q (Some "timeout") in
  (s1 = "warning" ∧ s2 = "warning" ∧ s3 = "offline") ∧
  ∀ (other : DeviceMonitor.t) (m : gmap string Q) (r : Q) (e : option string),
    truthy e = false →
    DeviceMonitor.consecutive_failures (determine_status other m r e).2 = 0.
Proof.
  apply (three_failures_then_offline (DeviceMonitor_init sample_config));
    reflexivity.
Defined.

(** ** The result aggregator *)

(** [min] with a key returns the first element whose key is least. *)
Lemma min_from_first {A} (key : A → Z) (rest : list A) : ∀ best : A,
  ∃ l1 l2,
    best :: rest = l1 ++ min_from key best rest :: l2 ∧
    Forall (λ r, key (min_from key best rest) < key r) l1 ∧
    Forall (λ r, key (min_from key best rest) ≤ key r) l2.
Proof.
  induction rest as [|x rest IH]; intros best; simpl.
  - exists [], []. by repeat split.
  - destruct (key x <? key best) eqn:Hlt.
    + apply Z.ltb_lt in Hlt.
      destruct (IH x) as (l1 & l2 & Heq & H1 & H2).
      exists (best :: l1), l2. split; [simpl; f_equal; exact Heq|]. split; [|done].
      constructor; [|done].
      destruct l1 as [|y l1]; simpl in Heq.
      * injection Heq as Hx _. rewrite <- Hx. lia.
      * injection Heq as <- _. apply Forall_cons in H1 as [H1 _]. lia.
    + apply Z.ltb_ge in Hlt.
      destruct (IH best) as (l1 & l2 & Heq & H1 & H2).
      destruct l1 as [|y l1]; simpl in Heq.
      * injection Heq as Hb Hr. exists [], (x :: l2). simpl.
        split; [do 2 f_equal; [exact Hb|exact Hr]|]. split; [done|].
        constructor; [|done]. rewrite <- Hb. lia.
      * injection Heq as <- Hr. exists (best :: x :: l1), l2. simpl.
        split; [do 2 f_equal; exact Hr|]. split; [|done].
        apply Forall_cons in H1 as [Hb H1].
        constructor; [done|]. constructor; [lia|done].
Qed.

(** On the four statuses the key of the [min] call is the position in
    [severity_order]. *)
Lemma priority_is_severity (r : DeviceMetrics.t) :
  DeviceMetrics.status r ∈ severity_order →
  ∃ n, severity (DeviceMetrics.status r) = Some n ∧ priority_of r = Z.of_nat n.
Proof.
  unfold priority_of, severity_order. intros Hin.
  repeat (apply elem_of_cons in Hin as [->|Hin]; [by eexists|]).
  by apply elem_of_nil in Hin.
Qed.

(** C3. For a non-empty list of samples whose statuses are among the four,
    the aggregated status is the status of the selected sample [worst]:
    no sample has a worse status, and every sample before it in probe
    order has a strictly better one, so among the samples sharing the
    worst status it is the first. *)
Theorem combined_status_is_worst (now : Z) (results : list DeviceMetrics.t) :
  results ≠ [] →
  Forall (λ r, DeviceMetrics.status r ∈ severity_order) results →
  ∃ combined before worst after,
    combine_monitoring_results now results = Some combined ∧
    worst_status results = Some worst ∧
    results = before ++ worst :: after ∧
    DeviceMetrics.status combined = DeviceMetrics.status worst ∧
    Forall (λ r, worse (DeviceMetrics.status worst) (DeviceMetrics.status r)) before ∧
    Forall (λ r, worse_or_same (DeviceMetrics.status worst) (DeviceMetrics.status r)) after.
Proof.
  intros Hne Hknown. destruct results as [|first rest]; [done|].
  destruct (min_from_first priority_of rest first) as (l1 & l2 & Heq & H1 & H2).
  set (w := min_from priority_of first rest) in *.
  assert (Hw : DeviceMetrics.status w ∈ severity_order).
  { rewrite Forall_forall in Hknown. apply Hknown.
    rewrite Heq. apply elem_of_app. right. left. }
  destruct (priority_is_severity w Hw) as (i & Hi & Hpi).
  eexists _, l1, w, l2. split; [reflexivity|]. split; [reflexivity|].
  split; [done|]. split; [done|].
  assert (Hsub : ∀ r, r ∈ l1 ++ w :: l2 → DeviceMetrics.status r ∈ severity_order).
  { intros r Hr. rewrite <- Heq in Hr. rewrite Forall_forall in Hknown. by apply Hknown. }
  split; apply Forall_forall; intros r Hr.
  - destruct (priority_is_severity r) as (j & Hj & Hpj).
    { apply Hsub, elem_of_app. by left. }
    rewrite Forall_forall in H1. specialize (H1 r Hr). exists i, j. repeat split; [done..|lia].
  - destruct (priority_is_severity r) as (j & Hj & Hpj).
    { apply Hsub, elem_of_app. right. by right. }
    rewrite Forall_forall in H2. specialize (H2 r Hr). exists i, j. repeat split; [done..|lia].
Qed.

(** A warning from ping and two criticals, from SNMP and HTTP: the SNMP
    sample is selected. *)
Lemma combined_status_is_worst_witness :
  let results := [sample_of "warning" ∅ "ping"; sample_of "critical" ∅ "snmp";
                  sample_of "critical" ∅ "http"] in
  ∃ combined before worst after,
    combine_monitoring_results 7 results = Some combined ∧
    worst_status results = Some worst ∧
    results = before ++ worst :: after ∧
    DeviceMetrics.status combined = DeviceMetrics.status worst ∧
    Forall (λ r, worse (DeviceMetrics.status worst) (DeviceMetrics.status r)) before ∧
    Forall (λ r, worse_or_same (DeviceMetrics.status worst) (DeviceMetrics.status r)) after.
Proof.
  apply combined_status_is_worst; [done|].
  repeat constructor.
Defined.

(** The accumulator of the merge loop keeps its keys and gains those of
    the samples. *)
Lemma merge_loop_dom (results : list DeviceMetrics.t) : ∀ acc : gmap string Q,
  dom (foldl (λ all_metrics result, dict_update all_metrics (DeviceMetrics.metrics result))
         acc results)
  = dom acc ∪ ⋃ ((λ r, dom (DeviceMetrics.metrics r)) <$> results).
Proof.
  induction results as [|r results IH]; intros acc; simpl.
  - by rewrite (right_id_L ∅ (∪)).
  - rewrite IH. unfold dict_update. rewrite dom_union_L.
    by rewrite (comm_L (∪) (dom (DeviceMetrics.metrics r))), (assoc_L (∪)).
Qed.

(** Samples without a key leave its entry in the accumulator alone. *)
Lemma merge_loop_absent (k : string) (results : list DeviceMetrics.t) :
  ∀ acc : gmap string Q,
  Forall (λ r, DeviceMetrics.metrics r !! k = None) results →
  foldl (λ all_metrics result, dict_update all_metrics (DeviceMetrics.metrics result))
    acc results !! k = acc !! k.
Proof.
  induction results as [|r results IH]; intros acc Hnone; simpl; [done|].
  apply Forall_cons in Hnone as [Hr Hnone]. rewrite IH by done.
  unfold dict_update. by rewrite lookup_union_r.
Qed.

(** C7. For a non-empty list of samples, the keys of the aggregated
    metrics are the union of the keys of the samples, and a key takes the
    value of the last sample, in probe order, that has it. *)
Theorem combined_metrics_union (now : Z) (results : list DeviceMetrics.t) :
  results ≠ [] →
  ∃ combined,
    combine_monitoring_results now results = Some combined ∧
    dom (DeviceMetrics.metrics combined)
      = ⋃ ((λ r, dom (DeviceMetrics.metrics r)) <$> results) ∧
    ∀ before r after k v,
      results = before ++ r :: after →
      DeviceMetrics.metrics r !! k = Some v →
      Forall (λ r', DeviceMetrics.metrics r' !! k = None) after →
      DeviceMetrics.metrics combined !! k = Some v.
Proof.
  intros Hne. destruct results as [|first rest]; [done|].
  eexists. split; [reflexivity|]. cbn [DeviceMetrics.metrics]. split.
  - unfold merge_metrics. rewrite merge_loop_dom. by rewrite dom_empty_L, (left_id_L ∅ (∪)).
  - intros before r after k v Heq Hk Hafter. unfold merge_metrics.
    rewrite Heq, foldl_app. simpl. rewrite merge_loop_absent by done.
    unfold dict_update. by apply lookup_union_Some_l.
Qed.

(** Ping and SNMP both report a latency: the SNMP value is kept. *)
Lemma combined_metrics_union_witness :
  let results := [sample_of "online" (<["latency" := 23.4%Q]> ∅) "ping";
                  sample_of "online" (<["latency" := 15%Q]> (<["cpu_usage" := 25%Q]> ∅)) "snmp"] in
  ∃ combined,
    combine_monitoring_results 7 results = Some combined ∧
    dom (DeviceMetrics.metrics combined)
      = ⋃ ((λ r, dom (DeviceMetrics.metrics r)) <$> results) ∧
    ∀ before r after k v,
      results = before ++ r :: after →
      DeviceMetrics.metrics r !! k = Some v →
      Forall (λ r', DeviceMetrics.metrics r' !! k = None) after →
      DeviceMetrics.metrics combined !! k = Some v.
Proof.
  apply combined_metrics_union. done.
Defined.

(** ** The probes *)

Lemma getitem_raises {A} (l : list A) (i : nat) (e : exn) :
  getitem l i = Raise e → value_or_index_error e = true.
Proof. unfold getitem, raise_of. destruct (py_index l i); [done|]. by intros [= <-]. Qed.

Lemma float_of_str_raises (s : string) (e : exn) :
  float_of_str s = Raise e → value_or_index_error e = true.
Proof. unfold float_of_str, raise_of. destruct (py_float s); [done|]. by intros [= <-]. Qed.

(** The loops of [_parse_ping_output] raise nothing but what its handler
    catches. *)
Lemma find_time_raises (lines : list string) (e : exn) :
  find_time lines = Raise e → value_or_index_error e = true.
Proof.
  induction lines as [|line rest IH]; simpl; [done|].
  destruct (py_contains "time=" (py_lower line)); [|done].
  destruct (getitem (py_split "time=" line) 1) as [after|e1] eqn:E1; simpl.
  2:{ intros [= <-]. by eapply getitem_raises. }
  destruct (getitem (py_split_ws after) 0) as [part|e2] eqn:E2; simpl.
  2:{ intros [= <-]. by eapply getitem_raises. }
  destruct (float_of_str _) as [v|e3] eqn:E3; simpl; [done|].
  intros [= <-]. by eapply float_of_str_raises.
Qed.

Lemma find_loss_part_raises (parts rest : list string) (e : exn) : ∀ i,
  find_loss_part parts i rest = Raise e → value_or_index_error e = true.
Proof.
  induction rest as [|part rest IH]; intros i; simpl; [done|].
  destruct (_ && _); [|by apply IH].
  destruct (float_of_str _) as [v|e3] eqn:E3; simpl; [done|].
  intros [= <-]. by eapply float_of_str_raises.
Qed.

Lemma find_loss_raises (lines : list string) (e : exn) :
  find_loss lines = Raise e → value_or_index_error e = true.
Proof.
  induction lines as [|line rest IH]; simpl; [done|].
  destruct (_ || _); [|done]. apply find_loss_part_raises.
Qed.

(** [_parse_ping_output] returns on every text. *)
Lemma _parse_ping_output_returns (output : string) :
  ∃ response_time packet_loss, _parse_ping_output output = Ok (response_time, packet_loss).
Proof.
  unfold _parse_ping_output.
  destruct (find_time _) as [t|e] eqn:Et.
  - destruct (find_loss _) as [l|e] eqn:El; [by eexists _, _|].
    rewrite (find_loss_raises _ _ El). by eexists _, _.
  - rewrite (find_time_raises _ _ Et). by eexists _, _.
Qed.

(** The ping probe returns a sample, whose error field is set exactly when
    the ping failed. *)
Lemma ping_check_device_returns (self : DeviceMonitor.t) (now : Z) (run : ping_outcome) :
  ∃ sample self',
    PingMonitor_check_device self now run = Ok (sample, self') ∧
    truthy (DeviceMetrics.last_error sample) = ping_failed run.
Proof.
  unfold PingMonitor_check_device.
  destruct run as [e|returncode stdout stderr elapsed_ms]; simpl.
  - destruct (isinstance e TimeoutError);
      destruct (determine_status _ _ _ _) as [status self']; by eexists _, _.
  - destruct (returncode =? 0); simpl.
    + destruct stdout as [output|e]; simpl.
      * destruct (_parse_ping_output_returns output) as (t & l & ->). simpl.
        destruct (determine_status _ _ _ _) as [status self']. by eexists _, _.
      * destruct (isinstance e TimeoutError);
          destruct (determine_status _ _ _ _) as [status self']; by eexists _, _.
    + destruct stderr as [err|e]; simpl.
      * destruct (determine_status _ _ _ _) as [status self']. by eexists _, _.
      * destruct (isinstance e TimeoutError);
          destruct (determine_status _ _ _ _) as [status self']; by eexists _, _.
Qed.

(** Closes a case of a probe: the classifier answers, and the sample is
    what the case says. *)
Ltac answer :=
  destruct (determine_status _ _ _ _) as [? ?]; eexists _, _;
  (split; [reflexivity|]); cbn; done.

(** The HTTP probe returns a sample; its error field is set, and its
    metric map empty, when the credentials are malformed or the GET
    failed. *)
Lemma http_check_device_returns (self : DeviceMonitor.t) (now : Z) (net : http_server) :
  ∃ sample self',
    HTTPMonitor_check_device self now net = Ok (sample, self') ∧
    match basic_auth (DeviceConfig.http_auth (DeviceMonitor.config self)) with
    | Raise _ =>
        truthy (DeviceMetrics.last_error sample) = true ∧
        DeviceMetrics.metrics sample = ∅
    | Ok auth =>
        http_failed (net (http_url (DeviceMonitor.config self)) auth) = true →
        truthy (DeviceMetrics.last_error sample) = true ∧
        DeviceMetrics.metrics sample = ∅
    end.
Proof.
  unfold HTTPMonitor_check_device, http_try.
  destruct (basic_auth _) as [auth|e]; cbn [mbind result_bind].
  2:{ destruct (isinstance e TimeoutError); answer. }
  destruct (net _ auth) as [e|status reason elapsed_ms json_body text_body];
    cbn [http_failed]; unfold body_unreadable.
  { destruct (isinstance e TimeoutError); answer. }
  destruct (status =? 200); cbn [negb orb]; [|answer].
  destruct json_body as [data|e]; cbn [mbind result_bind].
  - destruct (_parse_http_response self data) as [m|e].
    + answer.
    + destruct (isinstance e JSONDecodeError); cbn [mbind result_bind].
      * destruct text_body as [text|e']; cbn [mbind result_bind].
        -- destruct (_parse_text_response text) as [m|e']; cbn [mbind result_bind];
             [answer|].
           destruct (isinstance e' TimeoutError); answer.
        -- destruct (isinstance e' TimeoutError); answer.
      * destruct (isinstance e TimeoutError); answer.
  - destruct (isinstance e JSONDecodeError); cbn [mbind result_bind].
    + destruct text_body as [text|e']; cbn [mbind result_bind].
      * destruct (_parse_text_response text) as [m|e']; cbn [mbind result_bind];
          [answer|].
        destruct (isinstance e' TimeoutError); answer.
      * destruct (isinstance e' TimeoutError); answer.
    + destruct (isinstance e TimeoutError); answer.
Qed.

(** The status of a ping sample is the classifier's answer for the
    sample's own metrics, response time and error. *)
Lemma ping_check_device_status (self : DeviceMonitor.t) (now : Z) (run : ping_outcome)
    (sample : DeviceMetrics.t) (self' : DeviceMonitor.t) :
  PingMonitor_check_device self now run = Ok (sample, self') →
  determine_status self (DeviceMetrics.metrics sample) (DeviceMetrics.response_time sample)
    (DeviceMetrics.last_error sample) = (DeviceMetrics.status sample, self').
Proof.
  unfold PingMonitor_check_device.
  destruct (match ping_try run with Ok _ => _ | Raise _ => _ end) as [[error rt] metrics].
  destruct (determine_status self metrics rt error) as [status self1] eqn:E.
  intros [= <- <-]. exact E.
Qed.

(** A monitor that has counted no failure does not answer ["offline"]. *)
Lemma fresh_monitor_not_offline (cfg : DeviceConfig.t) (metrics : gmap string Q)
    (response_time : Q) (error : option string) :
  (determine_status (DeviceMonitor_init cfg) metrics response_time error).1 ≠ "offline".
Proof.
  destruct (truthy error) eqn:He.
  - by rewrite determine_status_error.
  - by apply determine_status_no_error_not_offline.
Qed.

(** Without SNMP support the probe returns the sample of a ping by a new
    monitor, tagged again, and keeps its own state. *)
Lemma snmp_fallback_returns (self : DeviceMonitor.t) (now : Z) (run : ping_outcome)
    (net : snmp_agent) (elapsed_ms : Q) :
  ∃ ping_sample ping_monitor,
    PingMonitor_check_device (DeviceMonitor_init (DeviceMonitor.config self)) now run
      = Ok (ping_sample, ping_monitor) ∧
    SNMPMonitor_check_device false self now run net elapsed_ms
      = Ok (DeviceMetrics.set_monitoring_method "snmp_fallback_ping" ping_sample, self).
Proof.
  unfold SNMPMonitor_check_device, _fallback_to_ping. simpl.
  destruct (ping_check_device_returns (DeviceMonitor_init (DeviceMonitor.config self)) now run)
    as (s & pm & -> & _).
  by eexists _, _.
Qed.

(** C4. The SNMP probe does not record a failure: when every read raises
    at once (no route to the device) the sample has no error, and the
    router defaults make the device look online. Nothing reaches the
    handler of [check_device] that would set the error, since [_snmp_get]
    and the helpers catch every exception themselves. *)
Lemma snmp_failures_leave_no_error :
  let net : snmp_agent :=
    λ _, SnmpRaised (mk_exn OtherException "Network is unreachable") in
  (∀ oid, snmp_failed (net oid) = true) ∧
  match SNMPMonitor_check_device true (DeviceMonitor_init sample_config) 0
          (PingRaised (mk_exn OtherException "Network is unreachable")) net 4%Q with
  | Ok (sample, _) =>
      DeviceMetrics.last_error sample = None ∧ DeviceMetrics.status sample = "online"
  | Raise _ => False
  end.
Proof. split; [done|]. vm_compute. done. Qed.

(** C9. When the GET of the HTTP probe raises, or reading the body of the
    response does, or the status is outside 200..299, the sample has its
    error field set and an empty metric map. *)
Theorem http_error_sample (self : DeviceMonitor.t) (now : Z) (net : http_server)
    (auth : option (string * string)) :
  basic_auth (DeviceConfig.http_auth (DeviceMonitor.config self)) = Ok auth →
  transport_error_or_not_2xx (net (http_url (DeviceMonitor.config self)) auth) →
  ∃ sample self',
    HTTPMonitor_check_device self now net = Ok (sample, self') ∧
    truthy (DeviceMetrics.last_error sample) = true ∧
    DeviceMetrics.metrics sample = ∅.
Proof.
  intros Hauth Hfail.
  destruct (http_check_device_returns self now net) as (sample & self' & Heq & H).
  exists sample, self'. split; [done|]. rewrite Hauth in H. apply H.
  destruct (net _ auth) as [e|status reason elapsed_ms json_body text_body];
    cbn [http_failed transport_error_or_not_2xx] in *; [done|].
  apply orb_true_iff. destruct Hfail as [Hstatus|Hbody]; [left|by right].
  apply negb_true_iff, Z.eqb_neq. lia.
Qed.

(** A server that answers 503. *)
Lemma http_error_sample_witness :
  ∃ sample self',
    HTTPMonitor_check_device (DeviceMonitor_init sample_config) 0 unavailable_server
      = Ok (sample, self') ∧
    truthy (DeviceMetrics.last_error sample) = true ∧
    DeviceMetrics.metrics sample = ∅.
Proof.
  apply (http_error_sample _ _ _ None); [reflexivity|].
  left. simpl. lia.
Defined.

(** C10. Without SNMP support, each sample of any run of successive
    checks by one SNMP monitor is the sample of a ping by a newly built
    monitor, whose failure counter is zero, tagged [snmp_fallback_ping]
    afterwards; its status is never ["offline"], however many of the pings
    fail, and the SNMP monitor is left as it was. *)
Theorem snmp_fallback_never_offline (self : DeviceMonitor.t)
    (inputs : list (Z * ping_outcome * snmp_agent * Q)) :
  let fresh := DeviceMonitor_init (DeviceMonitor.config self) in
  DeviceMonitor.consecutive_failures fresh = 0 ∧
  ∃ samples,
    SNMPMonitor_checks false self inputs = Ok (samples, self) ∧
    Forall2 (λ '(now, run, _, _) sample,
               (∃ ping_sample ping_monitor,
                  PingMonitor_check_device fresh now run = Ok (ping_sample, ping_monitor) ∧
                  sample = DeviceMetrics.set_monitoring_method "snmp_fallback_ping"
                             ping_sample) ∧
               DeviceMetrics.status sample ≠ "offline")
            inputs samples.
Proof.
  intros fresh. split; [done|].
  induction inputs as [|[[[now run] net] elapsed_ms] inputs (samples & IH & Hall)]; simpl.
  - exists []. by split.
  - destruct (snmp_fallback_returns self now run net elapsed_ms) as (s & pm & Hping & ->).
    simpl. rewrite IH. simpl. eexists. split; [reflexivity|].
    constructor; [|done]. split; [by eexists _, _|].
    apply ping_check_device_status in Hping.
    pose proof (fresh_monitor_not_offline (DeviceMonitor.config self)
                  (DeviceMetrics.metrics s) (DeviceMetrics.response_time s)
                  (DeviceMetrics.last_error s)) as Hno.
    by rewrite Hping in Hno.
Qed.

(** ** The API client *)

(** Runs the state-passing plumbing of a client computation. *)
Ltac run_api :=
  cbv beta iota zeta delta
    [mbind api_bind mret api_ret get_self set_self get_now request sleep
     pause_before_retry served paused fst snd];
  cbn [replies now trace fst snd].

(** A login consumes one reply and records one event; it changes nothing
    of the client but the token and its expiry. *)
Lemma authenticate_step (self : APIClient.t) (w : backend) (login : reply)
    (rest : list reply) :
  replies w = login :: rest →
  ∃ ok self',
    authenticate (self, w) = (ok, (self', served w rest [login_event self])) ∧
    APIClient.config self' = APIClient.config self.
Proof.
  intros Hw. unfold authenticate, login_event. run_api. rewrite Hw.
  destruct login as [e|status body]; [by eexists _, _|].
  destruct (status =? 200); [|by eexists _, _].
  destruct body as [data|e]; simpl; [|by eexists _, _].
  destruct (json_getitem data "token") as [tok|e]; simpl; [|by eexists _, _].
  destruct (json_get data "expires_in" _) as [expires_in|e]; simpl; [|by eexists _, _].
  destruct (seconds_of expires_in) as [seconds|e]; simpl; [|by eexists _, _].
  destruct (datetime_add _ seconds) as [expires|e]; by eexists _, _.
Qed.

(** [_ensure_authenticated] logs in once when the token is stale and does
    nothing otherwise; [logins] are the replies it consumes. *)
Lemma ensure_authenticated_step (self : APIClient.t) (w : backend)
    (logins rest : list reply) :
  length logins = stale_logins self w →
  replies w = logins ++ rest →
  ∃ self1 w1,
    _ensure_authenticated (self, w) = (tt, (self1, w1)) ∧
    replies w1 = rest ∧
    trace w1 = trace w ++ replicate (length logins) (login_event self) ∧
    APIClient.config self1 = APIClient.config self ∧
    (logins = [] → self1 = self).
Proof.
  unfold stale_logins, _ensure_authenticated. intros Hlen Hw. run_api.
  destruct (token_stale self (now w)).
  - destruct logins as [|login [|? ?]]; try done. simpl in Hw.
    destruct (authenticate_step self w login rest Hw) as (ok & self1 & -> & Hcfg).
    by eexists _, _.
  - destruct logins; [|done]. exists self, w. simpl. by rewrite app_nil_r.
Qed.

Lemma update_attempts_raise_step (self : APIClient.t) (device_id : string)
    (update_data : json) (attempt : nat) (attempts : list nat) (w : backend)
    (e : exn) (rest : list reply) :
  replies w = ReplyRaised e :: rest →
  update_attempts device_id update_data (attempt :: attempts) (self, w) =
  update_attempts device_id update_data attempts
    (self, after_raise self w rest (EvPut device_id update_data (APIClient.token self)) attempt).
Proof.
  intros Hw. unfold after_raise. simpl. run_api. rewrite Hw. run_api.
  by destruct (_ <? _).
Qed.

Lemma create_attempts_raise_step (self : APIClient.t) (device_data : json)
    (attempt : nat) (attempts : list nat) (w : backend) (e : exn) (rest : list reply) :
  replies w = ReplyRaised e :: rest →
  create_attempts device_data (attempt :: attempts) (self, w) =
  create_attempts device_data attempts
    (self, after_raise self w rest (EvPost device_data (APIClient.token self)) attempt).
Proof.
  intros Hw. unfold after_raise. simpl. run_api. rewrite Hw. run_api.
  by destruct (_ <? _).
Qed.

Section RetryLoops.
Context (self : APIClient.t).
Let n := APIConfig.retry_attempts (APIClient.config self).
Let delay := APIConfig.retry_delay (APIClient.config self).

(** A loop all of whose remaining attempts raise uses them all, pauses
    between them and reports failure; [loop] is either retry loop and
    [req] its request. *)
Lemma all_raise_loop (loop : list nat → api bool) (req : event)
    (Hnil : ∀ s, loop [] s = (false, s))
    (Hstep : ∀ attempt attempts w e rest,
       replies w = ReplyRaised e :: rest →
       loop (attempt :: attempts) (self, w) =
       loop attempts (self, after_raise self w rest req attempt))
    (failures : list exn) :
  ∀ (first : nat) (w : backend) (rest : list reply),
  replies w = (ReplyRaised <$> failures) ++ rest →
  (failures ≠ [] → Z.of_nat (first + length failures) = n) →
  ∃ w',
    loop (seq first (length failures)) (self, w) = (false, (self, w')) ∧
    replies w' = rest ∧
    trace w' = trace w ++ with_pauses delay (replicate (length failures) req).
Proof.
  induction failures as [|e failures IH]; intros first w rest Hw Hn; simpl in *.
  - exists w. rewrite Hnil. by rewrite app_nil_r.
  - rewrite (Hstep _ _ _ _ _ Hw).
    specialize (Hn ltac:(done)).
    set (w1 := after_raise self w _ req first).
    destruct (IH (S first) w1 rest) as (w' & -> & Hrest & Htrace).
    { unfold w1, after_raise. by destruct (_ <? _). }
    { intros _. lia. }
    exists w'. split; [done|]. split; [done|]. rewrite Htrace.
    unfold w1, after_raise. fold n delay.
    destruct failures as [|e' failures]; simpl in *.
    + assert ((Z.of_nat first <? n - 1) = false) as -> by (apply Z.ltb_ge; lia).
      simpl. by rewrite app_nil_r.
    + assert ((Z.of_nat first <? n - 1) = true) as -> by (apply Z.ltb_lt; lia).
      simpl. by rewrite <- !app_assoc.
Qed.

(** The range of the attempts when [failures] has one entry for each. *)
Lemma py_range_failures (failures : list exn) :
  length failures = Z.to_nat n →
  py_range n = seq 0 (length failures) ∧
  (failures ≠ [] → Z.of_nat (0 + length failures) = n).
Proof.
  intros Hlen. unfold py_range. rewrite Hlen. split; [done|].
  intros Hne. destruct failures; [done|]. simpl in *. lia.
Qed.
End RetryLoops.

(** An error response ends either retry loop at once. *)
Lemma error_response_ends_loop (self : APIClient.t) (w : backend) (data : json)
    (device_id : string) (attempt : nat) (more : list nat) (r : reply)
    (rest : list reply) :
  replies w = r :: rest →
  (error_response r [200] →
   create_attempts data (attempt :: more) (self, w)
   = (false, (self, served w rest [EvPost data (APIClient.token self)]))) ∧
  (error_response r [200; 401] →
   update_attempts device_id data (attempt :: more) (self, w)
   = (false, (self, served w rest [EvPut device_id data (APIClient.token self)]))).
Proof.
  intros Hw. split; intros Herr; simpl; run_api; rewrite Hw;
    destruct r as [e|status [[]|]]; try done; simpl in Herr.
  - assert ((status =? 200) = false) as ->; [|done].
    apply Z.eqb_neq. intros ->. apply Herr. by left.
  - assert ((status =? 200) = false) as ->.
    { apply Z.eqb_neq. intros ->. apply Herr. by left. }
    assert ((status =? 401) = false) as ->; [|done].
    apply Z.eqb_neq. intros ->. apply Herr. right. by left.
Qed.

(** C5 (as amended). [create_device] and [update_device] retry an attempt
    whose request raised: such an attempt is followed by a pause of
    [retry_delay], unless it is the last one configured, and then by the
    next attempt; an attempt that receives an error response (not 200, and
    not 401 for an update) whose body decodes to a JSON object ends the
    call with [False] at once, without pause or retry. So when all
    [retry_attempts] requests raise, exactly that many requests are made,
    with a pause between two of them and none after the last, and the
    call reports failure (the requests follow the login that a missing or
    expired token causes: [logins] are the replies to it, [self1] is the
    client after it). *)
Theorem retries_on_exception (self : APIClient.t) (w : backend) (data : json)
    (device_id : string) :
  let cfg := APIClient.config self in
  let post (c : APIClient.t) := EvPost data (APIClient.token c) in
  let put (c : APIClient.t) := EvPut device_id data (APIClient.token c) in
  (∀ attempt more e rest,
     replies w = ReplyRaised e :: rest →
     create_attempts data (attempt :: more) (self, w)
     = create_attempts data more (self, after_raise self w rest (post self) attempt) ∧
     update_attempts device_id data (attempt :: more) (self, w)
     = update_attempts device_id data more
         (self, after_raise self w rest (put self) attempt)) ∧
  (∀ attempt more r rest,
     replies w = r :: rest →
     (error_response r [200] →
      create_attempts data (attempt :: more) (self, w)
      = (false, (self, served w rest [post self]))) ∧
     (error_response r [200; 401] →
      update_attempts device_id data (attempt :: more) (self, w)
      = (false, (self, served w rest [put self])))) ∧
  (∀ logins failures rest,
     length logins = stale_logins self w →
     length failures = Z.to_nat (APIConfig.retry_attempts cfg) →
     replies w = logins ++ (ReplyRaised <$> failures) ++ rest →
     let logged_in := trace w ++ replicate (length logins) (login_event self) in
     (∃ self1 w',
        create_device data (self, w) = (false, (self1, w')) ∧
        replies w' = rest ∧
        (logins = [] → self1 = self) ∧
        trace w' = logged_in ++ with_pauses (APIConfig.retry_delay cfg)
                                  (replicate (length failures) (post self1))) ∧
     (∃ self1 w',
        update_device device_id data (self, w) = (false, (self1, w')) ∧
        replies w' = rest ∧
        (logins = [] → self1 = self) ∧
        trace w' = logged_in ++ with_pauses (APIConfig.retry_delay cfg)
                                  (replicate (length failures) (put self1)))).
Proof.
  intros cfg post put. split; [|split].
  - intros attempt more e rest Hw. split.
    + by eapply create_attempts_raise_step.
    + by eapply update_attempts_raise_step.
  - intros attempt more r rest Hw. by apply error_response_ends_loop.
  - intros logins failures rest Hlogins Hlen Hw logged_in.
    destruct (ensure_authenticated_step self w logins _ Hlogins Hw)
      as (self1 & w1 & Hens & Hw1 & Htr1 & Hcfg & Hsame).
    unfold cfg in Hlen. rewrite <- Hcfg in Hlen.
    destruct (py_range_failures self1 failures Hlen) as [Hrange Hn].
    split.
    + unfold create_device. run_api. rewrite Hens, Hrange.
      destruct (all_raise_loop self1 (create_attempts data) (post self1)
                  ltac:(done) ltac:(intros; by eapply create_attempts_raise_step)
                  failures 0%nat w1 rest Hw1 Hn) as (w' & Hloop & Hrest & Htrace).
      exists self1, w'. split; [done|]. split; [done|]. split; [done|].
      by rewrite Htrace, Htr1, Hcfg.
    + unfold update_device. run_api. rewrite Hens, Hrange.
      destruct (all_raise_loop self1 (update_attempts device_id data) (put self1)
                  ltac:(done) ltac:(intros; by eapply update_attempts_raise_step)
                  failures 0%nat w1 rest Hw1 Hn) as (w' & Hloop & Hrest & Htrace).
      exists self1, w'. split; [done|]. split; [done|]. split; [done|].
      by rewrite Htrace, Htr1, Hcfg.
Qed.

(** Three attempts configured, the connection reset on each. *)
Lemma retries_on_exception_witness :
  ∃ w',
    update_device "device_router_01" sample_update
      (sample_client,
       mk_backend [ReplyRaised connection_reset; ReplyRaised connection_reset;
                   ReplyRaised connection_reset] 0 [])
      = (false, (sample_client, w')) ∧
    replies w' = [] ∧
    trace w' =
      [EvPut "device_router_01" sample_update (JStr "token-1"); EvSleep 5;
       EvPut "device_router_01" sample_update (JStr "token-1"); EvSleep 5;
       EvPut "device_router_01" sample_update (JStr "token-1")].
Proof.
  destruct (retries_on_exception sample_client
              (mk_backend [ReplyRaised connection_reset; ReplyRaised connection_reset;
                           ReplyRaised connection_reset] 0 [])
              sample_update "device_router_01") as (_ & _ & Hretry).
  destruct (Hretry [] [connection_reset; connection_reset; connection_reset] []
              eq_refl eq_refl eq_refl) as [_ (self1 & w' & Hcall & Hrest & Hsame & Htrace)].
  rewrite (Hsame eq_refl) in Hcall, Htrace.
  exists w'. split; [exact Hcall|]. split; [exact Hrest|]. exact Htrace.
Defined.

(** C5 (as stated) fails: with three attempts configured and a token in
    hand, an error response to [create_device] and an exception in
    [get_devices] are reported after a single request, without pause,
    although the next reply of the backend would have been a success. *)
Lemma failure_reported_without_retry :
  let device := JObj (<["name" := JStr "Main Router"]> ∅) in
  let success := Reply 200 (Ok (JArr [])) in
  APIConfig.retry_attempts (APIClient.config sample_client) = 3 ∧
  create_device device
    (sample_client, mk_backend [Reply 500 (Ok (JObj ∅)); success] 0 [])
    = (false, (sample_client, mk_backend [success] 0 [EvPost device (JStr "token-1")])) ∧
  get_devices
    (sample_client, mk_backend [ReplyRaised connection_reset; success] 0 [])
    = (JArr [], (sample_client, mk_backend [success] 0 [EvGet (JStr "token-1")])).
Proof. by vm_compute. Qed.

(** A 401 on an attempt that has a successor is followed by one login and
    the next attempt, which succeeds on a 200. *)
Lemma update_attempts_401 (self : APIClient.t) (w : backend) (device_id : string)
    (update_data : json) (attempt next : nat) (more : list nat)
    (body body' : result json) (login : reply) (rest : list reply) :
  replies w = Reply 401 body :: login :: Reply 200 body' :: rest →
  ∃ self' w',
    update_attempts device_id update_data (attempt :: next :: more) (self, w)
      = (true, (self', w')) ∧
    replies w' = rest ∧
    APIClient.config self' = APIClient.config self ∧
    trace w' = trace w ++ [EvPut device_id update_data (APIClient.token self);
                           login_event self;
                           EvPut device_id update_data (APIClient.token self')].
Proof.
  intros Hw. cbn [update_attempts]. run_api. rewrite Hw. cbn [Z.eqb Pos.eqb].
  destruct (authenticate_step self
              (mk_backend (login :: Reply 200 body' :: rest) (now w)
                 (trace w ++ [EvPut device_id update_data (APIClient.token self)]))
              login (Reply 200 body' :: rest) eq_refl)
    as (ok & self' & Hauth & Hcfg).
  rewrite Hauth. run_api.
  exists self'. eexists. split; [reflexivity|]. split; [done|]. split; [done|].
  cbn [trace served]. by rewrite <- !app_assoc.
Qed.

(** The same after attempts that raised and were paused after. *)
Lemma update_attempts_reauth (self : APIClient.t) (device_id : string) (update_data : json)
    (a1 a2 : nat) (more : list nat) (body body' : result json) (login : reply)
    (rest : list reply) (failures : list exn) :
  ∀ (first : nat) (w : backend),
  Z.of_nat (first + length failures) + 2 ≤ APIConfig.retry_attempts (APIClient.config self) →
  replies w = (ReplyRaised <$> failures) ++ Reply 401 body :: login :: Reply 200 body' :: rest →
  ∃ self' w',
    update_attempts device_id update_data
      (seq first (length failures) ++ a1 :: a2 :: more) (self, w) = (true, (self', w')) ∧
    replies w' = rest ∧
    trace w' =
      trace w
      ++ concat ((λ _, [EvPut device_id update_data (APIClient.token self);
                         EvSleep (APIConfig.retry_delay (APIClient.config self))])
                 <$> failures)
      ++ [EvPut device_id update_data (APIClient.token self);
          login_event self;
          EvPut device_id update_data (APIClient.token self')].
Proof.
  induction failures as [|e failures IH]; intros first w Hn Hw.
  - cbn [length seq app fmap list_fmap concat] in *.
    destruct (update_attempts_401 self w device_id update_data a1 a2 more
                body body' login rest Hw) as (self' & w' & Hloop & Hrest & _ & Htrace).
    by exists self', w'.
  - cbn [length seq app fmap list_fmap] in *.
    rewrite (update_attempts_raise_step self _ _ _ _ _ _ _ Hw).
    unfold after_raise.
    assert ((Z.of_nat first <? APIConfig.retry_attempts (APIClient.config self) - 1) = true)
      as -> by (apply Z.ltb_lt; lia).
    edestruct (IH (S first)) as (self' & w' & -> & Hrest & Htrace);
      [|reflexivity|]; [lia|].
    exists self', w'. split; [done|]. split; [done|].
    rewrite Htrace. cbn [trace paused served concat]. by rewrite <- !app_assoc.
Qed.

(** C6 (as amended). When an attempt of [update_device] that is not the
    last one (the loop has another attempt to make) receives a 401, the
    client logs in exactly once and sends the same update again; if that
    request is answered 200, [update_device] returns [True]. This holds in
    whatever state the loop is and, end to end, when the attempts before
    the 401 raised (the requests follow the login that a missing or
    expired token causes: [logins] are the replies to it, [self1] is the
    client after it). *)
Theorem update_device_reauthenticates (self : APIClient.t) (w : backend)
    (device_id : string) (update_data : json)
    (body body' : result json) (login : reply) (rest : list reply) :
  let cfg := APIClient.config self in
  let put (c : APIClient.t) := EvPut device_id update_data (APIClient.token c) in
  (∀ attempt next more,
     replies w = Reply 401 body :: login :: Reply 200 body' :: rest →
     ∃ self' w',
       update_attempts device_id update_data (attempt :: next :: more) (self, w)
         = (true, (self', w')) ∧
       replies w' = rest ∧
       trace w' = trace w ++ [put self; login_event self; put self']) ∧
  (∀ logins failures,
     length logins = stale_logins self w →
     Z.of_nat (length failures) + 2 ≤ APIConfig.retry_attempts cfg →
     replies w = logins ++ (ReplyRaised <$> failures)
                 ++ Reply 401 body :: login :: Reply 200 body' :: rest →
     ∃ self1 self' w',
       update_device device_id update_data (self, w) = (true, (self', w')) ∧
       replies w' = rest ∧
       (logins = [] → self1 = self) ∧
       trace w' =
         (trace w ++ replicate (length logins) (login_event self))
         ++ concat ((λ _, [put self1; EvSleep (APIConfig.retry_delay cfg)]) <$> failures)
         ++ [put self1; login_event self; put self']).
Proof.
  intros cfg put. split.
  - intros attempt next more Hw.
    destruct (update_attempts_401 self w device_id update_data attempt next more
                body body' login rest Hw) as (self' & w' & Hloop & Hrest & _ & Htrace).
    by exists self', w'.
  - intros logins failures Hlogins Hn Hw.
    destruct (ensure_authenticated_step self w logins _ Hlogins Hw)
      as (self1 & w1 & Hens & Hw1 & Htr1 & Hcfg & Hsame).
    unfold update_device. run_api. rewrite Hens. unfold py_range.
    assert (∃ more, seq 0 (Z.to_nat (APIConfig.retry_attempts (APIClient.config self1))) =
                    seq 0 (length failures)
                    ++ length failures :: S (length failures) :: more) as [more ->].
    { rewrite Hcfg. fold cfg.
      exists (seq (S (S (length failures)))
                (Z.to_nat (APIConfig.retry_attempts cfg) - length failures - 2)).
      replace (Z.to_nat (APIConfig.retry_attempts cfg))
        with (length failures
              + S (S (Z.to_nat (APIConfig.retry_attempts cfg) - length failures - 2)))%nat
        at 1 by lia.
      rewrite seq_app. simpl. done. }
    destruct (update_attempts_reauth self1 device_id update_data
                (length failures) (S (length failures)) more body body' login rest
                failures 0%nat w1) as (self' & w' & Hloop & Hrest & Htrace).
    { rewrite Hcfg. fold cfg. lia. }
    { done. }
    exists self1, self', w'. split; [done|]. split; [done|]. split; [done|].
    rewrite Htrace, Htr1. unfold login_event. by rewrite Hcfg.
Qed.

(** The scenario of the specification: a 401, a login that succeeds, a 200. *)
Lemma update_device_reauthenticates_witness :
  ∃ self' w',
    update_device "device_router_01" sample_update
      (sample_client,
       mk_backend [Reply 401 (Ok (JObj ∅));
                   Reply 200 (Ok (JObj (<["token" := JStr "token-2"]> ∅)));
                   Reply 200 (Ok (JObj ∅))] 0 [])
      = (true, (self', w')) ∧
    replies w' = [] ∧
    trace w' =
      [EvPut "device_router_01" sample_update (JStr "token-1");
       EvLogin "Admin" "Admin123";
       EvPut "device_router_01" sample_update (APIClient.token self')].
Proof.
  destruct (update_device_reauthenticates sample_client
              (mk_backend [Reply 401 (Ok (JObj ∅));
                           Reply 200 (Ok (JObj (<["token" := JStr "token-2"]> ∅)));
                           Reply 200 (Ok (JObj ∅))] 0 [])
              "device_router_01" sample_update
              (Ok (JObj ∅)) (Ok (JObj ∅))
              (Reply 200 (Ok (JObj (<["token" := JStr "token-2"]> ∅)))) [])
    as [_ Hcall].
  destruct (Hcall [] [] eq_refl ltac:(by vm_compute) eq_refl)
    as (self1 & self' & w' & Hrun & Hrest & Hsame & Htrace).
  rewrite (Hsame eq_refl) in Htrace.
  exists self', w'. split; [exact Hrun|]. split; [exact Hrest|]. exact Htrace.
Defined.

(** C6 (as stated) fails when the 401 comes on the last configured
    attempt: with two attempts, the first raising and the second answered
    401, the client logs in and returns [False] without sending the
    update again, although the backend would have answered 200. *)
Lemma last_attempt_401_not_retried :
  let success := Reply 200 (Ok (JObj ∅)) in
  let client := APIClient.mk (APIConfig.mk "http://localhost:5000/api" "Admin" "Admin123" 30 2 5)
                  (JStr "token-1") None in
  ∃ self',
    update_device "device_router_01" sample_update
      (client,
       mk_backend [ReplyRaised connection_reset; Reply 401 (Ok (JObj ∅));
                   Reply 200 (Ok (JObj (<["token" := JStr "token-2"]> ∅))); success] 0 [])
    = (false,
       (self',
        mk_backend [success] 5
          [EvPut "device_router_01" sample_update (JStr "token-1"); EvSleep 5;
           EvPut "device_router_01" sample_update (JStr "token-1");
           EvLogin "Admin" "Admin123"])) ∧
    APIClient.token self' = JStr "token-2".
Proof. eexists. by vm_compute. Qed.

(** ** Parsing the output of ping *)

Lemma py_lower_app (a b : string) : py_lower (a +:+ b) = py_lower a +:+ py_lower b.
Proof. induction a as [|c a IH]; simpl; [done|]. by rewrite IH. Qed.

(** A text that starts with [sub] contains it, wherever it is put. *)
Lemma py_contains_app (sub a b : string) :
  String.prefix sub b = true → py_contains sub (a +:+ b) = true.
Proof.
  intros Hb. induction a as [|c a IH]; simpl.
  - destruct b; simpl in *; by rewrite Hb.
  - rewrite IH. apply orb_true_r.
Qed.

Lemma py_contains_prefix (sub s : string) :
  py_contains sub s = false → String.prefix sub s = false.
Proof. destruct s; simpl; intros H; by apply orb_false_iff in H as [? _]. Qed.

Lemma append_cons (c : ascii) (s t : string) : String c s +:+ t = String c (s +:+ t).
Proof. reflexivity. Qed.

Lemma append_nil (t : string) : "" +:+ t = t.
Proof. reflexivity. Qed.

(** No occurrence of [time=] starts inside a text and ends inside a
    following [time=]: the token has no proper border. *)
Lemma time_token_no_straddle (pre rest : string) :
  String.prefix "time=" (pre +:+ "time=" +:+ rest) = true →
  pre = "" ∨ String.prefix "time=" pre = true.
Proof.
  destruct pre as [|c1 [|c2 [|c3 [|c4 [|c5 pre]]]]];
    rewrite ?append_cons, ?append_nil; cbn [String.prefix]; auto;
    repeat (match goal with
            | |- context [ascii_dec ?a ?b] => destruct (ascii_dec a b)
            end; try done);
    auto.
  intros _. right. by destruct pre.
Qed.

(** Splitting at [time=] a line whose first [time=] follows [pre]. *)
Lemma py_split_time (pre rest : string) :
  py_contains "time=" pre = false →
  py_split "time=" (pre +:+ "time=" +:+ rest) = pre :: py_split "time=" rest.
Proof.
  unfold py_split. induction pre as [|c pre IH]; intros Hpre; [by destruct rest|].
  assert (String.prefix "time=" (String c pre +:+ "time=" +:+ rest) = false) as Hno.
  { destruct (String.prefix _ _) eqn:E; [|done].
    apply time_token_no_straddle in E as [?|E]; [done|].
    apply py_contains_prefix in Hpre. congruence. }
  change (String c pre +:+ "time=" +:+ rest)
    with (String c (pre +:+ "time=" +:+ rest)) in *.
  cbn [split_from]. rewrite Hno. rewrite IH; [done|].
  simpl in Hpre. by apply orb_false_iff in Hpre as [_ ?].
Qed.

(** A split has at least one piece. *)
Lemma split_from_cons (sep s : string) : ∀ skip, ∃ h t, split_from sep s skip = h :: t.
Proof.
  induction s as [|c s IH]; intros skip; cbn [split_from]; [by eexists _, _|].
  destruct skip; [|apply IH]. destruct (String.prefix sep (String c s)); [by eexists _, _|].
  destruct (IH O) as (h & t & ->). by eexists _, _.
Qed.

(** The first loop skips the lines that do not mention a time. *)
Lemma find_time_skip (before : list string) (line : string) (after : list string) :
  Forall (λ l, py_contains "time=" (py_lower l) = false) before →
  find_time (before ++ line :: after) = find_time (line :: after).
Proof.
  induction before as [|l before IH]; intros Hb; [done|].
  apply Forall_cons in Hb as [Hl Hb]. simpl. rewrite Hl. by apply IH.
Qed.

(** The first loop on a line whose first [time=] reads [time=23.4 ms]. *)
Lemma find_time_23_4 (pre post : string) (after : list string) :
  py_contains "time=" pre = false →
  find_time ((pre +:+ "time=23.4 ms" +:+ post) :: after) = Ok (Some 23.4%Q).
Proof.
  intros Hpre. cbn [find_time].
  assert (py_contains "time=" (py_lower (pre +:+ "time=23.4 ms" +:+ post)) = true) as ->.
  { rewrite py_lower_app. by apply py_contains_app. }
  change (pre +:+ "time=23.4 ms" +:+ post)
    with (pre +:+ "time=" +:+ ("23.4 ms" +:+ post)).
  rewrite py_split_time by done.
  destruct (split_from_cons "time=" post 0) as (h & t & Hsplit).
  unfold py_split. rewrite !append_cons, append_nil. cbn. rewrite Hsplit.
  reflexivity.
Qed.

(** The second loop skips the lines that do not mention a loss. *)
Lemma find_loss_skip (before : list string) (line : string) (after : list string) :
  Forall (λ l, py_contains "% packet loss" l || py_contains "% loss" l = false) before →
  find_loss (before ++ line :: after) = find_loss (line :: after).
Proof.
  induction before as [|l before IH]; intros Hb; [done|].
  apply Forall_cons in Hb as [Hl Hb]. simpl. rewrite Hl. by apply IH.
Qed.

(** The scan of the parts of a line stops at the first part with a
    percent sign when [packet] follows it. *)
Lemma find_loss_part_0 (skipped rest : list string) : ∀ seen : list string,
  Forall (λ p, py_contains "%" p = false) skipped →
  find_loss_part (seen ++ skipped ++ "0%" :: "packet" :: rest) (length seen)
    (skipped ++ "0%" :: "packet" :: rest) = Ok (Some 0%Q).
Proof.
  induction skipped as [|p skipped IH]; intros seen Hs.
  - cbn [app find_loss_part]. unfold py_slice.
    replace (length seen + 1)%nat with (length seen + 1 + 0)%nat by lia.
    rewrite <- (length_app seen ["0%"]) at 1.
    replace (seen ++ "0%" :: "packet" :: rest)
      with ((seen ++ ["0%"]) ++ "packet" :: rest) by by rewrite <- app_assoc.
    rewrite drop_app_add'; [|by rewrite length_app; simpl; lia].
    replace (length seen + 3 - (length (seen ++ ["0%"]) + 0))%nat with 2%nat
      by (rewrite length_app; simpl; lia).
    reflexivity.
  - apply Forall_cons in Hs as [Hp Hs]. cbn [app find_loss_part]. rewrite Hp.
    cbn [andb].
    replace (seen ++ p :: skipped ++ "0%" :: "packet" :: rest)
      with ((seen ++ [p]) ++ skipped ++ "0%" :: "packet" :: rest) by by rewrite <- app_assoc.
    replace (S (length seen)) with (length (seen ++ [p]))
      by (rewrite length_app; simpl; lia).
    by apply IH.
Qed.

(** C8 (as amended). For a ping that exits with status 0 and whose output
    is such that
    - the first line mentioning [time=] in any letter case reads
      [time=23.4 ms] at its first [time=], and
    - the first line containing [% packet loss] or [% loss] has [0%] as
      its first word with a percent sign, followed by the word [packet],
    the sample has the metrics [{latency: 23.4, packet_loss: 0, uptime: 100}]
    and no error, and with the default threshold maps its status is
    ["online"] (whatever the failure counter was). *)
Theorem ping_sample_of_scenario
    (self : DeviceMonitor.t) (now : Z) (output : string) (stderr : result string)
    (elapsed_ms : Q)
    (before_time after_time before_loss after_loss : list string)
    (pre post loss_line : string) (skipped rest : list string) :
  let cfg := DeviceMonitor.config self in
  DeviceConfig.critical_thresholds cfg = default_critical_thresholds →
  DeviceConfig.warning_thresholds cfg = default_warning_thresholds →
  py_split newline output
    = before_time ++ (pre +:+ "time=23.4 ms" +:+ post) :: after_time →
  Forall (λ l, py_contains "time=" (py_lower l) = false) before_time →
  py_contains "time=" pre = false →
  py_split newline output = before_loss ++ loss_line :: after_loss →
  Forall (λ l, py_contains "% packet loss" l || py_contains "% loss" l = false)
    before_loss →
  py_contains "% packet loss" loss_line || py_contains "% loss" loss_line = true →
  py_split_ws loss_line = skipped ++ "0%" :: "packet" :: rest →
  Forall (λ p, py_contains "%" p = false) skipped →
  ∃ sample self',
    PingMonitor_check_device self now (PingExited 0 (Ok output) stderr elapsed_ms)
      = Ok (sample, self') ∧
    DeviceMetrics.metrics sample = scenario_metrics ∧
    DeviceMetrics.last_error sample = None ∧
    DeviceMetrics.status sample = "online".
Proof.
  intros cfg Hcrit Hwarn Htime Hbt Hpre Hloss Hbl Hline Hparts Hskipped.
  assert (find_time (py_split newline output) = Ok (Some 23.4%Q)) as Ht.
  { rewrite Htime, find_time_skip by done. by apply find_time_23_4. }
  assert (find_loss (py_split newline output) = Ok (Some 0%Q)) as Hl.
  { rewrite Hloss, find_loss_skip by done. cbn [find_loss]. rewrite Hline, Hparts.
    by apply (find_loss_part_0 skipped rest []). }
  assert (_parse_ping_output output = Ok (23.4%Q, 0%Q)) as Hparse.
  { unfold _parse_ping_output. cbv zeta. by rewrite Ht, Hl. }
  unfold PingMonitor_check_device, ping_try. cbn [Z.eqb mbind result_bind].
  rewrite Hparse. cbn [mbind result_bind].
  change (Qlt_bool 0 23.4) with true. change (Qlt_bool 0 100) with true. cbv iota.
  fold scenario_metrics.
  assert (determine_status self scenario_metrics 23.4%Q None
          = ("online", DeviceMonitor.set_consecutive_failures 0 self)) as ->.
  { unfold determine_status. cbn [truthy DeviceMonitor.config
      DeviceMonitor.set_consecutive_failures]. fold cfg. rewrite Hcrit, Hwarn.
    reflexivity. }
  by eexists _, _.
Qed.

(** The scenario on the output of a Linux ping. *)
Lemma ping_sample_of_scenario_witness :
  ∃ sample self',
    PingMonitor_check_device (DeviceMonitor_init sample_config) 0
      (PingExited 0 (Ok (py_join newline sample_ping_lines)) (Ok "") 2104%Q)
      = Ok (sample, self') ∧
    DeviceMetrics.metrics sample = scenario_metrics ∧
    DeviceMetrics.last_error sample = None ∧
    DeviceMetrics.status sample = "online".
Proof.
  apply (ping_sample_of_scenario (DeviceMonitor_init sample_config) 0
           (py_join newline sample_ping_lines) (Ok "") 2104%Q
           (take 1 sample_ping_lines) (drop 2 sample_ping_lines)
           (take 6 sample_ping_lines) (drop 7 sample_ping_lines)
           "64 bytes from 192.168.1.1: icmp_seq=1 ttl=64 " ""
           "3 packets transmitted, 3 received, 0% packet loss, time 2003ms"
           ["3"; "packets"; "transmitted,"; "3"; "received,"]
           ["loss,"; "time"; "2003ms"]);
    try reflexivity; repeat constructor.
Defined.

(** C8 (as stated) fails when a line with another time comes first: the
    output below has a line with [time=23.4 ms] and a line with
    [0% packet loss], and the latency of the sample is 25.1. *)
Lemma first_time_line_wins :
  let lines :=
    [ "64 bytes from 192.168.1.1: icmp_seq=1 ttl=64 time=25.1 ms";
      "64 bytes from 192.168.1.1: icmp_seq=2 ttl=64 time=23.4 ms";
      "64 bytes from 192.168.1.1: icmp_seq=3 ttl=64 time=24.0 ms";
      "3 packets transmitted, 3 received, 0% packet loss, time 2003ms" ] in
  let output := py_join newline lines in
  py_split newline output = lines ∧
  existsb (py_contains "time=23.4 ms") lines = true ∧
  existsb (py_contains "0% packet loss") lines = true ∧
  match PingMonitor_check_device (DeviceMonitor_init sample_config) 0
          (PingExited 0 (Ok output) (Ok "") 2104%Q) with
  | Ok (sample, _) =>
      DeviceMetrics.metrics sample !! "latency" = Some 25.1%Q ∧
      scenario_metrics !! "latency" = Some 23.4%Q ∧
      ¬ (25.1 == 23.4)%Q
  | Raise _ => False
  end.
Proof.
  split; [reflexivity|]. split; [reflexivity|]. split; [reflexivity|].
  vm_compute. split; [reflexivity|]. split; [reflexivity|]. discriminate.
Qed.

(** * Further properties

    Properties of the parts of the agent that the sections above leave
    out, and of the agent as a whole. *)

(** ** More of the status classifier *)

Lemma Qlt_bool_iff (a b : Q) : Qlt_bool a b = true ↔ (a < b)%Q.
Proof.
  unfold Qlt_bool. rewrite negb_true_iff. split.
  - intros H. apply Qnot_le_lt. intros Hle. apply Qle_bool_iff in Hle. congruence.
  - intros H. destruct (Qle_bool b a) eqn:E; [|done].
    apply Qle_bool_iff in E. by apply Qlt_not_le in H.
Qed.

Lemma Qge_bool_false (a b : Q) : Qge_bool a b = false ↔ (a < b)%Q.
Proof.
  unfold Qge_bool. split.
  - intros H. apply Qnot_le_lt. intros Hle. apply Qle_bool_iff in Hle. congruence.
  - intros H. destruct (Qle_bool b a) eqn:E; [|done].
    apply Qle_bool_iff in E. by apply Qlt_not_le in H.
Qed.

(** A threshold loop falls through exactly when every item that has a
    limit is below it. *)
Lemma threshold_breach_false (thresholds : gmap string Q) (metrics : gmap string Q) :
  threshold_breach thresholds (map_to_list metrics) = false ↔
  ∀ metric value limit,
    metrics !! metric = Some value → thresholds !! metric = Some limit → (value < limit)%Q.
Proof.
  split.
  - intros Hno metric value limit Hm Hl.
    apply Qnot_le_lt. intros Hle.
    assert (threshold_breach thresholds (map_to_list metrics) = true); [|congruence].
    apply threshold_breach_true. exists metric, value, limit.
    split; [by apply elem_of_map_to_list|done].
  - intros Hall. destruct (threshold_breach _ _) eqn:E; [|done].
    apply threshold_breach_true in E as (m & v & l & Hin & Hl & Hle).
    apply elem_of_map_to_list in Hin. specialize (Hall m v l Hin Hl).
    by apply Qlt_not_le in Hall.
Qed.

(** X1. With no error present, a metric at or above its warning limit
    makes [determine_status] return ["warning"] when no metric reaches a
    critical limit, whatever the response time is, even one above the
    critical limit of the response time. *)
Theorem determine_status_warning
    (self : DeviceMonitor.t) (metrics : gmap string Q) (response_time : Q)
    (error : option string) (metric : string) (value limit : Q) :
  let cfg := DeviceMonitor.config self in
  truthy error = false →
  below_limits (DeviceConfig.critical_thresholds cfg) metrics →
  metrics !! metric = Some value →
  DeviceConfig.warning_thresholds cfg !! metric = Some limit →
  (limit <= value)%Q →
  (determine_status self metrics response_time error).1 = "warning".
Proof.
  intros cfg Herr Hcrit Hm Hl Hle. unfold determine_status. rewrite Herr. simpl.
  apply threshold_breach_false in Hcrit. fold cfg. rewrite Hcrit.
  assert (threshold_breach (DeviceConfig.warning_thresholds cfg) (map_to_list metrics) = true)
    as ->; [|done].
  apply threshold_breach_true. exists metric, value, limit.
  split; [by apply elem_of_map_to_list|done].
Qed.

(** A CPU at 75% with a response time of 6 seconds. *)
Lemma determine_status_warning_witness :
  (determine_status (DeviceMonitor_init sample_config)
     (<["cpu_usage" := 75%Q]> ∅) 6000%Q None).1 = "warning".
Proof.
  apply (determine_status_warning _ _ _ _ "cpu_usage" 75%Q 70%Q);
    [reflexivity| |reflexivity|reflexivity|by vm_compute].
  intros metric value limit Hm Hl.
  destruct (decide (metric = "cpu_usage")) as [->|Hne].
  - rewrite lookup_insert_eq in Hm. injection Hm as <-.
    vm_compute in Hl. injection Hl as <-. reflexivity.
  - rewrite lookup_insert_ne in Hm by done. by rewrite lookup_empty in Hm.
Defined.

(** X2. With no error present and every metric below its limits, the
    response time decides: ["critical"] from the critical limit on (the
    entry [response_time] of the critical thresholds, 5000 when there is
    none), ["warning"] from the warning limit on (2000 when there is
    none), ["online"] below both. *)
Theorem determine_status_by_response_time
    (self : DeviceMonitor.t) (metrics : gmap string Q) (response_time : Q)
    (error : option string) :
  let cfg := DeviceMonitor.config self in
  let critical := dict_get (DeviceConfig.critical_thresholds cfg) "response_time" 5000%Q in
  let warning := dict_get (DeviceConfig.warning_thresholds cfg) "response_time" 2000%Q in
  let status := (determine_status self metrics response_time error).1 in
  truthy error = false →
  below_limits (DeviceConfig.critical_thresholds cfg) metrics →
  below_limits (DeviceConfig.warning_thresholds cfg) metrics →
  ((critical <= response_time)%Q → status = "critical") ∧
  ((response_time < critical)%Q → (warning <= response_time)%Q → status = "warning") ∧
  ((response_time < critical)%Q → (response_time < warning)%Q → status = "online").
Proof.
  intros cfg critical warning status Herr Hcrit Hwarn.
  unfold status, determine_status. rewrite Herr. simpl.
  apply threshold_breach_false in Hcrit, Hwarn. fold cfg. rewrite Hcrit, Hwarn.
  fold critical warning.
  repeat split.
  - intros H. apply Qge_bool_iff in H. by rewrite H.
  - intros H1 H2. apply Qge_bool_false in H1. apply Qge_bool_iff in H2. by rewrite H1, H2.
  - intros H1 H2. apply Qge_bool_false in H1, H2. by rewrite H1, H2.
Qed.

(** A router at 20% CPU that answers in 2.5 seconds. *)
Lemma determine_status_by_response_time_witness :
  let status :=
    (determine_status (DeviceMonitor_init sample_config)
       (<["cpu_usage" := 20%Q]> ∅) 2500%Q None).1 in
  ((5000 <= 2500)%Q → status = "critical") ∧
  ((2500 < 5000)%Q → (2000 <= 2500)%Q → status = "warning") ∧
  ((2500 < 5000)%Q → (2500 < 2000)%Q → status = "online").
Proof.
  apply (determine_status_by_response_time (DeviceMonitor_init sample_config)
           (<["cpu_usage" := 20%Q]> ∅) 2500%Q None); [reflexivity| |].
  all: intros metric value limit Hm Hl;
    (destruct (decide (metric = "cpu_usage")) as [->|Hne];
     [rewrite lookup_insert_eq in Hm; injection Hm as <-;
      vm_compute in Hl; injection Hl as <-; reflexivity
     |rewrite lookup_insert_ne in Hm by done; by rewrite lookup_empty in Hm]).
Defined.

(** X3. Calls of [determine_status] in a row, each with an error: the
    failure counter goes up by one at each call, and the call that brings
    it to [max_failures] or beyond answers ["offline"], as does every
    later one; the calls before answer ["warning"]. *)
Theorem failures_in_a_row (calls : list (gmap string Q * Q * option string)) :
  ∀ self : DeviceMonitor.t,
  Forall (λ call, truthy call.2 = true) calls →
  let count := DeviceMonitor.consecutive_failures self in
  let '(statuses, self') := determine_status_calls self calls in
  length statuses = length calls ∧
  DeviceMonitor.consecutive_failures self' = count + Z.of_nat (length calls) ∧
  DeviceMonitor.max_failures self' = DeviceMonitor.max_failures self ∧
  ∀ (k : nat) (status : string), statuses !! k = Some status →
    status = if count + Z.of_nat k + 1 >=? DeviceMonitor.max_failures self
             then "offline" else "warning".
Proof.
  induction calls as [|[[metrics response_time] error] calls IH]; intros self Herr count.
  - cbn [determine_status_calls].
    split.
    { done. }
    split.
    { unfold count. simpl. lia. }
    split.
    { done. }
    intros k status Hk.
    by rewrite lookup_nil in Hk.
  - apply Forall_cons in Herr as [He Herr]. simpl in He.
    cbn [determine_status_calls]. rewrite determine_status_error by done. cbv zeta.
    set (self1 := DeviceMonitor.set_consecutive_failures _ self).
    specialize (IH self1 Herr). cbv zeta in IH. cbv beta iota.
    destruct (determine_status_calls self1 calls) as [statuses self'].
    destruct IH as (Hlen & Hcount & Hmax & Hall). simpl in Hcount, Hmax, Hall.
    split; [simpl; by rewrite Hlen|]. split; [simpl length; unfold count; lia|].
    split; [done|]. intros [|k] status Hk; simpl in Hk.
    + injection Hk as <-. unfold count. by rewrite Z.add_0_r.
    + rewrite (Hall k status Hk). unfold count.
      by replace (DeviceMonitor.consecutive_failures self + 1 + Z.of_nat k + 1)
        with (DeviceMonitor.consecutive_failures self + Z.of_nat (S k) + 1) by lia.
Qed.

(** Five timeouts in a row on a new monitor. *)
Lemma failures_in_a_row_witness :
  let calls := replicate 5 (∅, 0%Q, Some "Ping timeout after 10 seconds") in
  let '(statuses, self') := determine_status_calls (DeviceMonitor_init sample_config) calls in
  length statuses = length calls ∧
  DeviceMonitor.consecutive_failures self' = 0 + Z.of_nat (length calls) ∧
  DeviceMonitor.max_failures self' = 3 ∧
  ∀ (k : nat) (status : string), statuses !! k = Some status →
    status = if 0 + Z.of_nat k + 1 >=? 3 then "offline" else "warning".
Proof.
  apply (failures_in_a_row (replicate 5 (∅, 0%Q, Some "Ping timeout after 10 seconds"))
           (DeviceMonitor_init sample_config)).
  repeat constructor.
Defined.

(** ** More of the result aggregator *)

(** [min] with a key returns an element of the list, and none has a
    smaller key. *)
Lemma min_from_least {A} (key : A → Z) (best : A) (rest : list A) (r : A) :
  r ∈ best :: rest → key (min_from key best rest) ≤ key r.
Proof.
  destruct (min_from_first key rest best) as (l1 & l2 & Heq & H1 & H2).
  rewrite Heq. intros Hin. rewrite Forall_forall in H1, H2.
  apply elem_of_app in Hin as [Hin|Hin]; [specialize (H1 r Hin); lia|].
  apply elem_of_cons in Hin as [->|Hin]; [lia|]. by apply H2.
Qed.

Lemma min_from_elem {A} (key : A → Z) (best : A) (rest : list A) :
  min_from key best rest ∈ best :: rest.
Proof.
  destruct (min_from_first key rest best) as (l1 & l2 & -> & _).
  apply elem_of_app. right. left.
Qed.

(** No status has a smaller key than ["offline"], and no other status has
    its key. *)
Lemma priority_of_offline (r : DeviceMetrics.t) :
  0 ≤ priority_of r ∧ (priority_of r = 0 ↔ DeviceMetrics.status r = "offline").
Proof.
  unfold priority_of, status_priority, dict_get.
  destruct (decide (DeviceMetrics.status r = "offline")) as [->|H0]; [done|].
  rewrite lookup_insert_ne by done.
  destruct (decide (DeviceMetrics.status r = "critical")) as [->|H1]; [done|].
  rewrite lookup_insert_ne by done.
  destruct (decide (DeviceMetrics.status r = "warning")) as [->|H2]; [done|].
  rewrite lookup_insert_ne by done.
  destruct (decide (DeviceMetrics.status r = "online")) as [->|H3]; [done|].
  rewrite lookup_insert_ne by done. by rewrite lookup_empty.
Qed.

(** X4. When one of the samples is ["offline"], the aggregated status is
    ["offline"], whatever the statuses of the others are, known or not. *)
Theorem combined_offline_dominates (now : Z) (results : list DeviceMetrics.t)
    (r : DeviceMetrics.t) :
  r ∈ results →
  DeviceMetrics.status r = "offline" →
  ∃ combined,
    combine_monitoring_results now results = Some combined ∧
    DeviceMetrics.status combined = "offline".
Proof.
  intros Hin Hoff. destruct results as [|first rest]; [by apply elem_of_nil in Hin|].
  eexists. split; [reflexivity|]. cbn [DeviceMetrics.status].
  pose proof (min_from_least priority_of first rest r Hin) as Hle.
  apply priority_of_offline in Hoff. rewrite Hoff in Hle.
  apply priority_of_offline.
  pose proof (proj1 (priority_of_offline (min_from priority_of first rest))). lia.
Qed.

(** An unknown status, an online and an offline sample. *)
Lemma combined_offline_dominates_witness :
  ∃ combined,
    combine_monitoring_results 7
      [sample_of "unknown" ∅ "http"; sample_of "online" ∅ "snmp"; sample_of "offline" ∅ "ping"]
      = Some combined ∧
    DeviceMetrics.status combined = "offline".
Proof.
  apply (combined_offline_dominates _ _ (sample_of "offline" ∅ "ping")); [|done].
  do 2 right. left.
Defined.

Lemma prefix_app (e s : string) : String.prefix e (e +:+ s) = true.
Proof.
  induction e as [|c e IH]; [by destruct s|].
  rewrite append_cons. cbn [String.prefix]. by destruct (ascii_dec c c).
Qed.

Lemma py_contains_app_r (sub a b : string) :
  py_contains sub b = true → py_contains sub (a +:+ b) = true.
Proof.
  intros Hb. induction a as [|c a IH]; [done|].
  rewrite append_cons. cbn [py_contains]. rewrite IH. apply orb_true_r.
Qed.

Lemma py_contains_head (e s : string) : py_contains e (e +:+ s) = true.
Proof. apply (py_contains_app e "" (e +:+ s)), prefix_app. Qed.

Lemma py_contains_self (e : string) : py_contains e e = true.
Proof.
  assert (String.prefix e e = true) as H.
  { induction e as [|c e IH]; [done|]. cbn [String.prefix]. by destruct (ascii_dec c c). }
  destruct e; cbn [py_contains]; by rewrite H.
Qed.

(** Every part of a join occurs in it. *)
Lemma py_join_contains (sep e : string) (parts : list string) :
  e ∈ parts → py_contains e (py_join sep parts) = true.
Proof.
  induction parts as [|p parts IH]; intros Hin; [by apply elem_of_nil in Hin|].
  apply elem_of_cons in Hin as [->|Hin].
  - destruct parts; cbn [py_join]; [apply py_contains_self|apply py_contains_head].
  - destruct parts as [|q parts]; [by apply elem_of_nil in Hin|].
    cbn [py_join]. cbn [py_join] in IH.
    apply py_contains_app_r, py_contains_app_r. by apply IH.
Qed.

Lemma collect_errors_nil (results : list DeviceMetrics.t) :
  collect_errors results = [] ↔
  Forall (λ r, truthy (DeviceMetrics.last_error r) = false) results.
Proof.
  unfold collect_errors. induction results as [|r results IH].
  { split; intros _; [constructor|reflexivity]. }
  cbn [omap list_omap]. destruct (truthy (DeviceMetrics.last_error r)) eqn:E.
  - destruct (DeviceMetrics.last_error r) as [e|] eqn:El; [|by simpl in E]. split; [done|].
    intros H. apply Forall_cons in H as [H _]. rewrite El in H. congruence.
  - rewrite IH. split; [by constructor|]. intros H. by apply Forall_cons in H as [_ ?].
Qed.

(** The aggregate of a non-empty list. *)
Lemma combine_monitoring_results_cons (now : Z) (first : DeviceMetrics.t)
    (rest : list DeviceMetrics.t) :
  combine_monitoring_results now (first :: rest)
  = Some (DeviceMetrics.mk (DeviceMetrics.device_id first) now
            (DeviceMetrics.status (min_from priority_of first rest))
            (merge_metrics (first :: rest)) (avg_response_time (first :: rest))
            match collect_errors (first :: rest) with
            | [] => None
            | _ => Some (py_join "; " (collect_errors (first :: rest)))
            end
            "combined").
Proof. reflexivity. Qed.

(** X6. The aggregate has no error exactly when no sample has one (an
    empty message counts as none); otherwise its error contains the
    message of every sample that has one. *)
Theorem combined_error_collects (now : Z) (results : list DeviceMetrics.t)
    (combined : DeviceMetrics.t) :
  combine_monitoring_results now results = Some combined →
  (DeviceMetrics.last_error combined = None ↔
   Forall (λ r, truthy (DeviceMetrics.last_error r) = false) results) ∧
  ∀ (r : DeviceMetrics.t) (e : string),
    r ∈ results → DeviceMetrics.last_error r = Some e → e ≠ "" →
    ∃ msg, DeviceMetrics.last_error combined = Some msg ∧ py_contains e msg = true.
Proof.
  destruct results as [|first rest]; [done|].
  rewrite combine_monitoring_results_cons. intros H. apply (inj Some) in H. subst combined.
  cbn [DeviceMetrics.last_error].
  split.
  - rewrite <- collect_errors_nil. destruct (collect_errors _); split; done.
  - intros r e Hin He Hne.
    assert (e ∈ collect_errors (first :: rest)) as Hmem.
    { unfold collect_errors. apply list_elem_of_omap. exists r. split; [done|].
      rewrite He. by destruct e. }
    destruct (collect_errors (first :: rest)) as [|e1 errors] eqn:E;
      [by apply elem_of_nil in Hmem|].
    eexists. split; [reflexivity|]. by apply py_join_contains.
Qed.

(** A ping that timed out and an HTTP server that answered 503. *)
Lemma combined_error_collects_witness :
  let ping := DeviceMetrics.mk "device_router_01" 0 "warning" failed_ping_metrics 10000%Q
                (Some "Ping timeout after 10 seconds") "ping" in
  let http := DeviceMetrics.mk "device_router_01" 0 "warning" ∅ 12%Q
                (Some "HTTP 503: Service Unavailable") "http" in
  let combined := DeviceMetrics.mk "device_router_01" 7 "warning" failed_ping_metrics
                    (10012 / 2)%Q
                    (Some "Ping timeout after 10 seconds; HTTP 503: Service Unavailable")
                    "combined" in
  (DeviceMetrics.last_error combined = None ↔
   Forall (λ r, truthy (DeviceMetrics.last_error r) = false) [ping; http]) ∧
  ∀ (r : DeviceMetrics.t) (e : string),
    r ∈ [ping; http] → DeviceMetrics.last_error r = Some e → e ≠ "" →
    ∃ msg, DeviceMetrics.last_error combined = Some msg ∧ py_contains e msg = true.
Proof.
  apply (combined_error_collects 7). reflexivity.
Defined.

(** X7. The aggregate of a single sample has the device, status, metrics
    and response time of that sample and its error, if the message is not
    empty; its method is ["combined"] and its time that of the
    aggregation. *)
Theorem combined_single_sample (now : Z) (r : DeviceMetrics.t) :
  ∃ combined,
    combine_monitoring_results now [r] = Some combined ∧
    DeviceMetrics.device_id combined = DeviceMetrics.device_id r ∧
    DeviceMetrics.timestamp combined = now ∧
    DeviceMetrics.status combined = DeviceMetrics.status r ∧
    DeviceMetrics.metrics combined = DeviceMetrics.metrics r ∧
    (DeviceMetrics.response_time combined == DeviceMetrics.response_time r)%Q ∧
    DeviceMetrics.last_error combined
      = (if truthy (DeviceMetrics.last_error r) then DeviceMetrics.last_error r else None) ∧
    DeviceMetrics.monitoring_method combined = "combined".
Proof.
  eexists. split; [reflexivity|]. cbn.
  split; [done|]. split; [done|]. split; [done|].
  split; [unfold dict_update; by rewrite (right_id_L ∅ (∪))|].
  split; [unfold avg_response_time; simpl; field|].
  split; [|done].
  unfold collect_errors. cbn [omap list_omap].
  destruct (DeviceMetrics.last_error r) as [[|c e]|]; done.
Qed.

(** ** More of the ping probe *)

(** What the [try] block and the handlers of the ping probe leave when the
    ping failed: an error, and the metrics of a failure. *)
Lemma failed_ping_locals (self : DeviceMonitor.t) (run : ping_outcome) :
  ping_failed run = true →
  ∃ error response_time,
    truthy error = true ∧
    match ping_try run with
    | Ok locals => locals
    | Raise e =>
        if isinstance e TimeoutError
        then (Some ("Ping timeout after "
                    +:+ pretty (DeviceConfig.timeout (DeviceMonitor.config self))
                    +:+ " seconds"),
              inject_Z (DeviceConfig.timeout (DeviceMonitor.config self) * 1000),
              failed_ping_metrics)
        else (Some ("Ping error: " +:+ exn_str e),
              inject_Z (DeviceConfig.timeout (DeviceMonitor.config self) * 1000),
              failed_ping_metrics)
    end = (error, response_time, failed_ping_metrics).
Proof.
  intros Hfail.
  destruct run as [e|returncode stdout stderr elapsed_ms]; cbn [ping_try ping_failed] in *.
  - destruct (isinstance e TimeoutError);
      (eexists _, _; (split; [|reflexivity]); reflexivity).
  - destruct (returncode =? 0); cbn [negb orb] in Hfail.
    + destruct stdout as [output|e]; [done|]. cbn [mbind result_bind].
      destruct (isinstance e TimeoutError);
        (eexists _, _; (split; [|reflexivity]); reflexivity).
    + destruct stderr as [err|e]; cbn [mbind result_bind].
      * (eexists _, _; (split; [|reflexivity]); reflexivity).
      * destruct (isinstance e TimeoutError);
          (eexists _, _; (split; [|reflexivity]); reflexivity).
Qed.

(** X8. A ping that failed (an exception, a timeout, an exit status other
    than 0, output that cannot be decoded) gives the sample of a failure:
    latency 0, packet loss 100, uptime 0; the monitor counts one more
    failure, and the status is ["offline"] when the count has reached
    [max_failures], ["warning"] before. *)
Theorem ping_failure_counts (self : DeviceMonitor.t) (now : Z) (run : ping_outcome) :
  let count := DeviceMonitor.consecutive_failures self + 1 in
  ping_failed run = true →
  ∃ sample,
    PingMonitor_check_device self now run
      = Ok (sample, DeviceMonitor.set_consecutive_failures count self) ∧
    DeviceMetrics.metrics sample = failed_ping_metrics ∧
    DeviceMetrics.status sample
      = (if count >=? DeviceMonitor.max_failures self then "offline" else "warning").
Proof.
  intros count Hfail. unfold PingMonitor_check_device.
  destruct (failed_ping_locals self run Hfail) as (error & response_time & Herr & ->).
  rewrite determine_status_error by done. cbv zeta. fold count.
  by eexists.
Qed.

(** The third failure in a row: the network is unreachable. *)
Lemma ping_failure_counts_witness :
  ∃ sample,
    PingMonitor_check_device
      (DeviceMonitor.set_consecutive_failures 2 (DeviceMonitor_init sample_config)) 0
      (PingExited 1 (Ok "") (Ok "ping: connect: Network is unreachable") 3%Q)
      = Ok (sample, DeviceMonitor.set_consecutive_failures 3
                      (DeviceMonitor.set_consecutive_failures 2
                         (DeviceMonitor_init sample_config))) ∧
    DeviceMetrics.metrics sample = failed_ping_metrics ∧
    DeviceMetrics.status sample = "offline".
Proof.
  apply (ping_failure_counts
           (DeviceMonitor.set_consecutive_failures 2 (DeviceMonitor_init sample_config))).
  reflexivity.
Defined.

(** A text without the separator is the only piece of its split. *)
Lemma py_split_absent (sep s : string) :
  py_contains sep s = false → py_split sep s = [s].
Proof.
  unfold py_split. induction s as [|c s IH]; intros Hno; [done|].
  cbn [split_from]. rewrite (py_contains_prefix _ _ Hno).
  cbn [py_contains] in Hno. apply orb_false_iff in Hno as [_ Hno].
  by rewrite IH.
Qed.

(** The loops of [_parse_ping_output] find nothing in lines without their
    marks. *)
Lemma find_time_none (lines : list string) :
  Forall (λ l, py_contains "time=" (py_lower l) = false) lines → find_time lines = Ok None.
Proof.
  induction 1 as [|l lines Hl _ IH]; [done|]. cbn [find_time]. by rewrite Hl.
Qed.

Lemma find_loss_none (lines : list string) :
  Forall (λ l, py_contains "% packet loss" l || py_contains "% loss" l = false) lines →
  find_loss lines = Ok None.
Proof.
  induction 1 as [|l lines Hl _ IH]; [done|]. cbn [find_loss]. by rewrite Hl.
Qed.

(** X9. A ping that exits with status 0 and whose output has no line
    mentioning [time=] and no line mentioning a packet loss gives a sample
    without error, whose latency is the time the command took, with packet
    loss 100 and uptime 0; the failure counter is reset. *)
Theorem ping_unparsed_output (self : DeviceMonitor.t) (now : Z) (output : string)
    (stderr : result string) (elapsed_ms : Q) :
  Forall (λ l, py_contains "time=" (py_lower l) = false) (py_split newline output) →
  Forall (λ l, py_contains "% packet loss" l || py_contains "% loss" l = false)
    (py_split newline output) →
  ∃ sample self',
    PingMonitor_check_device self now (PingExited 0 (Ok output) stderr elapsed_ms)
      = Ok (sample, self') ∧
    DeviceMetrics.last_error sample = None ∧
    DeviceMetrics.response_time sample = elapsed_ms ∧
    DeviceMetrics.metrics sample
      = <["latency" := elapsed_ms]> (<["packet_loss" := 100%Q]> (<["uptime" := 0%Q]> ∅)) ∧
    DeviceMonitor.consecutive_failures self' = 0.
Proof.
  intros Htime Hloss.
  assert (_parse_ping_output output = Ok (0%Q, 100%Q)) as Hparse.
  { unfold _parse_ping_output. cbv zeta.
    by rewrite (find_time_none _ Htime), (find_loss_none _ Hloss). }
  unfold PingMonitor_check_device, ping_try. cbn [Z.eqb mbind result_bind].
  rewrite Hparse. cbn [mbind result_bind].
  change (Qlt_bool 0 0) with false. change (Qlt_bool 100 100) with false. cbv iota.
  pose proof (determine_status_resets self
                (<["latency" := elapsed_ms]> (<["packet_loss" := 100%Q]> (<["uptime" := 0%Q]> ∅)))
                elapsed_ms None eq_refl) as Hreset.
  destruct (determine_status _ _ _ _) as [status self']. by eexists _, _.
Qed.

(** A ping that prints nothing. *)
Lemma ping_unparsed_output_witness :
  ∃ sample self',
    PingMonitor_check_device (DeviceMonitor_init sample_config) 0
      (PingExited 0 (Ok "") (Ok "") 2104%Q) = Ok (sample, self') ∧
    DeviceMetrics.last_error sample = None ∧
    DeviceMetrics.response_time sample = 2104%Q ∧
    DeviceMetrics.metrics sample
      = <["latency" := 2104%Q]> (<["packet_loss" := 100%Q]> (<["uptime" := 0%Q]> ∅)) ∧
    DeviceMonitor.consecutive_failures self' = 0.
Proof.
  apply ping_unparsed_output; repeat constructor.
Defined.

(** X10. The time is looked for without regard to letter case and read
    with regard to it: when the first line that mentions [time=] in some
    letter case does not contain [time=] in lower case, the parser returns
    time 0 and loss 100, whatever the lines after it say. *)
Theorem parse_ping_time_letter_case (output line : string) (before after : list string) :
  py_split newline output = before ++ line :: after →
  Forall (λ l, py_contains "time=" (py_lower l) = false) before →
  py_contains "time=" (py_lower line) = true →
  py_contains "time=" line = false →
  _parse_ping_output output = Ok (0%Q, 100%Q).
Proof.
  intros Hlines Hbefore Hlower Hexact. unfold _parse_ping_output. cbv zeta.
  rewrite Hlines, find_time_skip by done. cbn [find_time]. rewrite Hlower.
  by rewrite (py_split_absent _ _ Hexact).
Qed.

(** Capital letters in the reply line, and a loss line that could be read. *)
Lemma parse_ping_time_letter_case_witness :
  _parse_ping_output
    (py_join newline ["Reply from 192.168.1.1: bytes=32 TIME=5ms TTL=64";
                      "    Packets: Sent = 3, Received = 3, Lost = 0 (0% loss),"])
  = Ok (0%Q, 100%Q).
Proof.
  apply (parse_ping_time_letter_case _
           "Reply from 192.168.1.1: bytes=32 TIME=5ms TTL=64" []
           ["    Packets: Sent = 3, Received = 3, Lost = 0 (0% loss),"]);
    [reflexivity|constructor|reflexivity|reflexivity].
Defined.

(** ** More of the SNMP probe *)

(** X11. With SNMP support, a check by the SNMP probe never answers
    ["offline"], whatever the agent of the device does: the sample reports
    the time the reads took, and the failure counter of the monitor is
    zero afterwards. *)
Theorem snmp_probe_never_offline (self : DeviceMonitor.t) (now : Z) (run : ping_outcome)
    (net : snmp_agent) (elapsed_ms : Q) :
  ∃ sample self',
    SNMPMonitor_check_device true self now run net elapsed_ms = Ok (sample, self') ∧
    DeviceMetrics.status sample ≠ "offline" ∧
    DeviceMetrics.response_time sample = elapsed_ms ∧
    DeviceMonitor.consecutive_failures self' = 0.
Proof.
  unfold SNMPMonitor_check_device, snmp_try. cbn [negb].
  set (metrics := _add_default_metrics self _).
  pose proof (determine_status_no_error_not_offline self metrics elapsed_ms None eq_refl).
  pose proof (determine_status_resets self metrics elapsed_ms None eq_refl).
  destruct (determine_status self metrics elapsed_ms None) as [status self'].
  by eexists _, _.
Qed.

Lemma keys_within_empty (names : list string) : keys_within names ∅.
Proof. intros k [v Hv]. by rewrite lookup_empty in Hv. Qed.

Lemma keys_within_insert (names : list string) (m : gmap string Q) (k : string) (v : Q) :
  k ∈ names → keys_within names m → keys_within names (<[k := v]> m).
Proof.
  intros Hk Hm k' Hk'. destruct (decide (k' = k)) as [->|Hne]; [done|].
  rewrite lookup_insert_ne in Hk' by done. by apply Hm.
Qed.

(** Closes a goal on the keys of a map built by insertions. *)
Ltac solve_keys_within :=
  repeat (apply keys_within_insert; [by repeat constructor|]); try apply keys_within_empty.

(** What the system reads can report. *)
Lemma system_metric_names (net : snmp_agent) :
  keys_within ["uptime"; "cpu_usage"; "memory_usage"] (_get_system_metrics net).
Proof.
  unfold _get_system_metrics.
  repeat (match goal with
          | |- context [if ?b then _ else _] => destruct b
          | |- context [float_of_opt ?x] => destruct (float_of_opt x)
          end; cbn [mbind result_bind]);
    solve_keys_within.
Qed.

(** X12. With SNMP support, every metric read from the system group
    (uptime, CPU, memory) is in the sample with the value read: neither the
    placeholders of the device type nor the defaults replace it; and every
    default of the device type has an entry in the sample. *)
Theorem snmp_measured_metrics_kept (self : DeviceMonitor.t) (now : Z) (run : ping_outcome)
    (net : snmp_agent) (elapsed_ms : Q) :
  ∃ sample self',
    SNMPMonitor_check_device true self now run net elapsed_ms = Ok (sample, self') ∧
    (∀ k v, _get_system_metrics net !! k = Some v →
            DeviceMetrics.metrics sample !! k = Some v) ∧
    (∀ k, is_Some (dict_get device_defaults (DeviceConfig.type (DeviceMonitor.config self)) ∅
                   !! k) →
          is_Some (DeviceMetrics.metrics sample !! k)).
Proof.
  unfold SNMPMonitor_check_device, snmp_try. cbn [negb].
  destruct (determine_status _ _ _ _) as [status self'].
  eexists _, _. split; [reflexivity|]. cbn [DeviceMetrics.metrics].
  unfold _add_default_metrics, dict_update. split.
  - intros k v Hk. apply lookup_union_Some_l.
    assert (_get_router_metrics !! k = None ∧ _get_switch_metrics !! k = None ∧
            _get_firewall_metrics !! k = None ∧
            (list_to_map [("interface_bandwidth", 80%Q); ("error_packets", 10%Q);
                          ("traffic_per_port", 60%Q)] : gmap string Q) !! k = None)
      as (Hr & Hs & Hf & Hi).
    { pose proof (system_metric_names net k (ex_intro _ v Hk)) as Hin.
      repeat (apply elem_of_cons in Hin as [->|Hin]; [done|]).
      by apply elem_of_nil in Hin. }
    assert ((_get_interface_metrics net) !! k = None) as Hiface.
    { unfold _get_interface_metrics. by destruct (truthy _). }
    rewrite lookup_union_r by done.
    repeat (match goal with |- context [if ?b then _ else _] => destruct b end);
      rewrite ?lookup_union_r by done; by apply lookup_union_Some_l.
  - intros k Hd. apply lookup_union_is_Some. by right.
Qed.

(** X13. When the uptime read returns a text that [float] refuses, the
    system group reports nothing, whatever the device answers to the reads
    of the CPU and of the memory. *)
Theorem system_metrics_need_uptime (net : snmp_agent) (uptime : string) :
  _snmp_get net (OIDS !!! "system_uptime") = Some uptime →
  uptime ≠ "" →
  read_float uptime = FloatRefused →
  _get_system_metrics net = ∅.
Proof.
  intros Hget Hne Hfloat. unfold _get_system_metrics. rewrite Hget.
  assert (truthy (Some uptime) = true) as -> by by destruct uptime.
  unfold float_of_opt, float_of_str, py_float. by rewrite Hfloat.
Qed.

(** An agent that formats its uptime and answers 42 to every other read. *)
Lemma system_metrics_need_uptime_witness :
  _get_system_metrics
    (λ oid, if String.eqb oid "1.3.6.1.2.1.1.3.0" then SnmpVarBinds ["12 days, 3:04:05"]
            else SnmpVarBinds ["42"]) = ∅.
Proof.
  apply (system_metrics_need_uptime _ "12 days, 3:04:05"); [reflexivity|done|reflexivity].
Defined.





(** ** More of the HTTP probe *)

(** [float] raises a [ValueError], a [TypeError] or an [OverflowError],
    nothing else. *)
Lemma json_float_raises (v : json) (e : exn) :
  json_float v = Raise e →
  exn_cls e = ValueError ∨ exn_cls e = TypeError ∨ exn_cls e = OverflowError.
Proof.
  destruct v as [| |q|s| |]; cbn [json_float]; try (intros [= <-]; right; by left).
  - destruct (beyond_double q); [|done]. intros [= <-]. right. by right.
  - unfold float_of_str, raise_of. destruct (py_float s); [done|]. intros [= <-]. by left.
Qed.

(** The parts of [_parse_http_response] set no metric but those they are
    given the names of. *)
Lemma map_fields_keys (names : list string) (data : json) (mappings : list (string * string)) :
  Forall (λ mapping, mapping.2 ∈ names) mappings →
  ∀ acc metrics,
  keys_within names acc →
  map_fields data mappings acc = Ok metrics → keys_within names metrics.
Proof.
  induction 1 as [|[api_field metric_name] mappings Hname _ IH]; intros acc metrics Hacc.
  - by intros [= <-].
  - cbn [map_fields]. destruct (json_contains api_field data) as [[]|e];
      cbn [mbind result_bind]; [|by apply IH|done].
    destruct (json_getitem data api_field) as [v|e]; cbn [mbind result_bind].
    + destruct (json_float v) as [x|e].
      * apply IH. by apply keys_within_insert.
      * destruct (_ || _); [by apply IH|done].
    + destruct (_ || _); [by apply IH|done].
Qed.

Lemma copy_field_keys (names : list string) (data : json) (key metric_name : string)
    (acc metrics : gmap string Q) :
  metric_name ∈ names → keys_within names acc →
  copy_field data key metric_name acc = Ok metrics → keys_within names metrics.
Proof.
  intros Hname Hacc. unfold copy_field.
  destruct (json_contains key data) as [[]|e]; cbn [mbind result_bind]; [| |done].
  - destruct (json_getitem data key) as [v|e]; cbn [mbind result_bind]; [|done].
    destruct (json_float v) as [x|e]; cbn [mbind result_bind]; [|done].
    intros [= <-]. by apply keys_within_insert.
  - by intros [= <-].
Qed.

Lemma copy_nested_keys (names : list string) (data : json) (outer inner metric_name : string)
    (acc metrics : gmap string Q) :
  metric_name ∈ names → keys_within names acc →
  copy_nested data outer inner metric_name acc = Ok metrics → keys_within names metrics.
Proof.
  intros Hname Hacc. unfold copy_nested.
  destruct (json_contains outer data) as [[]|e]; cbn [mbind result_bind]; [| |done].
  - destruct (json_getitem data outer) as [sub|e]; cbn [mbind result_bind]; [|done].
    destruct (is_dict sub); [by apply copy_field_keys|]. by intros [= <-].
  - by intros [= <-].
Qed.

(** X15. Whatever the decoded body is, the metrics that
    [_parse_http_response] returns are among the ten the probe knows:
    no field of the body becomes a metric under its own name. *)
Theorem parse_http_response_keys (self : DeviceMonitor.t) (data : json)
    (metrics : gmap string Q) :
  _parse_http_response self data = Ok metrics → keys_within http_metric_names metrics.
Proof.
  unfold _parse_http_response.
  destruct (map_fields data field_mappings ∅) as [m0|e] eqn:E0; cbn [mbind result_bind];
    [|done].
  assert (keys_within http_metric_names m0) as H0.
  { eapply map_fields_keys; [|apply keys_within_empty|exact E0].
    unfold field_mappings, http_metric_names. repeat constructor. }
  destruct (String.eqb _ "router").
  { destruct (copy_nested data "interfaces" _ _ m0) as [m1|e] eqn:E1; cbn [mbind result_bind];
      [|done].
    apply copy_nested_keys; [by repeat constructor|].
    eapply copy_nested_keys; [|exact H0|exact E1]. by repeat constructor. }
  destruct (String.eqb _ "firewall"); [|by intros [= <-]].
  destruct (copy_field data "sessions" _ m0) as [m1|e] eqn:E1; cbn [mbind result_bind]; [|done].
  destruct (copy_field data "blocked" _ m1) as [m2|e] eqn:E2; cbn [mbind result_bind]; [|done].
  apply copy_field_keys; [by repeat constructor|].
  eapply copy_field_keys; [|eapply copy_field_keys; [|exact H0|exact E1]|exact E2];
    by repeat constructor.
Qed.

(** A body with a CPU value and a host name. *)
Lemma parse_http_response_keys_witness :
  keys_within http_metric_names (<["cpu_usage" := 42%Q]> ∅).
Proof.
  apply (parse_http_response_keys (DeviceMonitor_init sample_config)
           (JObj (<["cpu" := JNum 42%Q]> (<["hostname" := JStr "r1"]> ∅)))).
  reflexivity.
Defined.

(** On a JSON object the mapping loop, when it returns, is a fold of
    [mapped]. *)
Lemma map_fields_object (fields : gmap string json) (mappings : list (string * string)) :
  ∀ acc metrics,
  map_fields (JObj fields) mappings acc = Ok metrics →
  metrics = foldl (mapped fields) acc mappings.
Proof.
  induction mappings as [|[api_field metric_name] mappings IH]; intros acc metrics.
  { by intros [= <-]. }
  cbn [map_fields foldl json_contains json_getitem mbind result_bind].
  unfold mapped at 2, numeric. cbn [fst snd].
  destruct (fields !! api_field) as [v|] eqn:Hv.
  - rewrite bool_decide_true by done. cbn [raise_of mbind result_bind].
    destruct (json_float v) as [x|e] eqn:Hx; [apply IH|].
    destruct (_ || _); [apply IH|done].
  - rewrite bool_decide_false by (by intros [? ?]). apply IH.
Qed.

(** A step for another metric leaves the metric alone. *)
Lemma mapped_other (fields : gmap string json) (metrics : gmap string Q)
    (mapping : string * string) (k : string) :
  mapping.2 ≠ k → mapped fields metrics mapping !! k = metrics !! k.
Proof.
  intros Hne. unfold mapped. destruct (numeric _ _); [|done].
  by rewrite lookup_insert_ne.
Qed.

(** So do the device-specific copies. *)
Lemma copy_field_other (data : json) (key metric_name k : string)
    (acc metrics : gmap string Q) :
  metric_name ≠ k →
  copy_field data key metric_name acc = Ok metrics → metrics !! k = acc !! k.
Proof.
  intros Hne. unfold copy_field.
  destruct (json_contains key data) as [[]|e]; cbn [mbind result_bind]; [| |done].
  - destruct (json_getitem data key) as [v|e]; cbn [mbind result_bind]; [|done].
    destruct (json_float v) as [x|e]; cbn [mbind result_bind]; [|done].
    intros [= <-]. by rewrite lookup_insert_ne.
  - by intros [= <-].
Qed.

Lemma copy_nested_other (data : json) (outer inner metric_name k : string)
    (acc metrics : gmap string Q) :
  metric_name ≠ k →
  copy_nested data outer inner metric_name acc = Ok metrics → metrics !! k = acc !! k.
Proof.
  intros Hne. unfold copy_nested.
  destruct (json_contains outer data) as [[]|e]; cbn [mbind result_bind]; [| |done].
  - destruct (json_getitem data outer) as [sub|e]; cbn [mbind result_bind]; [|done].
    destruct (is_dict sub); [by apply copy_field_other|]. by intros [= <-].
  - by intros [= <-].
Qed.

(** The device-specific part of [_parse_http_response] leaves the mapped
    metrics alone. *)
Lemma parse_http_response_mapped (self : DeviceMonitor.t) (fields : gmap string json)
    (metrics : gmap string Q) (k : string) :
  k ∈ ["cpu_usage"; "memory_usage"; "uptime"; "temperature"; "cpu_load"] →
  _parse_http_response self (JObj fields) = Ok metrics →
  metrics !! k = foldl (mapped fields) ∅ field_mappings !! k.
Proof.
  intros Hk. unfold _parse_http_response.
  destruct (map_fields (JObj fields) field_mappings ∅) as [m0|e0] eqn:E0;
    cbn [mbind result_bind]; [|done].
  apply map_fields_object in E0. rewrite <- E0.
  assert (Hne : ∀ name, name ∈ ["interface_bandwidth"; "routing_table_changes";
                                 "active_sessions"; "blocked_traffic"; "vpn_tunnels"] →
                        name ≠ k).
  { intros name Hname ->.
    repeat (apply elem_of_cons in Hk as [->|Hk];
            [repeat (apply elem_of_cons in Hname as [?|Hname]; [done|]);
             by apply elem_of_nil in Hname|]).
    by apply elem_of_nil in Hk. }
  destruct (String.eqb _ "router").
  { destruct (copy_nested _ "interfaces" _ _ m0) as [m1|e] eqn:E1; cbn [mbind result_bind];
      [|done].
    intros E2.
    rewrite (copy_nested_other _ _ _ "routing_table_changes" k _ _
               (Hne "routing_table_changes" ltac:(repeat constructor)) E2).
    apply (copy_nested_other _ _ _ "interface_bandwidth" k _ _
             (Hne "interface_bandwidth" ltac:(repeat constructor)) E1). }
  destruct (String.eqb _ "firewall"); [|by intros [= <-]].
  destruct (copy_field _ "sessions" _ m0) as [m1|e] eqn:E1; cbn [mbind result_bind]; [|done].
  destruct (copy_field _ "blocked" _ m1) as [m2|e] eqn:E2; cbn [mbind result_bind]; [|done].
  intros E3.
  rewrite (copy_field_other _ _ "vpn_tunnels" k _ _ (Hne "vpn_tunnels" ltac:(repeat constructor)) E3).
  rewrite (copy_field_other _ _ "blocked_traffic" k _ _ (Hne "blocked_traffic" ltac:(repeat constructor)) E2).
  apply (copy_field_other _ _ "active_sessions" k _ _ (Hne "active_sessions" ltac:(repeat constructor)) E1).
Qed.

(** A step for the metric sets it when its field is a number. *)
Lemma mapped_same (fields : gmap string json) (metrics : gmap string Q)
    (mapping : string * string) (k : string) :
  mapping.2 = k →
  mapped fields metrics mapping !! k = or_else (numeric fields mapping.1) (metrics !! k).
Proof.
  intros <-. unfold mapped, or_else. destruct (numeric _ _); [|done].
  by rewrite lookup_insert_eq.
Qed.

(** X16. On a JSON object none of whose fields is a text that reads as
    [nan] or as an infinity, when [_parse_http_response] returns and
    several fields feed one metric, the last of them in the order of
    [field_mappings] that [float] accepts wins: [cpu_percent] before
    [cpu_usage] before [cpu], [memory_percent] before [memory_usage]
    before [memory], [temp] before [temperature], [load_avg] before
    [load]; a field that [float] refuses with a [ValueError] or a
    [TypeError] is passed over and leaves the metric to the others. (An
    integer that no double holds is not passed over: its [OverflowError]
    ends the parse, which then does not return.) *)
Theorem parse_http_response_precedence (self : DeviceMonitor.t)
    (fields : gmap string json) (metrics : gmap string Q) :
  finite_texts fields = true →
  _parse_http_response self (JObj fields) = Ok metrics →
  metrics !! "cpu_usage"
    = or_else (numeric fields "cpu_percent")
        (or_else (numeric fields "cpu_usage") (numeric fields "cpu")) ∧
  metrics !! "memory_usage"
    = or_else (numeric fields "memory_percent")
        (or_else (numeric fields "memory_usage") (numeric fields "memory")) ∧
  metrics !! "temperature"
    = or_else (numeric fields "temp") (numeric fields "temperature") ∧
  metrics !! "cpu_load" = or_else (numeric fields "load_avg") (numeric fields "load") ∧
  metrics !! "uptime" = numeric fields "uptime".
Proof.
  intros _ Hparse. repeat split.
  all: rewrite (parse_http_response_mapped self fields metrics);
         [|by repeat constructor|done].
  all: unfold field_mappings; cbn [foldl].
  all: repeat first [rewrite mapped_other by done | rewrite mapped_same by done].
  all: cbn [fst]; rewrite lookup_empty; unfold or_else.
  all: repeat (match goal with
               | |- context [numeric ?f ?k] => destruct (numeric f k)
               end); done.
Qed.

(** A CPU given three times, once not as a number. *)
Lemma parse_http_response_precedence_witness :
  let fields : gmap string json :=
    <["cpu" := JNum 10%Q]> (<["cpu_percent" := JStr "n/a"]> (<["cpu_usage" := JStr "55.5"]>
      (<["memory" := JNum 30%Q]> ∅))) in
  let metrics : gmap string Q := <["cpu_usage" := 55.5%Q]> (<["memory_usage" := 30%Q]> ∅) in
  metrics !! "cpu_usage"
    = or_else (numeric fields "cpu_percent")
        (or_else (numeric fields "cpu_usage") (numeric fields "cpu")) ∧
  metrics !! "memory_usage"
    = or_else (numeric fields "memory_percent")
        (or_else (numeric fields "memory_usage") (numeric fields "memory")) ∧
  metrics !! "temperature"
    = or_else (numeric fields "temp") (numeric fields "temperature") ∧
  metrics !! "cpu_load" = or_else (numeric fields "load_avg") (numeric fields "load") ∧
  metrics !! "uptime" = numeric fields "uptime".
Proof.
  intros fields metrics.
  apply (parse_http_response_precedence (DeviceMonitor_init sample_config));
    vm_compute; reflexivity.
Defined.

(** [_parse_http_response] raises a [TypeError], a [ValueError], an
    [OverflowError] or a [KeyError], so never what the text fallback
    waits for. *)
Lemma json_contains_raises (key : string) (data : json) (e : exn) :
  json_contains key data = Raise e → isinstance e JSONDecodeError = false.
Proof. destruct data; simpl; try done; by intros [= <-]. Qed.

Lemma json_getitem_raises (data : json) (key : string) (e : exn) :
  json_getitem data key = Raise e → isinstance e JSONDecodeError = false.
Proof.
  destruct data; simpl; try (by intros [= <-]).
  unfold raise_of. destruct (_ !! _); [done|]. by intros [= <-].
Qed.

Lemma json_float_not_decode (v : json) (e : exn) :
  json_float v = Raise e → isinstance e JSONDecodeError = false.
Proof.
  intros H. unfold isinstance. by destruct (json_float_raises v e H) as [-> | [-> | ->]].
Qed.

Lemma map_fields_raises (data : json) (mappings : list (string * string)) (e : exn) :
  ∀ acc, map_fields data mappings acc = Raise e → isinstance e JSONDecodeError = false.
Proof.
  induction mappings as [|[api_field metric_name] mappings IH]; intros acc; [done|].
  cbn [map_fields].
  destruct (json_contains api_field data) as [[]|e1] eqn:E1; cbn [mbind result_bind].
  - destruct (json_getitem data api_field) as [v|e2] eqn:E2; cbn [mbind result_bind].
    + destruct (json_float v) as [x|e3] eqn:E3; [apply IH|].
      destruct (_ || _); [apply IH|]. intros [= <-]. by eapply json_float_not_decode.
    + destruct (_ || _); [apply IH|]. intros [= <-]. by eapply json_getitem_raises.
  - apply IH.
  - intros [= <-]. by eapply json_contains_raises.
Qed.

Lemma copy_field_raises (data : json) (key metric_name : string) (acc : gmap string Q)
    (e : exn) :
  copy_field data key metric_name acc = Raise e → isinstance e JSONDecodeError = false.
Proof.
  unfold copy_field.
  destruct (json_contains key data) as [[]|e1] eqn:E1; cbn [mbind result_bind]; [|done|].
  - destruct (json_getitem data key) as [v|e2] eqn:E2; cbn [mbind result_bind].
    + destruct (json_float v) as [x|e3] eqn:E3; cbn [mbind result_bind]; [done|].
      intros [= <-]. by eapply json_float_not_decode.
    + intros [= <-]. by eapply json_getitem_raises.
  - intros [= <-]. by eapply json_contains_raises.
Qed.

Lemma copy_nested_raises (data : json) (outer inner metric_name : string)
    (acc : gmap string Q) (e : exn) :
  copy_nested data outer inner metric_name acc = Raise e →
  isinstance e JSONDecodeError = false.
Proof.
  unfold copy_nested.
  destruct (json_contains outer data) as [[]|e1] eqn:E1; cbn [mbind result_bind]; [|done|].
  - destruct (json_getitem data outer) as [sub|e2] eqn:E2; cbn [mbind result_bind].
    + destruct (is_dict sub); [apply copy_field_raises|done].
    + intros [= <-]. by eapply json_getitem_raises.
  - intros [= <-]. by eapply json_contains_raises.
Qed.

Lemma parse_http_response_raises (self : DeviceMonitor.t) (data : json) (e : exn) :
  _parse_http_response self data = Raise e → isinstance e JSONDecodeError = false.
Proof.
  unfold _parse_http_response.
  destruct (map_fields data field_mappings ∅) as [m0|e0] eqn:E0; cbn [mbind result_bind].
  2:{ intros [= <-]. by eapply map_fields_raises. }
  destruct (String.eqb _ "router").
  { destruct (copy_nested data "interfaces" _ _ m0) as [m1|e1] eqn:E1;
      cbn [mbind result_bind]; [apply copy_nested_raises|].
    intros [= <-]. by eapply copy_nested_raises. }
  destruct (String.eqb _ "firewall"); [|done].
  destruct (copy_field data "sessions" _ m0) as [m1|e1] eqn:E1; cbn [mbind result_bind].
  2:{ intros [= <-]. by eapply copy_field_raises. }
  destruct (copy_field data "blocked" _ m1) as [m2|e2] eqn:E2; cbn [mbind result_bind].
  2:{ intros [= <-]. by eapply copy_field_raises. }
  apply copy_field_raises.
Qed.

(** A body that decodes but makes [_parse_http_response] raise gives the
    sample of a failed check. *)
Lemma http_parse_failure_sample (self : DeviceMonitor.t) (now : Z) (net : http_server)
    (auth : option (string * string)) (reason : string) (elapsed_ms : Q) (data : json)
    (text_body : result string) (e : exn) :
  let cfg := DeviceMonitor.config self in
  basic_auth (DeviceConfig.http_auth cfg) = Ok auth →
  net (http_url cfg) auth = HttpResponse 200 reason elapsed_ms (Ok data) text_body →
  _parse_http_response self data = Raise e →
  ∃ sample self',
    HTTPMonitor_check_device self now net = Ok (sample, self') ∧
    truthy (DeviceMetrics.last_error sample) = true ∧
    DeviceMetrics.metrics sample = ∅ ∧
    DeviceMetrics.response_time sample = inject_Z (DeviceConfig.timeout cfg * 1000).
Proof.
  intros cfg Hauth Hnet Hparse. unfold HTTPMonitor_check_device, http_try. fold cfg.
  rewrite Hauth. cbn [mbind result_bind]. rewrite Hnet. cbn [Z.eqb Pos.eqb mbind result_bind].
  rewrite Hparse, (parse_http_response_raises _ _ _ Hparse).
  destruct (isinstance e TimeoutError);
    destruct (determine_status _ _ _ _) as [status self']; by eexists _, _.
Qed.

(** The copy of a field of a JSON object. *)
Lemma copy_field_object (fields : gmap string json) (key metric_name : string)
    (acc : gmap string Q) :
  copy_field (JObj fields) key metric_name acc
  = match fields !! key with
    | Some v => x ← json_float v; Ok (<[metric_name := x]> acc)
    | None => Ok acc
    end.
Proof.
  unfold copy_field. cbn [json_contains json_getitem mbind result_bind].
  destruct (fields !! key) as [v|] eqn:Hv.
  - by rewrite bool_decide_true.
  - by rewrite bool_decide_false by (by intros [? ?]).
Qed.

(** [float] raises on the values that [float_raises] tells. *)
Lemma float_raises_spec (v : json) :
  float_raises v = true → ∃ e, json_float v = Raise e.
Proof.
  destruct v as [| |q|s| |]; cbn [float_raises json_float]; try done; try by eexists.
  - intros ->. by eexists.
  - unfold float_of_str, py_float. destruct (read_float s); try done. by eexists.
Qed.

(** A body that cannot be used makes [_parse_http_response] raise. *)
Lemma unusable_body_raises (self : DeviceMonitor.t) (data : json) :
  unusable_body self data → ∃ e, _parse_http_response self data = Raise e.
Proof.
  destruct data as [| | | | |fields]; cbn [unusable_body]; try done; try by eexists.
  intros (Htype & key & v & Hkey & Hv & Hraises).
  destruct (float_raises_spec v Hraises) as [e Hx].
  unfold _parse_http_response.
  destruct (map_fields (JObj fields) field_mappings ∅) as [m0|e0]; cbn [mbind result_bind];
    [|by eexists].
  rewrite Htype. cbn [String.eqb Ascii.eqb Bool.eqb andb].
  rewrite !copy_field_object.
  repeat (apply elem_of_cons in Hkey as [->|Hkey]);
    [| | |by apply elem_of_nil in Hkey].
  - rewrite Hv, Hx. by eexists.
  - destruct (fields !! "sessions") as [s|]; [destruct (json_float s)|];
      cbn [mbind result_bind]; rewrite ?copy_field_object, ?Hv, ?Hx; by eexists.
  - destruct (fields !! "sessions") as [s|]; [destruct (json_float s)|];
      cbn [mbind result_bind]; rewrite ?copy_field_object; try by eexists.
    all: destruct (fields !! "blocked") as [b|]; [destruct (json_float b)|];
      cbn [mbind result_bind]; rewrite ?copy_field_object, ?Hv, ?Hx; by eexists.
Qed.

(** X17. A response 200 whose body decodes to null, a boolean or a number
    or, for a firewall, to an object one of whose fields [sessions],
    [blocked], [vpn] is present with a value that [float] raises on (null,
    a list, an object, a text that is no numeric literal, an integer that
    no double holds), gives the sample of a failed check: the error is
    set, the metric map is empty (the metrics that could be read are
    dropped), and the response time is the timeout of the device. *)
Theorem http_unusable_body_fails_sample (self : DeviceMonitor.t) (now : Z)
    (net : http_server) (auth : option (string * string)) (reason : string)
    (elapsed_ms : Q) (data : json) (text_body : result string) :
  let cfg := DeviceMonitor.config self in
  basic_auth (DeviceConfig.http_auth cfg) = Ok auth →
  net (http_url cfg) auth = HttpResponse 200 reason elapsed_ms (Ok data) text_body →
  unusable_body self data →
  ∃ sample self',
    HTTPMonitor_check_device self now net = Ok (sample, self') ∧
    truthy (DeviceMetrics.last_error sample) = true ∧
    DeviceMetrics.metrics sample = ∅ ∧
    DeviceMetrics.response_time sample = inject_Z (DeviceConfig.timeout cfg * 1000).
Proof.
  intros cfg Hauth Hnet Hdata.
  destruct (unusable_body_raises self data Hdata) as [e He].
  by eapply http_parse_failure_sample.
Qed.

(** A firewall that reports its CPU and, for its sessions, a text. *)
Lemma http_unusable_body_fails_sample_witness :
  let cfg := DeviceConfig_init "device_firewall_01" "Edge Firewall" "firewall"
               "192.168.1.254" "DMZ" ["ping"; "http"] None None in
  let fields : gmap string json :=
    <["cpu" := JNum 12%Q]> (<["sessions" := JStr "n/a"]> ∅) in
  let net : http_server := λ _ _, HttpResponse 200 "OK" 15%Q (Ok (JObj fields)) (Ok "") in
  ∃ sample self',
    HTTPMonitor_check_device (DeviceMonitor_init cfg) 0 net = Ok (sample, self') ∧
    truthy (DeviceMetrics.last_error sample) = true ∧
    DeviceMetrics.metrics sample = ∅ ∧
    DeviceMetrics.response_time sample = inject_Z (10 * 1000).
Proof.
  intros cfg fields net.
  apply (http_unusable_body_fails_sample (DeviceMonitor_init cfg) 0 net None "OK" 15%Q
           (JObj fields) (Ok "")); [reflexivity|reflexivity|].
  split; [reflexivity|]. exists "sessions", (JStr "n/a").
  split; [by repeat constructor|]. split; reflexivity.
Defined.

(** The value of a line of text raises nothing but what the loop catches. *)
Lemma text_value_raises (line : string) (e : exn) :
  text_value line = Raise e → value_or_index_error e = true.
Proof.
  unfold text_value.
  destruct (getitem (py_split ":" line) 1) as [field|e1] eqn:E1; cbn [mbind result_bind].
  - apply float_of_str_raises.
  - intros [= <-]. by eapply getitem_raises.
Qed.

(** The scan of a text returns, and sets no metric but the two it looks
    for. *)
Lemma scan_text_returns (lines : list string) : ∀ acc : gmap string Q,
  keys_within ["cpu_usage"; "memory_usage"] acc →
  ∃ metrics, scan_text lines acc = Ok metrics ∧
             keys_within ["cpu_usage"; "memory_usage"] metrics.
Proof.
  induction lines as [|line lines IH]; intros acc Hacc; [by exists acc|].
  cbn [scan_text].
  destruct (_ || _).
  { destruct (text_value _) as [value|e] eqn:E.
    - apply IH. apply keys_within_insert; [by repeat constructor|done].
    - rewrite (text_value_raises _ _ E). by apply IH. }
  destruct (_ || _); [|by apply IH].
  destruct (text_value _) as [value|e] eqn:E.
  - apply IH. apply keys_within_insert; [by repeat constructor|done].
  - rewrite (text_value_raises _ _ E). by apply IH.
Qed.

(** X18. When the body of a response 200 is not JSON and reads as text,
    the text parser returns on every text, with no metric but [cpu_usage]
    and [memory_usage], and the sample has those metrics, no error, and
    the time the request took. *)
Theorem http_text_body_sample (self : DeviceMonitor.t) (now : Z) (net : http_server)
    (auth : option (string * string)) (reason : string) (elapsed_ms : Q)
    (e : exn) (text : string) :
  let cfg := DeviceMonitor.config self in
  basic_auth (DeviceConfig.http_auth cfg) = Ok auth →
  net (http_url cfg) auth = HttpResponse 200 reason elapsed_ms (Raise e) (Ok text) →
  isinstance e JSONDecodeError = true →
  ∃ metrics sample self',
    _parse_text_response text = Ok metrics ∧
    keys_within ["cpu_usage"; "memory_usage"] metrics ∧
    HTTPMonitor_check_device self now net = Ok (sample, self') ∧
    DeviceMetrics.metrics sample = metrics ∧
    DeviceMetrics.last_error sample = None ∧
    DeviceMetrics.response_time sample = elapsed_ms.
Proof.
  intros cfg Hauth Hnet He.
  destruct (scan_text_returns (py_split newline text) ∅ (keys_within_empty _))
    as (metrics & Hscan & Hkeys).
  exists metrics. unfold HTTPMonitor_check_device, http_try. fold cfg.
  rewrite Hauth. cbn [mbind result_bind]. rewrite Hnet. cbn [Z.eqb Pos.eqb mbind result_bind].
  rewrite He. cbn [mbind result_bind]. unfold _parse_text_response. rewrite Hscan.
  cbn [mbind result_bind].
  destruct (determine_status _ _ _ _) as [status self']. by eexists _, _.
Qed.

(** A status page of four lines. *)
Lemma http_text_body_sample_witness :
  let text := py_join newline ["Status page"; "CPU: 45%"; "Memory usage: 61.5 %"; "cpu: busy"] in
  let net : http_server :=
    λ _ _, HttpResponse 200 "OK" 15%Q (Raise (mk_exn JSONDecodeError "Expecting value"))
             (Ok text) in
  ∃ metrics sample self',
    _parse_text_response text = Ok metrics ∧
    keys_within ["cpu_usage"; "memory_usage"] metrics ∧
    HTTPMonitor_check_device (DeviceMonitor_init sample_config) 0 net = Ok (sample, self') ∧
    DeviceMetrics.metrics sample = metrics ∧
    DeviceMetrics.last_error sample = None ∧
    DeviceMetrics.response_time sample = 15%Q.
Proof.
  intros text net.
  apply (http_text_body_sample (DeviceMonitor_init sample_config) 0 net None "OK" 15%Q
           (mk_exn JSONDecodeError "Expecting value") text);
    reflexivity.
Defined.

(** ** Failures in the samples *)

(** X31. The ping probe returns a sample whose error field is set exactly
    when the ping failed (an exception, a timeout, a non-zero exit
    status, undecodable output); so does the SNMP probe when it falls
    back to ping, and it keeps its own state. The HTTP probe returns a
    sample with its error set and no metric when the credentials are
    malformed or the GET failed (an exception, a timeout, a status other
    than 200, a body that cannot be read). *)
Theorem probe_failures_recorded :
  (∀ self now run, ∃ sample self',
     PingMonitor_check_device self now run = Ok (sample, self') ∧
     truthy (DeviceMetrics.last_error sample) = ping_failed run) ∧
  (∀ self now run net elapsed_ms, ∃ sample,
     SNMPMonitor_check_device false self now run net elapsed_ms = Ok (sample, self) ∧
     truthy (DeviceMetrics.last_error sample) = ping_failed run) ∧
  (∀ self now net, ∃ sample self',
     HTTPMonitor_check_device self now net = Ok (sample, self') ∧
     match basic_auth (DeviceConfig.http_auth (DeviceMonitor.config self)) with
     | Raise _ =>
         truthy (DeviceMetrics.last_error sample) = true ∧
         DeviceMetrics.metrics sample = ∅
     | Ok auth =>
         http_failed (net (http_url (DeviceMonitor.config self)) auth) = true →
         truthy (DeviceMetrics.last_error sample) = true ∧
         DeviceMetrics.metrics sample = ∅
     end).
Proof.
  split; [exact ping_check_device_returns|].
  split; [|exact http_check_device_returns].
  intros self now run net elapsed_ms.
  destruct (snmp_fallback_returns self now run net elapsed_ms) as (s & pm & Hping & ->).
  eexists. split; [reflexivity|].
  destruct (ping_check_device_returns (DeviceMonitor_init (DeviceMonitor.config self)) now run)
    as (s' & pm' & Hping' & Herr).
  rewrite Hping in Hping'. by injection Hping' as <- <-.
Qed.

(** ** More of the API client *)

(** Rounding leaves a whole number as it is. *)
Lemma round_half_even_whole (q : Q) (n : Z) :
  (q == inject_Z n)%Q → round_half_even q = n.
Proof.
  intros Hq. unfold round_half_even.
  assert (Qfloor q = n) as -> by (rewrite Hq; apply Qfloor_Z).
  assert ((q - inject_Z n ?= 1 # 2)%Q = Lt) as ->; [|done].
  apply Qlt_alt. rewrite Hq.
  assert (inject_Z n - inject_Z n == 0)%Q as -> by ring. done.
Qed.

(** A whole number is its own reduced fraction. *)
Lemma Qred_whole (n : Z) : Qred (inject_Z n) = inject_Z n.
Proof.
  unfold Qred, inject_Z.
  pose proof (Z.ggcd_gcd n 1) as Hg. pose proof (Z.ggcd_correct_divisors n 1) as Hd.
  destruct (Z.ggcd n 1) as [g [a b]]. cbn [fst snd] in *.
  rewrite Z.gcd_1_r in Hg. subst g. destruct Hd as [-> Hb].
  rewrite Z.mul_1_l in Hb. by rewrite <- Hb, Z.mul_1_l.
Qed.

(** A duration of a whole number of seconds within the range of
    [timedelta] is kept as it is. *)
Lemma timedelta_whole (q : Q) (n : Z) :
  (q == inject_Z n)%Q →
  -86399999913600 ≤ n < 86400000000000 →
  timedelta q = Ok (inject_Z n).
Proof.
  intros Hq Hn. unfold timedelta.
  rewrite (round_half_even_whole (q * 1000000) (n * 1000000)).
  2:{ rewrite Hq, inject_Z_mult. reflexivity. }
  assert (-999999999 ≤ n * 1000000 / 86400000000 ≤ 999999999) as [Hlo Hhi].
  { split.
    - apply Z.div_le_lower_bound; lia.
    - apply Z.lt_succ_r, Z.div_lt_upper_bound; lia. }
  apply Z.leb_le in Hlo, Hhi. rewrite Hlo, Hhi. cbn [andb]. f_equal.
  rewrite (Qred_complete (n * 1000000 # 1000000) (inject_Z n)).
  - apply Qred_whole.
  - unfold Qeq, inject_Z. cbn [Qnum Qden]. lia.
Qed.

(** The expiry of a token whose lifetime is a whole number of seconds,
    obtained at the instant [t]. *)
Lemma whole_lifetime_expiry (lifetime : Z) (t : Q) :
  is_datetime t →
  is_datetime (t + inject_Z (lifetime - 300)) →
  seconds_of (JNum (inject_Z lifetime)) = Ok (inject_Z (lifetime - 300)) ∧
  datetime_add t (inject_Z (lifetime - 300)) = Ok (t + inject_Z (lifetime - 300))%Q.
Proof.
  unfold is_datetime, datetime_end. intros [Ht0 Ht1] [He0 He1]. split.
  - cbn [seconds_of]. apply timedelta_whole.
    + unfold Qeq, Qminus, Qplus, Qopp, inject_Z. cbn [Qnum Qden]. lia.
    + assert (- 315537897600 < inject_Z (lifetime - 300) < 315537897600)%Q as [Hlo Hhi].
      { split; lra. }
      change (- 315537897600)%Q with (inject_Z (- 315537897600)) in Hlo.
      change 315537897600%Q with (inject_Z 315537897600) in Hhi.
      rewrite <- Zlt_Qlt in Hlo, Hhi. lia.
  - unfold datetime_add, datetime_end.
    apply Qle_bool_iff in He0. rewrite He0.
    apply Qlt_bool_iff in He1. by rewrite He1.
Qed.

(** A login that is answered with a token and a lifetime. *)
Lemma authenticate_accepted (self : APIClient.t) (w : backend)
    (fields : gmap string json) (rest : list reply) (tok : json) (seconds expires : Q) :
  replies w = Reply 200 (Ok (JObj fields)) :: rest →
  fields !! "token" = Some tok →
  seconds_of (default (JNum (24 * 3600)%Q) (fields !! "expires_in")) = Ok seconds →
  datetime_add (now w) seconds = Ok expires →
  authenticate (self, w)
  = (true, (APIClient.mk (APIClient.config self) tok (Some expires),
            served w rest [login_event self])).
Proof.
  intros Hw Htok Hsec Hadd. unfold authenticate, login_event. run_api. rewrite Hw.
  cbn [Z.eqb Pos.eqb mbind result_bind json_getitem json_get]. rewrite Htok.
  cbn [raise_of mbind result_bind]. run_api. cbn [result_bind json_get].
  rewrite Hsec. run_api. rewrite Hadd. run_api. done.
Qed.

(** A login sends one request and consumes the reply to it, if there is
    one; it changes nothing of the client but the token and its expiry. *)
Lemma authenticate_sends_login (self : APIClient.t) (w : backend) :
  ∃ ok self',
    authenticate (self, w) = (ok, (self', served w (tail (replies w)) [login_event self])) ∧
    APIClient.config self' = APIClient.config self.
Proof.
  destruct (replies w) as [|login rest] eqn:Hw; cbn [tail].
  - unfold authenticate, login_event. run_api. rewrite Hw. by eexists _, _.
  - exact (authenticate_step self w login rest Hw).
Qed.

(** X19. A login answered 200 with a token and a lifetime of a whole
    number of seconds (24 hours when the body gives none) stores the
    token and, as its expiry, the instant of the login plus the lifetime
    less 300 seconds, when that instant is one a [datetime] holds. While
    the clock is before the expiry [_ensure_authenticated] sends nothing
    and changes nothing; from the expiry on it does what [authenticate]
    does: it sends one login and takes the reply to it. *)
Theorem login_token_lifetime (self : APIClient.t) (w : backend)
    (fields : gmap string json) (rest : list reply) (tok : json) (lifetime : Z) :
  replies w = Reply 200 (Ok (JObj fields)) :: rest →
  fields !! "token" = Some tok →
  json_truthy tok = true →
  default (JNum (24 * 3600)%Q) (fields !! "expires_in") = JNum (inject_Z lifetime) →
  let expires := (now w + inject_Z (lifetime - 300))%Q in
  is_datetime (now w) →
  is_datetime expires →
  let self' := APIClient.mk (APIClient.config self) tok (Some expires) in
  authenticate (self, w) = (true, (self', served w rest [login_event self])) ∧
  ∀ w2 : backend,
    ((now w2 < expires)%Q → _ensure_authenticated (self', w2) = (tt, (self', w2))) ∧
    ((expires <= now w2)%Q →
     ∃ ok self'',
       authenticate (self', w2)
         = (ok, (self'', served w2 (tail (replies w2)) [login_event self'])) ∧
       _ensure_authenticated (self', w2)
         = (tt, (self'', served w2 (tail (replies w2)) [login_event self']))).
Proof.
  intros Hw Htok Htruthy Hlife expires Hnow Hexpires self'.
  destruct (whole_lifetime_expiry lifetime (now w) Hnow Hexpires) as [Hsec Hadd]. split.
  - apply (authenticate_accepted self w fields rest tok (inject_Z (lifetime - 300)));
      [done|done| |done]. by rewrite Hlife.
  - intros w2. unfold _ensure_authenticated, token_stale. run_api.
    cbn [APIClient.token APIClient.token_expires self']. rewrite Htruthy. cbn [negb orb].
    split; intros Ht.
    + apply Qge_bool_false in Ht. by rewrite Ht.
    + apply Qge_bool_iff in Ht. rewrite Ht.
      destruct (authenticate_sends_login self' w2) as (ok & self'' & Hauth & _).
      exists ok, self''. split; [exact Hauth|]. by rewrite Hauth.
Qed.

(** A token for one hour, obtained at second 1000. *)
Lemma login_token_lifetime_witness :
  let w := mk_backend [Reply 200 (Ok (JObj (<["token" := JStr "token-2"]>
                                           (<["expires_in" := JNum 3600%Q]> ∅))))] 1000 [] in
  let expires := (1000 + inject_Z (3600 - 300))%Q in
  let self' := APIClient.mk sample_api_config (JStr "token-2") (Some expires) in
  authenticate (APIClient_init sample_api_config, w)
    = (true, (self', served w [] [login_event (APIClient_init sample_api_config)])) ∧
  ∀ w2 : backend,
    ((now w2 < expires)%Q → _ensure_authenticated (self', w2) = (tt, (self', w2))) ∧
    ((expires <= now w2)%Q →
     ∃ ok self'',
       authenticate (self', w2)
         = (ok, (self'', served w2 (tail (replies w2)) [login_event self'])) ∧
       _ensure_authenticated (self', w2)
         = (tt, (self'', served w2 (tail (replies w2)) [login_event self']))).
Proof.
  intros w expires self'.
  apply (login_token_lifetime (APIClient_init sample_api_config) w
           (<["token" := JStr "token-2"]> (<["expires_in" := JNum 3600%Q]> ∅)) []
           (JStr "token-2") 3600); try reflexivity; by vm_compute.
Defined.

(** A login that is rejected changes nothing of the client. *)
Lemma authenticate_rejected (self : APIClient.t) (w : backend) (login : reply)
    (rest : list reply) :
  replies w = login :: rest →
  login_rejected login →
  authenticate (self, w) = (false, (self, served w rest [login_event self])).
Proof.
  intros Hw Hrej. unfold authenticate, login_event. run_api. rewrite Hw.
  destruct login as [e|status body]; [done|]. cbn [login_rejected] in Hrej.
  destruct (status =? 200) eqn:Hs; [|done]. apply Z.eqb_eq in Hs.
  destruct Hrej as [Hne|Hbody]; [done|].
  destruct body as [data|e]; cbn [mbind result_bind]; [|done].
  destruct data; cbn [json_getitem mbind result_bind]; try done.
  by rewrite Hbody.
Qed.

(** X20. A login that fails leaves the client as it was, the token it
    held included, when the request raised, the status was not 200 or the
    body had no token to read. When the answer is 200 with a token but
    the lifetime is not a number (or is one that no [timedelta] holds),
    the login fails too, but the new token is kept and the expiry is left
    as it was. *)
Theorem failed_login_keeps_token (self : APIClient.t) (w : backend) (login : reply)
    (rest : list reply) :
  replies w = login :: rest →
  (login_rejected login →
   authenticate (self, w) = (false, (self, served w rest [login_event self]))) ∧
  (∀ fields tok e,
     login = Reply 200 (Ok (JObj fields)) →
     fields !! "token" = Some tok →
     seconds_of (default (JNum (24 * 3600)%Q) (fields !! "expires_in")) = Raise e →
     authenticate (self, w)
     = (false, (APIClient.set_token tok self, served w rest [login_event self]))).
Proof.
  intros Hw. split; [by apply authenticate_rejected|].
  intros fields tok e -> Htok Hsec. unfold authenticate, login_event. run_api. rewrite Hw.
  cbn [Z.eqb Pos.eqb mbind result_bind json_getitem json_get]. rewrite Htok.
  cbn [raise_of mbind result_bind]. run_api. cbn [result_bind json_get].
  rewrite Hsec. done.
Qed.

(** Credentials that the backend refuses. *)
Lemma failed_login_keeps_token_witness :
  let w := mk_backend [Reply 401 (Ok (JObj (<["error" := JStr "Invalid credentials"]> ∅)))]
             0 [] in
  (login_rejected (Reply 401 (Ok (JObj (<["error" := JStr "Invalid credentials"]> ∅)))) →
   authenticate (sample_client, w)
   = (false, (sample_client, served w [] [login_event sample_client]))) ∧
  (∀ fields tok e,
     Reply 401 (Ok (JObj (<["error" := JStr "Invalid credentials"]> ∅)))
       = Reply 200 (Ok (JObj fields)) →
     fields !! "token" = Some tok →
     seconds_of (default (JNum (24 * 3600)%Q) (fields !! "expires_in")) = Raise e →
     authenticate (sample_client, w)
     = (false, (APIClient.set_token tok sample_client,
                served w [] [login_event sample_client]))).
Proof.
  intros w. apply (failed_login_keeps_token sample_client w). reflexivity.
Defined.

(** X21. [get_devices] does not look at the outcome of the login it
    asks for: with a token that is missing or expired and a login that is
    rejected, the request is sent all the same, with the token the client
    held (none for a new client), and its answer is handed over. *)
Theorem request_follows_failed_login (self : APIClient.t) (w : backend)
    (login answer : reply) (rest : list reply) :
  token_stale self (now w) = true →
  replies w = login :: answer :: rest →
  login_rejected login →
  get_devices (self, w)
  = (listed answer,
     (self, served w rest [login_event self; EvGet (APIClient.token self)])).
Proof.
  intros Hstale Hw Hrej. unfold get_devices, _ensure_authenticated, listed. run_api.
  rewrite Hstale. run_api.
  rewrite (authenticate_rejected self w login (answer :: rest) Hw Hrej). run_api.
  rewrite <- app_assoc. cbn [app].
  destruct answer as [e|status body]; [done|].
  destruct (status =? 200) eqn:Hs.
  - apply Z.eqb_eq in Hs as ->. by destruct body.
  - apply Z.eqb_neq in Hs. destruct status as [|[]|]; try done.
    all: repeat (match goal with |- context [match ?p with _ => _ end] => destruct p end);
      try done.
Qed.

(** A new client whose login meets a connection reset. *)
Lemma request_follows_failed_login_witness :
  get_devices
    (APIClient_init sample_api_config,
     mk_backend [ReplyRaised connection_reset; Reply 200 (Ok (JArr [JObj ∅]))] 0 [])
  = (JArr [JObj ∅],
     (APIClient_init sample_api_config,
      mk_backend [] 0 [EvLogin "Admin" "Admin123"; EvGet JNull])).
Proof.
  apply (request_follows_failed_login (APIClient_init sample_api_config)
           (mk_backend [ReplyRaised connection_reset; Reply 200 (Ok (JArr [JObj ∅]))] 0 [])
           (ReplyRaised connection_reset) (Reply 200 (Ok (JArr [JObj ∅]))) []);
    [reflexivity|reflexivity|exact I].
Defined.

Section FailingLoops.
Context (self : APIClient.t).
Let n := APIConfig.retry_attempts (APIClient.config self).
Let delay := APIConfig.retry_delay (APIClient.config self).

(** A loop all of whose remaining attempts end in an exception, whatever
    the backend replied, uses them all, pauses between them and reports
    failure; [fails] tells the replies that make an attempt raise. *)
Lemma all_fail_loop (loop : list nat → api bool) (req : event) (fails : reply → Prop)
    (Hnil : ∀ s, loop [] s = (false, s))
    (Hstep : ∀ attempt attempts w r rest,
       fails r →
       replies w = r :: rest →
       loop (attempt :: attempts) (self, w) =
       loop attempts (self, after_raise self w rest req attempt))
    (failed : list reply) :
  Forall fails failed →
  ∀ (first : nat) (w : backend) (rest : list reply),
  replies w = failed ++ rest →
  (failed ≠ [] → Z.of_nat (first + length failed) = n) →
  ∃ w',
    loop (seq first (length failed)) (self, w) = (false, (self, w')) ∧
    replies w' = rest ∧
    trace w' = trace w ++ with_pauses delay (replicate (length failed) req).
Proof.
  induction 1 as [|r failed Hr _ IH]; intros first w rest Hw Hn; simpl in *.
  - exists w. rewrite Hnil. by rewrite app_nil_r.
  - rewrite (Hstep _ _ _ _ _ Hr Hw).
    specialize (Hn ltac:(done)).
    set (w1 := after_raise self w _ req first).
    destruct (IH (S first) w1 rest) as (w' & -> & Hrest & Htrace).
    { unfold w1, after_raise. by destruct (_ <? _). }
    { intros _. lia. }
    exists w'. split; [done|]. split; [done|]. rewrite Htrace.
    unfold w1, after_raise. fold n delay.
    destruct failed as [|r' failed]; simpl in *.
    + assert ((Z.of_nat first <? n - 1) = false) as -> by (apply Z.ltb_ge; lia).
      simpl. by rewrite app_nil_r.
    + assert ((Z.of_nat first <? n - 1) = true) as -> by (apply Z.ltb_lt; lia).
      simpl. by rewrite <- !app_assoc.
Qed.
End FailingLoops.

(** An answer 200 to the creation of a device without a name ends the
    attempt in the exception arm: the log line reads the name. *)
Lemma create_attempts_unnamed_step (self : APIClient.t) (fields : gmap string json)
    (attempt : nat) (attempts : list nat) (w : backend) (r : reply) (rest : list reply) :
  fields !! "name" = None →
  (∃ body, r = Reply 200 body) →
  replies w = r :: rest →
  create_attempts (JObj fields) (attempt :: attempts) (self, w) =
  create_attempts (JObj fields) attempts
    (self, after_raise self w rest (EvPost (JObj fields) (APIClient.token self)) attempt).
Proof.
  intros Hname [body ->] Hw. unfold after_raise. simpl. run_api. rewrite Hw.
  cbn [Z.eqb Pos.eqb]. rewrite Hname.
  destruct body as [b|e]; cbn [raise_of mbind result_bind]; run_api; by destruct (_ <? _).
Qed.

(** X22. [create_device] reads the name of the device for its log line
    inside the guarded block: for device data without a [name], every
    answer 200 ends its attempt in the exception arm, so that with all
    answers 200 the creation is requested [retry_attempts] times, with the
    pauses of a retry, and the call reports failure. *)
Theorem create_device_needs_name (self : APIClient.t) (w : backend)
    (fields : gmap string json) (logins : list reply) (bodies : list (result json))
    (rest : list reply) :
  let cfg := APIClient.config self in
  fields !! "name" = None →
  length logins = stale_logins self w →
  length bodies = Z.to_nat (APIConfig.retry_attempts cfg) →
  replies w = logins ++ (Reply 200 <$> bodies) ++ rest →
  ∃ self1 w',
    create_device (JObj fields) (self, w) = (false, (self1, w')) ∧
    replies w' = rest ∧
    (logins = [] → self1 = self) ∧
    trace w' = (trace w ++ replicate (length logins) (login_event self))
               ++ with_pauses (APIConfig.retry_delay cfg)
                    (replicate (length bodies)
                       (EvPost (JObj fields) (APIClient.token self1))).
Proof.
  intros cfg Hname Hlogins Hlen Hw.
  destruct (ensure_authenticated_step self w logins _ Hlogins Hw)
    as (self1 & w1 & Hens & Hw1 & Htr1 & Hcfg & Hsame).
  unfold cfg in Hlen. rewrite <- Hcfg in Hlen.
  unfold create_device. run_api. rewrite Hens. unfold py_range. rewrite <- Hlen.
  rewrite <- (length_fmap (Reply 200) bodies).
  destruct (all_fail_loop self1 (create_attempts (JObj fields))
              (EvPost (JObj fields) (APIClient.token self1))
              (λ r, ∃ body, r = Reply 200 body)
              ltac:(done)
              ltac:(intros ? ? ? ? ? Hr Hw0; exact (create_attempts_unnamed_step
                      self1 fields _ _ _ _ _ Hname Hr Hw0))
              (Reply 200 <$> bodies)
              ltac:(apply Forall_fmap, Forall_true; intros; by eexists)
              0%nat w1 rest Hw1) as (w' & Hloop & Hrest & Htrace).
  { intros Hne. rewrite length_fmap, Hlen. destruct bodies; [done|].
    simpl in Hlen. lia. }
  exists self1, w'. split; [done|]. split; [done|]. split; [done|].
  by rewrite Htrace, Htr1, Hcfg.
Qed.

(** Three attempts configured, the device created three times. *)
Lemma create_device_needs_name_witness :
  let data : gmap string json := <["type" := JStr "router"]> ∅ in
  let created := Reply 200 (Ok (JObj (<["message" := JStr "Device created"]> ∅))) in
  ∃ self1 w',
    create_device (JObj data) (sample_client, mk_backend [created; created; created] 0 [])
      = (false, (self1, w')) ∧
    replies w' = [] ∧
    (([] : list reply) = [] → self1 = sample_client) ∧
    trace w' = ([] ++ replicate 0 (login_event sample_client))
               ++ with_pauses 5 (replicate 3 (EvPost (JObj data) (APIClient.token self1))).
Proof.
  intros data created.
  apply (create_device_needs_name sample_client
           (mk_backend [created; created; created] 0 []) data []
           (replicate 3 (Ok (JObj (<["message" := JStr "Device created"]> ∅)))) []);
    reflexivity.
Defined.

(** X23. With [retry_attempts] at zero or below, [create_device] and
    [update_device] send no request of their own and report failure: the
    only request is the login that a missing or expired token causes. *)
Theorem no_attempts_no_request (self : APIClient.t) (w : backend) (data : json)
    (device_id : string) (logins rest : list reply) :
  APIConfig.retry_attempts (APIClient.config self) ≤ 0 →
  length logins = stale_logins self w →
  replies w = logins ++ rest →
  ∃ self1 w1,
    create_device data (self, w) = (false, (self1, w1)) ∧
    update_device device_id data (self, w) = (false, (self1, w1)) ∧
    replies w1 = rest ∧
    trace w1 = trace w ++ replicate (length logins) (login_event self).
Proof.
  intros Hn Hlogins Hw.
  destruct (ensure_authenticated_step self w logins _ Hlogins Hw)
    as (self1 & w1 & Hens & Hw1 & Htr1 & Hcfg & Hsame).
  exists self1, w1. unfold create_device, update_device. run_api. rewrite Hens.
  unfold py_range. rewrite Hcfg.
  replace (Z.to_nat (APIConfig.retry_attempts (APIClient.config self))) with 0%nat by lia.
  done.
Qed.

(** No attempt configured, a backend that would have answered 200. *)
Lemma no_attempts_no_request_witness :
  let client := APIClient.mk (APIConfig.mk "http://localhost:5000/api" "Admin" "Admin123" 30 0 5)
                  (JStr "token-1") None in
  let w := mk_backend [Reply 200 (Ok (JObj ∅))] 0 [] in
  ∃ self1 w1,
    create_device sample_update (client, w) = (false, (self1, w1)) ∧
    update_device "device_router_01" sample_update (client, w) = (false, (self1, w1)) ∧
    replies w1 = [Reply 200 (Ok (JObj ∅))] ∧
    trace w1 = [] ++ replicate 0 (login_event client).
Proof.
  intros client w.
  apply (no_attempts_no_request client w sample_update "device_router_01" []
           [Reply 200 (Ok (JObj ∅))]); [by vm_compute|reflexivity|reflexivity].
Defined.

(** Attempts that raise, each followed by a pause, then the attempt
    [ends]: the loop goes on from there. *)
Lemma raising_attempts_then (self : APIClient.t) (loop : list nat → api bool) (req : event)
    (Hstep : ∀ attempt attempts w e rest,
       replies w = ReplyRaised e :: rest →
       loop (attempt :: attempts) (self, w) =
       loop attempts (self, after_raise self w rest req attempt))
    (later : list nat) (rest : list reply) (failures : list exn) :
  ∀ (first : nat) (w : backend),
  Z.of_nat (first + length failures) + 1 ≤ APIConfig.retry_attempts (APIClient.config self) →
  replies w = (ReplyRaised <$> failures) ++ rest →
  ∃ w1,
    loop (seq first (length failures) ++ later) (self, w) = loop later (self, w1) ∧
    replies w1 = rest ∧
    trace w1 =
      trace w ++ concat ((λ _, [req; EvSleep (APIConfig.retry_delay (APIClient.config self))])
                         <$> failures).
Proof.
  induction failures as [|e failures IH]; intros first w Hn Hw.
  - exists w. cbn [length seq app fmap list_fmap concat] in *. by rewrite app_nil_r.
  - cbn [length seq app fmap list_fmap] in *.
    rewrite (Hstep _ _ _ _ _ Hw). unfold after_raise.
    assert ((Z.of_nat first <? APIConfig.retry_attempts (APIClient.config self) - 1) = true)
      as -> by (apply Z.ltb_lt; lia).
    edestruct (IH (S first)) as (w1 & -> & Hrest & Htrace); [|reflexivity|]; [lia|].
    exists w1. split; [done|]. split; [done|].
    rewrite Htrace. cbn [trace paused served concat]. by rewrite <- !app_assoc.
Qed.

(** The attempts when fewer than all of them fail. *)
Lemma py_range_split (n : Z) (k : nat) :
  Z.of_nat k < n →
  py_range n = seq 0 k ++ k :: seq (S k) (Z.to_nat n - k - 1).
Proof.
  intros Hk. unfold py_range.
  replace (Z.to_nat n) with (k + S (Z.to_nat n - k - 1))%nat at 1 by lia.
  by rewrite seq_app.
Qed.

(** X24. When fewer than [retry_attempts] requests raise and the next
    one is answered 200, [update_device] returns [True]: every request
    that raised is followed by a pause of [retry_delay], the last request
    by none. So does [create_device] when the body of the answer decodes
    and the device data has a name. *)
Theorem retry_succeeds_after_failures (self : APIClient.t) (w : backend) (data : json)
    (device_id : string) (logins : list reply) (failures : list exn)
    (body : result json) (rest : list reply) :
  let cfg := APIClient.config self in
  let post (c : APIClient.t) := EvPost data (APIClient.token c) in
  let put (c : APIClient.t) := EvPut device_id data (APIClient.token c) in
  let logged_in := trace w ++ replicate (length logins) (login_event self) in
  length logins = stale_logins self w →
  Z.of_nat (length failures) < APIConfig.retry_attempts cfg →
  replies w = logins ++ (ReplyRaised <$> failures) ++ Reply 200 body :: rest →
  (∃ self1 w',
     update_device device_id data (self, w) = (true, (self1, w')) ∧
     replies w' = rest ∧
     (logins = [] → self1 = self) ∧
     trace w' = logged_in
                ++ concat ((λ _, [put self1; EvSleep (APIConfig.retry_delay cfg)]) <$> failures)
                ++ [put self1]) ∧
  (is_Some (match body with Ok b => Some b | Raise _ => None end) →
   is_Some (match json_getitem data "name" with Ok v => Some v | Raise _ => None end) →
   ∃ self1 w',
     create_device data (self, w) = (true, (self1, w')) ∧
     replies w' = rest ∧
     (logins = [] → self1 = self) ∧
     trace w' = logged_in
                ++ concat ((λ _, [post self1; EvSleep (APIConfig.retry_delay cfg)]) <$> failures)
                ++ [post self1]).
Proof.
  intros cfg post put logged_in Hlogins Hn Hw.
  destruct (ensure_authenticated_step self w logins _ Hlogins Hw)
    as (self1 & w1 & Hens & Hw1 & Htr1 & Hcfg & Hsame).
  unfold cfg in *. rewrite <- Hcfg in Hn.
  split.
  - unfold update_device. run_api. rewrite Hens, (py_range_split _ _ Hn).
    destruct (raising_attempts_then self1 (update_attempts device_id data) (put self1)
                ltac:(intros; by eapply update_attempts_raise_step)
                (length failures :: seq (S (length failures))
                                      (Z.to_nat (APIConfig.retry_attempts
                                                   (APIClient.config self1))
                                       - length failures - 1))
                (Reply 200 body :: rest) failures 0%nat w1 ltac:(simpl; lia) Hw1)
      as (w2 & -> & Hw2 & Htr2).
    cbn [update_attempts]. run_api. rewrite Hw2. cbn [Z.eqb Pos.eqb].
    eexists _, _. split; [reflexivity|]. split; [done|]. split; [done|].
    cbn [trace]. unfold logged_in. rewrite Htr2, Htr1, Hcfg. by rewrite <- !app_assoc.
  - intros [b Hb] [v Hv]. destruct body as [b'|]; [|done].
    destruct (json_getitem data "name") as [v'|] eqn:Hname; [|done].
    unfold create_device. run_api. rewrite Hens, (py_range_split _ _ Hn).
    destruct (raising_attempts_then self1 (create_attempts data) (post self1)
                ltac:(intros; by eapply create_attempts_raise_step)
                (length failures :: seq (S (length failures))
                                      (Z.to_nat (APIConfig.retry_attempts
                                                   (APIClient.config self1))
                                       - length failures - 1))
                (Reply 200 (Ok b') :: rest) failures 0%nat w1 ltac:(simpl; lia) Hw1)
      as (w2 & -> & Hw2 & Htr2).
    cbn [create_attempts]. run_api. rewrite Hw2. cbn [Z.eqb Pos.eqb mbind result_bind].
    rewrite Hname. cbn [mbind result_bind]. run_api.
    eexists _, _. split; [reflexivity|]. split; [done|]. split; [done|].
    cbn [trace]. unfold logged_in. rewrite Htr2, Htr1, Hcfg. by rewrite <- !app_assoc.
Qed.

(** Two connection resets, then a success. *)
Lemma retry_succeeds_after_failures_witness :
  let w := mk_backend [ReplyRaised connection_reset; ReplyRaised connection_reset;
                       Reply 200 (Ok (JObj ∅))] 0 [] in
  let put := EvPut "device_router_01" sample_update (JStr "token-1") in
  ∃ w',
    update_device "device_router_01" sample_update (sample_client, w)
      = (true, (sample_client, w')) ∧
    replies w' = [] ∧
    trace w' = [put; EvSleep 5; put; EvSleep 5; put].
Proof.
  intros w put.
  destruct (retry_succeeds_after_failures sample_client w sample_update "device_router_01"
              [] [connection_reset; connection_reset] (Ok (JObj ∅)) []
              eq_refl ltac:(by vm_compute) eq_refl)
    as [(self1 & w' & Hcall & Hrest & Hsame & Htrace) _].
  rewrite (Hsame eq_refl) in Hcall, Htrace.
  exists w'. split; [exact Hcall|]. split; [exact Hrest|]. exact Htrace.
Defined.

(** ** Loading the configuration *)

(** The monitors of a device are those of its known methods, in order. *)
Lemma build_monitors_omap (device_config : DeviceConfig.t) :
  build_monitors device_config
  = omap (monitor_of_method device_config) (DeviceConfig.monitoring_methods device_config).
Proof.
  unfold build_monitors.
  assert (∀ methods acc,
            foldl (λ monitors method,
                     match monitor_of_method device_config method with
                     | Some monitor => monitors ++ [monitor]
                     | None => monitors
                     end) acc methods
            = acc ++ omap (monitor_of_method device_config) methods) as H.
  { induction methods as [|method methods IH]; intros acc; cbn [foldl omap list_omap].
    - by rewrite app_nil_r.
    - rewrite IH. destruct (monitor_of_method device_config method); [|done].
      by rewrite <- app_assoc. }
  apply (H _ []).
Qed.

(** What [load_device] fixes whatever the file says. *)
Lemma load_device_fixed (config : ConfigParser.t) (section : string)
    (device_config : DeviceConfig.t) :
  load_device config section = Ok device_config →
  DeviceConfig.id device_config = section ∧
  DeviceConfig.http_auth device_config = None ∧
  DeviceConfig.critical_thresholds device_config = default_critical_thresholds ∧
  DeviceConfig.warning_thresholds device_config = default_warning_thresholds.
Proof.
  unfold load_device.
  repeat match goal with
         | |- context [required ?x] =>
             destruct (required x); cbn [mbind result_bind]; [|done]
         | |- context [with_fallback ?x ?d] =>
             destruct (with_fallback x d); cbn [mbind result_bind]; [|done]
         | |- context [optional ?x] =>
             destruct (optional x); cbn [mbind result_bind]; [|done]
         end.
  by intros [= <-].
Qed.

(** Reading a section that registers nothing, or one that registers a
    device, keeps the registry right. *)
Lemma registered_skip (config : ConfigParser.t) (seen : list string) (section : string)
    (self : DeviceAgent.t) :
  (∀ device_config,
     String.prefix "device_" section = true →
     load_device config section = Ok device_config →
     DeviceConfig.enabled device_config = true → False) →
  registered config seen self → registered config (seen ++ [section]) self.
Proof.
  intros Hskip [Hdev Hmon]. split; [|done].
  intros id device_config. rewrite Hdev, elem_of_app, list_elem_of_singleton.
  split; [intros (? & ? & ? & ?); by auto|].
  intros ([Hin| ->] & Hp & Hl & He); [done|]. destruct (Hskip _ Hp Hl He).
Qed.

Lemma registered_add (config : ConfigParser.t) (seen : list string) (section : string)
    (self : DeviceAgent.t) (device_config : DeviceConfig.t) :
  String.prefix "device_" section = true →
  load_device config section = Ok device_config →
  DeviceConfig.enabled device_config = true →
  registered config seen self →
  registered config (seen ++ [section])
    (setup_monitors
       (DeviceAgent.mk (<[section := device_config]> (DeviceAgent.devices self))
          (DeviceAgent.monitors self) (DeviceAgent.api_config self))
       device_config).
Proof.
  intros Hp Hl He [Hdev Hmon].
  assert (Hid : DeviceConfig.id device_config = section).
  { by destruct (load_device_fixed _ _ _ Hl) as [? _]. }
  assert (Hdev' : ∀ id cfg,
            <[section := device_config]> (DeviceAgent.devices self) !! id = Some cfg ↔
            id ∈ seen ++ [section] ∧ String.prefix "device_" id = true ∧
            load_device config id = Ok cfg ∧ DeviceConfig.enabled cfg = true).
  { intros id cfg. rewrite elem_of_app, list_elem_of_singleton.
    destruct (decide (id = section)) as [->|Hne].
    - rewrite lookup_insert_eq. split.
      + intros [= <-]. by auto.
      + intros (_ & _ & Hl' & _). congruence.
    - rewrite lookup_insert_ne by done. rewrite Hdev.
      split; [intros (? & ? & ? & ?); by auto|].
      intros ([Hin| ->] & ? & ? & ?); done. }
  unfold setup_monitors. rewrite Hid.
  destruct (build_monitors device_config) as [|m ms] eqn:Hbuild.
  - split; [exact Hdev'|]. cbn [DeviceAgent.devices DeviceAgent.monitors].
    intros id monitors. rewrite Hmon. split.
    + intros (cfg & Hcfg & -> & Hne). exists cfg. split; [|done].
      destruct (decide (id = section)) as [->|Hneq].
      * apply Hdev in Hcfg as (_ & _ & Hl' & _).
        assert (cfg = device_config) as -> by congruence. by rewrite Hbuild in Hne.
      * by rewrite lookup_insert_ne.
    + intros (cfg & Hcfg & -> & Hne).
      destruct (decide (id = section)) as [->|Hneq].
      * rewrite lookup_insert_eq in Hcfg. injection Hcfg as <-. by rewrite Hbuild in Hne.
      * rewrite lookup_insert_ne in Hcfg by done. by exists cfg.
  - split; [exact Hdev'|]. cbn [DeviceAgent.devices DeviceAgent.monitors].
    intros id monitors. destruct (decide (id = section)) as [->|Hneq].
    + rewrite !lookup_insert_eq. split.
      * intros [= <-]. exists device_config. by rewrite Hbuild.
      * intros (cfg & [= <-] & -> & _). by rewrite Hbuild.
    + rewrite !lookup_insert_ne by done. by rewrite Hmon.
Qed.

Lemma load_devices_registered (config : ConfigParser.t) (todo : list string) :
  ∀ (seen : list string) (self : DeviceAgent.t),
  registered config seen self →
  registered config (seen ++ todo) (load_devices config todo self) ∧
  DeviceAgent.api_config (load_devices config todo self) = DeviceAgent.api_config self.
Proof.
  induction todo as [|section todo IH]; intros seen self Hreg.
  { by rewrite app_nil_r. }
  replace (seen ++ section :: todo) with ((seen ++ [section]) ++ todo)
    by by rewrite <- app_assoc.
  cbn [load_devices].
  destruct (String.prefix "device_" section) eqn:Hp.
  2:{ apply IH, registered_skip; [|done]. intros; congruence. }
  destruct (load_device config section) as [device_config|e] eqn:Hl.
  2:{ apply IH, registered_skip; [|done]. intros; congruence. }
  destruct (DeviceConfig.enabled device_config) eqn:He.
  2:{ apply IH, registered_skip; [|done]. intros cfg _ Hl' He'. congruence. }
  edestruct IH as [H1 H2]; [by apply registered_add|]. split; [exact H1|].
  rewrite H2. unfold setup_monitors. by destruct (build_monitors device_config).
Qed.

(** X25. After [DeviceAgent.__init__] the registered devices are exactly
    the sections of the file whose name starts with [device_], whose
    options load and which are enabled, each under the name of its
    section. A device has an entry in [monitors] exactly when one of its
    methods is known (ping, snmp or http, in any letter case and with
    spaces around); the entry lists a new monitor for each known method,
    in the order of the methods. Every registered device has the default
    thresholds and no HTTP credentials: the file cannot set them. *)
Theorem loaded_agent_registry (config : ConfigParser.t) (agent : DeviceAgent.t) :
  DeviceAgent_init config = Ok agent →
  (∀ id device_config,
     DeviceAgent.devices agent !! id = Some device_config ↔
     id ∈ ConfigParser.sections config ∧ String.prefix "device_" id = true ∧
     load_device config id = Ok device_config ∧
     DeviceConfig.enabled device_config = true) ∧
  (∀ id monitors,
     DeviceAgent.monitors agent !! id = Some monitors ↔
     ∃ device_config,
       DeviceAgent.devices agent !! id = Some device_config ∧
       monitors = omap (monitor_of_method device_config)
                    (DeviceConfig.monitoring_methods device_config) ∧
       monitors ≠ []) ∧
  (∀ id device_config,
     DeviceAgent.devices agent !! id = Some device_config →
     DeviceConfig.id device_config = id ∧
     DeviceConfig.http_auth device_config = None ∧
     DeviceConfig.critical_thresholds device_config = default_critical_thresholds ∧
     DeviceConfig.warning_thresholds device_config = default_warning_thresholds).
Proof.
  unfold DeviceAgent_init, load_configuration.
  set (empty := DeviceAgent.mk ∅ ∅ None).
  assert (∀ api, registered config [] (DeviceAgent.mk ∅ ∅ api)) as Hempty.
  { intros api. split.
    - intros id cfg. cbn. rewrite lookup_empty. split; [done|].
      intros [Hin _]. by apply elem_of_nil in Hin.
    - intros id ms. cbn. rewrite lookup_empty. split; [done|].
      intros (cfg & Hcfg & _). by rewrite lookup_empty in Hcfg. }
  assert (∀ self, registered config [] self →
            registered config (ConfigParser.sections config)
              (load_devices config (ConfigParser.sections config) self)) as Hload.
  { intros self Hreg. by apply (load_devices_registered config _ [] self). }
  intros Hinit.
  assert (registered config (ConfigParser.sections config) agent) as [Hdev Hmon].
  { destruct (ConfigParser.has_section config "api").
    - destruct (load_api_config config) as [api|e]; cbn [mbind result_bind] in Hinit;
        [|done].
      injection Hinit as <-. apply Hload, Hempty.
    - cbn [mbind result_bind] in Hinit. injection Hinit as <-. apply Hload, Hempty. }
  split; [exact Hdev|]. split.
  - intros id monitors. rewrite Hmon.
    split; intros (cfg & ? & ? & ?); exists cfg; by rewrite ?build_monitors_omap in *.
  - intros id cfg Hcfg. apply Hdev in Hcfg as (_ & _ & Hl & _).
    by apply load_device_fixed in Hl.
Qed.

(** Of five sections one registers a device, with two monitors for its
    three methods. *)
Lemma loaded_agent_registry_witness :
  (∀ id device_config,
     DeviceAgent.devices sample_agent !! id = Some device_config ↔
     id ∈ ConfigParser.sections sample_parsed_config ∧ String.prefix "device_" id = true ∧
     load_device sample_parsed_config id = Ok device_config ∧
     DeviceConfig.enabled device_config = true) ∧
  (∀ id monitors,
     DeviceAgent.monitors sample_agent !! id = Some monitors ↔
     ∃ device_config,
       DeviceAgent.devices sample_agent !! id = Some device_config ∧
       monitors = omap (monitor_of_method device_config)
                    (DeviceConfig.monitoring_methods device_config) ∧
       monitors ≠ []) ∧
  (∀ id device_config,
     DeviceAgent.devices sample_agent !! id = Some device_config →
     DeviceConfig.id device_config = id ∧
     DeviceConfig.http_auth device_config = None ∧
     DeviceConfig.critical_thresholds device_config = default_critical_thresholds ∧
     DeviceConfig.warning_thresholds device_config = default_warning_thresholds).
Proof.
  apply (loaded_agent_registry sample_parsed_config sample_agent). vm_compute. reflexivity.
Defined.

(** ** Registration with the API *)

(** [get_devices] with a token in hand: one request. *)
Lemma get_devices_fresh (self : APIClient.t) (w : backend) (listing : reply)
    (rest : list reply) :
  token_stale self (now w) = false →
  replies w = listing :: rest →
  get_devices (self, w)
  = (listed listing, (self, served w rest [EvGet (APIClient.token self)])).
Proof.
  intros Hfresh Hw. unfold get_devices, _ensure_authenticated. run_api.
  rewrite Hfresh. run_api. rewrite Hw. unfold listed.
  destruct listing as [e|status body]; [done|].
  destruct (status =? 200) eqn:Hs.
  - apply Z.eqb_eq in Hs as ->. by destruct body.
  - apply Z.eqb_neq in Hs. destruct status as [|[]|]; try done.
    all: repeat (match goal with |- context [match ?p with _ => _ end] => destruct p end);
      try done.
Qed.

(** The search of the listing for the id of the device. *)
Lemma any_has_id_others (id : string) (items : list json) :
  Forall (other_device id) items → any_has_id id items = Ok false.
Proof.
  induction 1 as [|d items (fields & -> & Hid) _ IH]; [done|].
  cbn [any_has_id json_get mbind result_bind].
  destruct (fields !! "id") as [[| | |s| |]|] eqn:E; simpl; try exact IH.
  destruct (String.eqb s id) eqn:Hs; [|exact IH].
  apply String.eqb_eq in Hs as ->. congruence.
Qed.

Lemma any_has_id_found (id : string) (before after : list json) (fields : gmap string json) :
  Forall (other_device id) before →
  fields !! "id" = Some (JStr id) →
  any_has_id id (before ++ JObj fields :: after) = Ok true.
Proof.
  intros Hbefore Hid. induction Hbefore as [|d items (f & -> & Hne) _ IH].
  - cbn [app any_has_id json_get mbind result_bind]. rewrite Hid. simpl.
    by rewrite String.eqb_refl.
  - cbn [app any_has_id json_get mbind result_bind].
    destruct (f !! "id") as [[| | |s| |]|] eqn:E; simpl; try exact IH.
    destruct (String.eqb s id) eqn:Hs; [|exact IH].
    apply String.eqb_eq in Hs as ->. congruence.
Qed.

(** A device that the listing has is not created; one that a listing of
    other devices lacks is. *)
Lemma ensure_device_exists_found (self : APIClient.t) (w : backend)
    (device_config : DeviceConfig.t) (listing : reply) (rest : list reply)
    (before after : list json) (fields : gmap string json) :
  token_stale self (now w) = false →
  replies w = listing :: rest →
  listed listing = JArr (before ++ JObj fields :: after) →
  Forall (other_device (DeviceConfig.id device_config)) before →
  fields !! "id" = Some (JStr (DeviceConfig.id device_config)) →
  ensure_device_exists device_config (self, w)
  = (tt, (self, served w rest [EvGet (APIClient.token self)])).
Proof.
  intros Hfresh Hw Hlist Hbefore Hid. unfold ensure_device_exists.
  cbv beta iota zeta delta [mbind api_bind]. rewrite (get_devices_fresh _ _ _ _ Hfresh Hw).
  rewrite Hlist. cbn [json_iter mbind result_bind].
  by rewrite (any_has_id_found _ _ _ _ Hbefore Hid).
Qed.

Lemma ensure_device_exists_absent (self : APIClient.t) (w : backend)
    (device_config : DeviceConfig.t) (listing : reply) (rest : list reply)
    (items : list json) :
  token_stale self (now w) = false →
  replies w = listing :: rest →
  listed listing = JArr items →
  Forall (other_device (DeviceConfig.id device_config)) items →
  ensure_device_exists device_config (self, w)
  = (tt, (create_device (create_data device_config)
            (self, served w rest [EvGet (APIClient.token self)])).2).
Proof.
  intros Hfresh Hw Hlist Hothers. unfold ensure_device_exists.
  cbv beta iota zeta delta [mbind api_bind]. rewrite (get_devices_fresh _ _ _ _ Hfresh Hw).
  rewrite Hlist. cbn [json_iter mbind result_bind].
  rewrite (any_has_id_others _ _ Hothers).
  by destruct (create_device _ _) as [ok s].
Qed.

(** X26. With a token in hand, [ensure_device_exists] lists the devices
    with one request. When the listing has an object with the id of the
    device, and only objects with other ids before it, nothing more is
    sent. When the listing is a list of objects with other ids, the device
    is created with [create_device]; so it is when the listing failed (the
    request raised, the status was not 200, the body did not decode),
    which [get_devices] turns into an empty list. *)
Theorem device_created_unless_listed (self : APIClient.t) (w : backend)
    (device_config : DeviceConfig.t) (listing : reply) (rest : list reply) :
  let id := DeviceConfig.id device_config in
  let after_listing := (self, served w rest [EvGet (APIClient.token self)]) in
  token_stale self (now w) = false →
  replies w = listing :: rest →
  (∀ before fields after,
     listed listing = JArr (before ++ JObj fields :: after) →
     Forall (other_device id) before →
     fields !! "id" = Some (JStr id) →
     ensure_device_exists device_config (self, w) = (tt, after_listing)) ∧
  (∀ items,
     listed listing = JArr items →
     Forall (other_device id) items →
     ensure_device_exists device_config (self, w)
     = (tt, (create_device (create_data device_config) after_listing).2)) ∧
  (listed listing = JArr [] →
   ensure_device_exists device_config (self, w)
   = (tt, (create_device (create_data device_config) after_listing).2)).
Proof.
  intros id after_listing Hfresh Hw. split; [|split].
  - intros before fields after. by apply ensure_device_exists_found.
  - intros items. by apply ensure_device_exists_absent.
  - intros Hlist.
    by apply (ensure_device_exists_absent self w device_config listing rest []).
Qed.

(** A listing that meets a connection reset: the device is created. *)
Lemma device_created_unless_listed_witness :
  let w := mk_backend [ReplyRaised connection_reset;
                       Reply 200 (Ok (JObj (<["id" := JStr "device_1700000000_ab12cd34"]> ∅)))]
             0 [] in
  ensure_device_exists sample_config (sample_client, w)
  = (tt, (sample_client,
          mk_backend [] 0 [EvGet (JStr "token-1");
                           EvPost (create_data sample_config) (JStr "token-1")])).
Proof.
  intros w.
  destruct (device_created_unless_listed sample_client w sample_config
              (ReplyRaised connection_reset)
              [Reply 200 (Ok (JObj (<["id" := JStr "device_1700000000_ab12cd34"]> ∅)))]
              eq_refl eq_refl) as (_ & _ & Hfailed).
  exact (Hfailed eq_refl).
Defined.

(** ** The monitoring loop *)

(** The classifier answers one of the four statuses and changes nothing of
    a monitor but its failure counter. *)
Lemma determine_status_known (self : DeviceMonitor.t) (metrics : gmap string Q)
    (response_time : Q) (error : option string) :
  (determine_status self metrics response_time error).1 ∈ severity_order ∧
  DeviceMonitor.config (determine_status self metrics response_time error).2
    = DeviceMonitor.config self ∧
  DeviceMonitor.max_failures (determine_status self metrics response_time error).2
    = DeviceMonitor.max_failures self.
Proof.
  unfold determine_status, severity_order.
  repeat (match goal with |- context [if ?b then _ else _] => destruct b end);
    cbn; (split; [by repeat constructor|done]).
Qed.

(** A sample made of what the classifier answered. *)
Ltac classified :=
  match goal with
  | |- context [determine_status ?self ?m ?rt ?e] =>
      pose proof (determine_status_known self m rt e) as (? & ? & ?);
      destruct (determine_status self m rt e) as [? ?]
  end;
  eexists _, _; (split; [reflexivity|]); cbn; done.

(** Each probe returns a sample of its device with a known status. *)
Lemma ping_check_device_known (self : DeviceMonitor.t) (now : Z) (run : ping_outcome) :
  ∃ sample self',
    PingMonitor_check_device self now run = Ok (sample, self') ∧
    DeviceMetrics.status sample ∈ severity_order ∧
    DeviceMetrics.device_id sample = DeviceConfig.id (DeviceMonitor.config self) ∧
    DeviceMonitor.config self' = DeviceMonitor.config self ∧
    DeviceMonitor.max_failures self' = DeviceMonitor.max_failures self.
Proof.
  unfold PingMonitor_check_device.
  destruct (match ping_try run with Ok _ => _ | Raise _ => _ end) as [[error rt] metrics].
  classified.
Qed.

Lemma http_check_device_known (self : DeviceMonitor.t) (now : Z) (net : http_server) :
  ∃ sample self',
    HTTPMonitor_check_device self now net = Ok (sample, self') ∧
    DeviceMetrics.status sample ∈ severity_order ∧
    DeviceMetrics.device_id sample = DeviceConfig.id (DeviceMonitor.config self) ∧
    DeviceMonitor.config self' = DeviceMonitor.config self ∧
    DeviceMonitor.max_failures self' = DeviceMonitor.max_failures self.
Proof.
  unfold HTTPMonitor_check_device.
  destruct (match http_try self net with Ok _ => _ | Raise _ => _ end) as [[metrics rt] error].
  classified.
Qed.

Lemma snmp_check_device_known (SNMP_AVAILABLE : bool) (self : DeviceMonitor.t) (now : Z)
    (run : ping_outcome) (net : snmp_agent) (elapsed_ms : Q) :
  ∃ sample self',
    SNMPMonitor_check_device SNMP_AVAILABLE self now run net elapsed_ms
      = Ok (sample, self') ∧
    DeviceMetrics.status sample ∈ severity_order ∧
    DeviceMetrics.device_id sample = DeviceConfig.id (DeviceMonitor.config self) ∧
    DeviceMonitor.config self' = DeviceMonitor.config self ∧
    DeviceMonitor.max_failures self' = DeviceMonitor.max_failures self.
Proof.
  unfold SNMPMonitor_check_device. destruct SNMP_AVAILABLE; cbn [negb].
  - unfold snmp_try. classified.
  - unfold _fallback_to_ping.
    destruct (ping_check_device_known (DeviceMonitor_init (DeviceMonitor.config self)) now run)
      as (sample & pm & -> & Hstatus & Hid & _).
    cbn [mbind result_bind]. by eexists _, _.
Qed.

(** Runs the check of a monitor by the lemma of its class. *)
Ltac check_by_class m input avail :=
  destruct m as [self|self|self]; cbn [check_device monitor_state];
  [ destruct (ping_check_device_known self (at_time input) (ping_run input))
      as (? & ? & -> & ? & ? & ? & ?)
  | destruct (snmp_check_device_known avail self (at_time input) (ping_run input)
                (snmp_net input) (snmp_elapsed_ms input))
      as (? & ? & -> & ? & ? & ? & ?)
  | destruct (http_check_device_known self (at_time input) (http_net input))
      as (? & ? & -> & ? & ? & ? & ?) ];
  cbn [mbind result_bind].

(** X27. A check by a monitor of any class returns a sample, whatever the
    device does: its status is one of ["offline"], ["critical"],
    ["warning"], ["online"], its device is that of the monitor, and the
    monitor keeps its class, its configuration and its failure limit. *)
Theorem probe_sample_known (SNMP_AVAILABLE : bool) (m : monitor) (input : probe_input) :
  ∃ sample m',
    check_device SNMP_AVAILABLE m input = Ok (sample, m') ∧
    DeviceMetrics.status sample ∈ severity_order ∧
    DeviceMetrics.device_id sample
      = DeviceConfig.id (DeviceMonitor.config (monitor_state m)) ∧
    same_monitor m m'.
Proof. check_by_class m input SNMP_AVAILABLE; by eexists _, _. Qed.

(** The checks of a pass all return: a sample for each monitor, in order,
    with a known status. *)
Lemma run_monitors_returns (SNMP_AVAILABLE : bool) (world : nat → probe_input)
    (monitors : list monitor) : ∀ i : nat,
  ∃ results monitors',
    run_monitors SNMP_AVAILABLE monitors i world = (monitors', Ok results) ∧
    length results = length monitors ∧
    Forall (λ r, DeviceMetrics.status r ∈ severity_order) results ∧
    Forall2 same_monitor monitors monitors'.
Proof.
  induction monitors as [|m monitors IH]; intros i.
  - exists [], []. by repeat split.
  - cbn [run_monitors].
    destruct (IH (S i)) as (results & monitors' & Hrest & Hlen & Hall & Hsames).
    check_by_class m (world i) SNMP_AVAILABLE; rewrite Hrest; cbn [mbind result_bind];
      (eexists _, _; split; [reflexivity|]);
      (split; [simpl; by rewrite Hlen|]); split; by constructor.
Qed.

(** X28. A pass of the monitoring loop over a device that has monitors
    never takes the exception arm: every check returns, the samples
    aggregate, and the pass is one call of [update_device] with the
    status and the metrics of the aggregate followed by a pause of
    [poll_interval] (not the 60 seconds of the exception arm). The status
    sent is one of the four, and it is the status the loop remembers. *)
Theorem monitor_cycle_sends_worst (SNMP_AVAILABLE : bool) (device_id : string)
    (device_config : DeviceConfig.t) (monitors : list monitor) (last_status : string)
    (input : cycle_input) :
  monitors ≠ [] →
  ∃ results monitors' combined,
    run_monitors SNMP_AVAILABLE monitors 0 (probes input) = (monitors', Ok results) ∧
    Forall2 same_monitor monitors monitors' ∧
    combine_monitoring_results (combined_at input) results = Some combined ∧
    DeviceMetrics.status combined ∈ severity_order ∧
    ∀ s : APIClient.t * backend,
      monitor_cycle SNMP_AVAILABLE device_id device_config monitors last_status input s
      = ((monitors', DeviceMetrics.status combined),
         (sleep (DeviceConfig.poll_interval device_config)
            (update_device device_id (update_data combined) s).2).2).
Proof.
  intros Hne.
  destruct (run_monitors_returns SNMP_AVAILABLE (probes input) monitors 0)
    as (results & monitors' & Hrun & Hlen & Hknown & Hsame).
  destruct results as [|first rest].
  { destruct monitors; [done|]. simpl in Hlen. lia. }
  eexists (first :: rest), monitors', _. split; [exact Hrun|]. split; [exact Hsame|].
  split; [reflexivity|]. cbn [DeviceMetrics.status]. split.
  { rewrite Forall_forall in Hknown. apply Hknown, min_from_elem. }
  intros s. unfold monitor_cycle. rewrite Hrun.
  unfold combine_monitoring_results at 1. cbn [worst_status py_min].
  cbv beta iota zeta delta [mbind api_bind mret api_ret].
  destruct (update_device _ _ s) as [success s1]. cbn [snd].
  destruct (sleep _ s1) as [[] s2]. cbn [snd DeviceMetrics.status].
  f_equal. f_equal.
  destruct (String.eqb _ last_status) eqn:E; [|done].
  by apply String.eqb_eq in E.
Qed.

(** A ping monitor and an HTTP monitor during an outage. *)
Lemma monitor_cycle_sends_worst_witness :
  let monitors := [PingMonitor (DeviceMonitor_init sample_config);
                   HTTPMonitor (DeviceMonitor_init sample_config)] in
  let input := sample_outage in
  ∃ results monitors' combined,
    run_monitors true monitors 0 (probes input) = (monitors', Ok results) ∧
    Forall2 same_monitor monitors monitors' ∧
    combine_monitoring_results (combined_at input) results = Some combined ∧
    DeviceMetrics.status combined ∈ severity_order ∧
    ∀ s : APIClient.t * backend,
      monitor_cycle true "device_router_01" sample_config monitors "unknown" input s
      = ((monitors', DeviceMetrics.status combined),
         (sleep (DeviceConfig.poll_interval sample_config)
            (update_device "device_router_01" (update_data combined) s).2).2).
Proof.
  intros monitors input. by apply monitor_cycle_sends_worst.
Defined.

(** One pass over a device that has a ping monitor only, when the ping
    fails. *)
Lemma failed_ping_cycle (SNMP_AVAILABLE : bool) (device_id : string)
    (device_config : DeviceConfig.t) (self : DeviceMonitor.t) (last_status : string)
    (input : cycle_input) (s : APIClient.t * backend) :
  let count := DeviceMonitor.consecutive_failures self + 1 in
  ping_failed (ping_run (probes input 0%nat)) = true →
  (monitor_cycle SNMP_AVAILABLE device_id device_config [PingMonitor self] last_status
     input s).1
  = ([PingMonitor (DeviceMonitor.set_consecutive_failures count self)],
     if count >=? DeviceMonitor.max_failures self then "offline" else "warning").
Proof.
  intros count Hfail. unfold monitor_cycle. cbn [run_monitors check_device].
  unfold PingMonitor_check_device.
  destruct (failed_ping_locals self _ Hfail) as (error & response_time & Herr & ->).
  rewrite determine_status_error by done. cbv zeta. fold count.
  cbn [mbind result_bind].
  set (status := if count >=? DeviceMonitor.max_failures self then "offline" else "warning").
  assert (Hstatus : status
                    = if count >=? DeviceMonitor.max_failures self
                      then "offline" else "warning") by done.
  clearbody status.
  unfold combine_monitoring_results. cbn [worst_status py_min min_from].
  cbv beta iota zeta delta [mbind api_bind mret api_ret].
  destruct (update_device _ _ s) as [success s1].
  destruct (sleep _ s1) as [[] s2]. cbn [fst DeviceMetrics.status]. f_equal.
  rewrite Hstatus. destruct (String.eqb _ last_status) eqn:E; [|done].
  by apply String.eqb_eq in E.
Qed.

(** X29. A device monitored by ping alone, over passes of the loop in
    each of which the ping fails: after the passes the failure counter of
    its monitor has gone up by their number, and the status the loop holds
    (the one of the last update) is ["offline"] when the counter has
    reached [max_failures], ["warning"] before, whatever the backend
    answered to the updates. *)
Theorem failing_pings_reach_offline (SNMP_AVAILABLE : bool) (device_id : string)
    (device_config : DeviceConfig.t) (cycles : list cycle_input) :
  ∀ (self : DeviceMonitor.t) (last_status : string) (s : APIClient.t * backend),
  cycles ≠ [] →
  Forall (λ input, ping_failed (ping_run (probes input 0%nat)) = true) cycles →
  let count := DeviceMonitor.consecutive_failures self + Z.of_nat (length cycles) in
  (monitor_loop SNMP_AVAILABLE device_id device_config [PingMonitor self] last_status
     cycles s).1
  = ([PingMonitor (DeviceMonitor.set_consecutive_failures count self)],
     if count >=? DeviceMonitor.max_failures self then "offline" else "warning").
Proof.
  induction cycles as [|input cycles IH]; intros self last_status s Hne Hfail count; [done|].
  apply Forall_cons in Hfail as [Hfirst Hfail].
  cbn [monitor_loop]. cbv beta iota zeta delta [mbind api_bind].
  pose proof (failed_ping_cycle SNMP_AVAILABLE device_id device_config self last_status
                input s Hfirst) as Hcycle. cbv zeta in Hcycle.
  destruct (monitor_cycle _ _ _ _ _ _ s) as [[monitors status] s1].
  cbn [fst] in Hcycle. injection Hcycle as -> ->.
  destruct cycles as [|next cycles].
  - cbn [monitor_loop]. cbv beta iota zeta delta [mret api_ret]. cbn [fst].
    unfold count. by simpl.
  - rewrite IH by done. cbn [DeviceMonitor.consecutive_failures
      DeviceMonitor.set_consecutive_failures DeviceMonitor.max_failures
      DeviceMonitor.config DeviceMonitor.last_status DeviceMonitor.last_metrics].
    unfold count.
    replace (DeviceMonitor.consecutive_failures self + 1
             + Z.of_nat (length (next :: cycles)))
      with (DeviceMonitor.consecutive_failures self
            + Z.of_nat (length (input :: next :: cycles)))
      by (simpl length; lia).
    done.
Qed.

(** Three passes during an outage, from a new monitor. *)
Lemma failing_pings_reach_offline_witness :
  let down := sample_outage in
  (monitor_loop true "device_router_01" sample_config
     [PingMonitor (DeviceMonitor_init sample_config)] "unknown" [down; down; down]
     (sample_client, mk_backend [] 0 [])).1
  = ([PingMonitor (DeviceMonitor.set_consecutive_failures 3 (DeviceMonitor_init sample_config))],
     "offline").
Proof.
  intros down.
  apply (failing_pings_reach_offline true "device_router_01" sample_config [down; down; down]
           (DeviceMonitor_init sample_config) "unknown" (sample_client, mk_backend [] 0 []));
    [done|by repeat constructor].
Defined.

(** X30. A monitoring session for a registered device that has monitors,
    with an API configured: when the login at the start is answered with
    a token whose lifetime is a whole number of seconds above 300 (so that
    the token is not expired at the next reading of the clock, which does
    not move during a request) and the listing has the device, the session
    opens with exactly the login and the listing, the loop starts from
    there with the token and its expiry, and the agent ends with the
    monitors as the loop left them. *)
Theorem session_of_listed_device (SNMP_AVAILABLE : bool) (self : DeviceAgent.t)
    (device_id : string) (cycles : list cycle_input) (w : backend)
    (device_config : DeviceConfig.t) (monitors : list monitor) (api_config : APIConfig.t)
    (login : gmap string json) (tok : json) (lifetime : Z) (listing : reply)
    (rest : list reply) (before after : list json) (fields : gmap string json) :
  DeviceAgent.devices self !! device_id = Some device_config →
  DeviceAgent.monitors self !! device_id = Some monitors →
  monitors ≠ [] →
  DeviceAgent.api_config self = Some api_config →
  replies w = Reply 200 (Ok (JObj login)) :: listing :: rest →
  login !! "token" = Some tok →
  json_truthy tok = true →
  default (JNum (24 * 3600)%Q) (login !! "expires_in") = JNum (inject_Z lifetime) →
  300 < lifetime →
  let expires := (now w + inject_Z (lifetime - 300))%Q in
  is_datetime (now w) →
  is_datetime expires →
  listed listing = JArr (before ++ JObj fields :: after) →
  Forall (other_device (DeviceConfig.id device_config)) before →
  fields !! "id" = Some (JStr (DeviceConfig.id device_config)) →
  let client := APIClient.mk api_config tok (Some expires) in
  let started :=
    served w rest [EvLogin (APIConfig.username api_config) (APIConfig.password api_config);
                   EvGet tok] in
  monitor_device SNMP_AVAILABLE self device_id cycles w
  = (let '((monitors', _), (_, w')) :=
       monitor_loop SNMP_AVAILABLE device_id device_config monitors "unknown" cycles
         (client, started) in
     Ok (DeviceAgent.mk (DeviceAgent.devices self)
           (<[device_id := monitors']> (DeviceAgent.monitors self))
           (DeviceAgent.api_config self), w')).
Proof.
  intros Hdev Hmon Hne Hapi Hw Htok Htruthy Hlife Hlong expires Hnow Hexpires
    Hlist Hbefore Hid client started.
  destruct (whole_lifetime_expiry lifetime (now w) Hnow Hexpires) as [Hsec Hadd].
  rewrite <- Hlife in Hsec.
  unfold monitor_device. rewrite Hdev. cbn [raise_of mbind result_bind].
  unfold dict_get. rewrite Hmon. cbn [default from_option id].
  destruct monitors as [|m ms]; [done|]. rewrite Hapi.
  unfold APIClient_aenter. cbv beta iota zeta delta [mbind api_bind mret api_ret].
  rewrite (authenticate_accepted _ _ _ _ _ _ _ Hw Htok Hsec Hadd).
  cbn [APIClient.config APIClient_init]. fold expires client.
  assert (token_stale client (now (served w (listing :: rest)
                                     [login_event (APIClient_init api_config)])) = false)
    as Hfresh.
  { unfold token_stale, client. cbn [APIClient.token APIClient.token_expires served now].
    rewrite Htruthy. cbn [negb orb]. apply Qge_bool_false. unfold expires.
    assert (0 < inject_Z (lifetime - 300))%Q.
    { change 0%Q with (inject_Z 0). rewrite <- Zlt_Qlt. lia. }
    lra. }
  rewrite (ensure_device_exists_found client _ device_config listing rest before after
             fields Hfresh eq_refl Hlist Hbefore Hid).
  unfold started, served, login_event.
  cbn [trace replies now APIClient.config APIClient.token client APIClient_init].
  by rewrite <- app_assoc.
Qed.

(** The sample agent, a backend that knows its router and a loop that is
    stopped before its first pass. *)
Lemma session_of_listed_device_witness :
  let login : gmap string json :=
    <["token" := JStr "token-1"]> (<["expires_in" := JNum 3600%Q]> ∅) in
  let known : gmap string json := <["id" := JStr "device_router_01"]> ∅ in
  let w := mk_backend [Reply 200 (Ok (JObj login)); Reply 200 (Ok (JArr [JObj known]))]
             1000 [] in
  monitor_device true sample_agent "device_router_01" [] w
  = Ok (sample_agent,
        mk_backend [] 1000 [EvLogin "Admin" "Admin123"; EvGet (JStr "token-1")]).
Proof.
  intros login known w.
  apply (session_of_listed_device true sample_agent "device_router_01" [] w sample_router
           [PingMonitor (DeviceMonitor_init sample_router);
            SNMPMonitor (DeviceMonitor_init sample_router)]
           sample_api_config login (JStr "token-1") 3600
           (Reply 200 (Ok (JArr [JObj known]))) [] [] [] known);
    try reflexivity; try done; by vm_compute.
Defined.
